(* ===== verification/_CoqProject ===== *)
-Q . S2P
Prelude.v
CompactSize.v
Crypto.v
Hex.v
Script.v
ScriptParse.v
Wire.v
Sign.v
Engine.v
Main.v
Spend.v
MainSteps.v
