(* ===== verification/Prelude.v ===== *)
(** * A verification development for qshuai/btakl

    ** The program

    [src/main.go] (119 lines) builds, signs and prints one Bitcoin testnet
    transaction.  [main] derives the pay-to-pubkey-hash locking script of
    its own address ([getPkScript]: [btcutil.DecodeAddress], then
    [txscript.PayToAddrScript]), parses the id of the output it spends
    ([chainhash.NewHashFromStr]), decodes its private key
    ([btcutil.DecodeWIF]), builds a bare 2-of-3 multisig locking script
    with [txscript.ScriptBuilder] from three hex-decoded public keys, and
    calls [assembleTx].  [assembleTx] fills a [wire.MsgTx] with version 1,
    lock time 0, a change output of 900000 satoshi to the address and an
    output of 100000 satoshi to the multisig script, and one input spending
    the given outpoint with the final sequence number, then hands it to
    [sign(&tx, 1100000, pkScript, wif)].  [main] finally serialises the
    signed transaction ([MsgTx.Serialize]) and prints its hash and its hex
    encoding.  [sign] is not defined under [src/]; it is modelled from the
    spec (4.3) as a single-key P2PKH signer: a [SigningError] for any
    other locking script, otherwise btcd's legacy signer applied to every
    input in order.

    ** Files

    - [Prelude] (this file): bytes as [list byte], little-endian integers
      ([put_le]/[read_le] over coqutil's [le_split]/[le_combine]), a result
      monad [result] ([Ok]/[Err] with a Go error string) and a byte-reader
      monad [reader] (a function from the unread bytes to a result and the
      rest), the notation [b |> f] for Go's method chains, the tactics and
      the hint databases [btc]/[btc_rw] of the development.
    - [CompactSize] (module [CompactSize]): [WriteVarInt]/[ReadVarInt] of
      btcd's [wire/common.go].
    - [Crypto]: the class [Crypto] of the hash functions, key serialisations
      and ECDSA signing that the program calls, with the lengths they
      guarantee; [toy_crypto] is an executable instance for the examples.
    - [Hex] (modules [Hex], [ChainHash]): Go's [encoding/hex] and the hash
      strings of [chainhash].
    - [Script] (module [Script]): [txscript.ScriptBuilder] (state: the
      script so far and a sticky error; [AddOp], [AddData], [Script]) and
      the standard locking scripts ([PayToAddrScript]); the abstract
      specification [encode_items] of a chain of opcodes and pushes.
    - [ScriptParse] (module [Parse]): the tokenizer [parseScript] (fuel: the
      script length) and [unparseScript], used by the signature hash.
    - [Wire] (module [Wire]): [wire.MsgTx], its encoder [BtcEncode]
      ([Serialize], [SerializeNoWitness]), its decoder [BtcDecode]
      ([Deserialize]) with the segwit marker and all bounds checks, and
      [TxHash].
    - [Sign] (module [Sign]): the legacy signature hash
      [calcSignatureHash], [CalcSignatureHash], [RawTxInSignature],
      [SignatureScript] of btcd and the repository's [sign]: the P2PKH
      check [isPubKeyHash] of spec 4.3, then a loop over the inputs that
      writes each unlocking script into the transaction.
    - [Main] (module [Main]): the constants, the [utxo] struct, [getPkScript],
      [assembleTx] (split into its output and input steps) and [main] as a
      function to its [Outcome] (exit code or panic, with the printed
      lines).  Address and WIF decoding and terminal colours are the class
      [Env]; [toy_env] is an executable instance.
    - [Engine] (module [Engine]): btcd's script interpreter for the
      opcodes of the program's scripts (pushes, small integers, [OP_VERIFY],
      [OP_DUP], [OP_EQUAL], [OP_EQUALVERIFY], [OP_HASH160],
      [OP_CODESEPARATOR], [OP_CHECKSIG], [OP_CHECKMULTISIG]).  Its state,
      the record [Engine], is the data stack, the operation count and the
      script since the last separator; [executeOpcode] is one step with the
      operation, element-size, minimal-push and stack-size checks,
      [execOps] runs a script, [VerifyScript] is [NewEngine], [Execute] and
      [CheckErrorCondition] under the flags of the record [ScriptFlags].
    - [Spend] (module [Spend]): the program's two locking scripts run by
      the interpreter: the P2PKH input [assembleTx] signs, and spends of
      the 2-of-3 multisig output [main] pays to; and the output of [main]
      decoded and verified end to end.

    - [MainSteps] (module [MainSteps]): [main] again, statement by
      statement: a configuration [Config] is the next statement ([Stmt],
      one constructor per call of lines 38-90 carrying the Go locals live
      there) and the lines printed so far; [main_step] runs one statement
      (the call and its [if err != nil], a [fmt.Println], [os.Exit]), one
      definition [stmt_*] per statement, and [main_red] is its graph; it
      makes the order of the prints and exits explicit.

    The components interact as the program calls them: [Main] uses the
    builder and [PayToAddrScript] of [Script], [Sign] calls the tokenizer
    and the encoder of [Wire] through the signature hash, and [Engine]
    evaluates, with the same signature hash, the scripts [Main] builds.

    Every operation is an executable function; failure is the [Err] of a
    [result] carrying the Go error message, and state is passed explicitly
    (the builder's record, the reader's unread bytes, the transaction
    through the signing loop).  Integers are [Z] kept at their Go width:
    [uint32(u.index)] is [x mod 2^32], the decoder reads the version as a
    signed 32-bit value, counts and values are checked against btcd's
    bounds.

    ** What is proved

    - [main] (C1, C2, C9): on the program's address it exits with code 0
      and prints the signed transaction described above ([main_spec]);
      its outcome on every branch ([main_outcome]), including the
      signer's refusal of every address type but P2PKH; it never panics.
    - Script validity (C3-C6, in [Spend]): the input [assembleTx] signs
      passes the P2PKH script it was signed against under every
      combination of the flags; an input spending the multisig output with
      [OP_0 <sig1> <sig3>] passes it, and the two signatures swapped fail
      with the error btcd reports (spec 8); when the address is not the
      key's, the input fails at [OP_EQUALVERIFY].
    - The program end to end (C7, spec 6's scenario): when the address is
      the key's and [main] exits with 0, the raw hex it prints decodes
      ([Hex.DecodeString], then [Deserialize]) to the printed transaction,
      with one input and two outputs, and that input passes the spent
      output's locking script: [Main], [Hex], [Wire] and [Engine] composed.
    - Output (C8, in [MainSteps]): along every run, nothing is printed
      before [main] fails (one line, exit code 1) or has serialised its
      transaction (the two result lines): all or nothing (spec 7).
    - The assembler (C10, C13): the shape of [assembleTx]'s result through
      the signing loop, and the round trip of its serialisation.
    - The locking script and the printed hash (C11, C12, C14):
      [getPkScript] refines the canonical P2PKH encoding and the
      tokenizer reads it back as its chain; the printed hash is the
      reversed double hash of the printed serialisation.

    Under these, the library proves of the components it models: the
    [ScriptBuilder] refinement and its size invariant, [ReadVarInt]
    accepting exactly the canonical encodings, [unparseScript] inverting
    [parseScript], the decoder rejecting transactions without inputs, the
    interpreter's step lemmas for the opcodes of the two scripts, and the
    invariant of every interpreter run ([Engine.execOps_invariant]: the
    operation count, the stack size and the script since the last
    separator stay within their bounds).

    Every theorem with hypotheses has a witness that applies it on a
    concrete input evaluated with [toy_crypto] and [toy_env].

    ** Fuel and bounds

    [parse_loop] takes the script length as fuel; each opcode consumes at
    least one byte, so the fuel suffices ([parseScript_fuel]).  All other
    loops are structural ([read_list] over a decoded count, the signing
    loop over the input indices, [execOps] over the parsed script, the
    multisig loop over the signatures and keys), so every execution of
    the interpreter terminates with a value.  The statement machine of
    [MainSteps] has no loop; its example run uses 11 steps of [main_run],
    the number of statements from the first one to the exit.

    ** Not modelled

    SHA-256, RIPEMD-160 and secp256k1 ECDSA (the class [Crypto]: only the
    lengths they return and that a signature verifies under its key are
    assumed of them); base58 address and WIF decoding and [tcolor] (the
    class [Env]); network parameters; output of [fmt.Println] beyond the
    printed strings.  In the interpreter: the opcodes other than those
    listed (they stop the model with an error), the alternate stack and
    conditionals, P2SH and witness program evaluation, and the DER and
    public-key encoding checks, which are part of [VerifyDER].  The
    validity theorems assume signatures longer than 33 bytes (so none
    occurs inside a 20-byte hash or a 33-byte key, which the signature
    removal of [removeOpcodeByData] would otherwise touch), and the
    swapped-multisig theorem assumes that a signature does not verify
    under a different compressed key.

    Every statement of [src/main.go] is modelled; the lines left out are
    the package clause, the imports and the delimiters of the [const] and
    [struct] blocks.  The decoders of [btcutil] stay the class [Env]
    because the spec treats them as external collaborators and says
    nothing of their encoding, and the interpreter stays limited to the
    opcodes the program's scripts reach, since the rest of btcd's engine
    is library code the spec does not describe. *)

From Stdlib Require Import ZArith List String Ascii Lia DecimalString.
From coqutil Require Export Byte Word.LittleEndianList.
From stdpp Require Import base decidable list sets.
Import ListNotations.

Declare Scope btc_scope.
Delimit Scope btc_scope with btc.
Open Scope btc_scope.

(** ** Bytes *)

(** A Go [[]byte] is a list of bytes. *)
Abbreviation bytes := (list Init.Byte.byte).

#[global] Instance byte_eq_decision : EqDecision Init.Byte.byte := Byte.byte_eq_dec.

(** The byte whose value is [z mod 256] (Go's [byte(z)] conversion). *)
Abbreviation b8 z := (byte.of_Z z%Z).

(** [make([]byte, n)]: [n] zero bytes. *)
Definition zeros (n : nat) : bytes := repeat Byte.x00 n.

(** [fmt.Sprintf("%d", n)] for a non-negative [n]. *)
Definition nat_to_string (n : nat) : string := NilEmpty.string_of_uint (Nat.to_uint n).
Definition Z_to_string (z : Z) : string :=
  if Z.ltb z 0 then "-" ++ nat_to_string (Z.to_nat (- z)) else nat_to_string (Z.to_nat z).

(** The two lower-case hexadecimal digits of a byte ([fmt "%02x"]). *)
Definition hex_digit (n : Z) : Ascii.ascii :=
  if Z.ltb n 10 then Ascii.ascii_of_nat (48 + Z.to_nat n) else Ascii.ascii_of_nat (87 + Z.to_nat n).
Definition hex_byte (x : Init.Byte.byte) : string :=
  String (hex_digit (Z.shiftr (byte.unsigned x) 4))
    (String (hex_digit (Z.land (byte.unsigned x) 15)) EmptyString).

(** Go's method chaining [b.F(x).G(y)] reads [b |> F x |> G y]. *)
Notation "b |> f" := (f b) (at level 41, left associativity, only parsing) : btc_scope.

(** ** Results: Go's [(T, error)] pairs

    A Go function returning [(v, err)] is modelled as a [result]: [Ok v] when
    [err == nil], [Err msg] when it is not, [msg] being [err.Error()]. *)
Inductive result (A : Type) : Type :=
| Ok (a : A)
| Err (msg : string).
Arguments Ok {A} a.
Arguments Err {A} msg.

#[global] Instance result_ret : MRet result := fun _ a => Ok a.
#[global] Instance result_bind : MBind result :=
  fun _ _ f m => match m with Ok a => f a | Err e => Err e end.

Definition is_ok {A} (r : result A) : bool :=
  match r with Ok _ => true | Err _ => false end.

(** ** Readers: Go's [io.Reader] over an in-memory buffer

    A decoder reads from a [bytes.Reader]; its state is the unread suffix. *)
Definition reader (A : Type) : Type := bytes -> result (A * bytes).

#[global] Instance reader_ret : MRet reader := fun _ a bs => Ok (a, bs).
#[global] Instance reader_bind : MBind reader :=
  fun _ _ f m bs => match m bs with Ok (a, r) => f a r | Err e => Err e end.

(** [io.ReadFull(r, buf)] with [len(buf) = n]: [io.EOF] when nothing is
    left, [io.ErrUnexpectedEOF] when fewer than [n] bytes are left. *)
Definition read_full (n : nat) : reader bytes := fun bs =>
  if Nat.ltb (length bs) n then
    if Nat.eqb (length bs) 0 then Err "EOF" else Err "unexpected EOF"
  else Ok (firstn n bs, skipn n bs).

(** ** Fixed-width little-endian integers ([encoding/binary.LittleEndian]) *)

(** [PutUintN]: the low [n] bytes of [z], least significant first. *)
Definition put_le (n : nat) (z : Z) : bytes := le_split n z.

(** [binarySerializer.UintN(r, littleEndian)]. *)
Definition read_le (n : nat) : reader Z := fun bs =>
  match read_full n bs with
  | Ok (b, r) => Ok (le_combine b, r)
  | Err e => Err e
  end.

(** Go's conversion of an unsigned [w]-bit value to the signed type of the
    same width ([int32(u)], [int64(u)]). *)
Definition to_signed (w : Z) (u : Z) : Z :=
  if Z.ltb u (2 ^ (w - 1)) then u else u - 2 ^ w.

(** Range of a Go integer type. *)
Definition in_unsigned (w : Z) (z : Z) : Prop := (0 <= z < 2 ^ w)%Z.
Definition in_signed (w : Z) (z : Z) : Prop := (- 2 ^ (w - 1) <= z < 2 ^ (w - 1))%Z.

(** ** Automation *)

Create HintDb btc discriminated.
Create Rewrite HintDb btc_rw.

(** ** Generic lemmas *)

Lemma reader_bind_Ok {A B} (m : reader A) (f : A -> reader B) bs a r :
  m bs = Ok (a, r) -> (m ≫= f) bs = f a r.
Proof. intros H. unfold mbind, reader_bind. by rewrite H. Qed.

Lemma reader_bind_Err {A B} (m : reader A) (f : A -> reader B) bs e :
  m bs = Err e -> (m ≫= f) bs = Err e.
Proof. intros H. unfold mbind, reader_bind. by rewrite H. Qed.

Lemma reader_ret_eq {A} (a : A) bs : (mret a : reader A) bs = Ok (a, bs).
Proof. reflexivity. Qed.

Lemma reader_bind_inv {A B} (m : reader A) (f : A -> reader B) bs b r :
  (m ≫= f) bs = Ok (b, r) -> exists a r', m bs = Ok (a, r') /\ f a r' = Ok (b, r).
Proof.
  unfold mbind, reader_bind. destruct (m bs) as [[a r']|e]; [eauto|discriminate].
Qed.

Lemma read_full_app n (bs rest : bytes) :
  length bs = n -> read_full n (bs ++ rest) = Ok (bs, rest).
Proof.
  intros <-. unfold read_full. rewrite length_app.
  destruct (Nat.ltb_spec (length bs + length rest) (length bs)); [lia|].
  by rewrite take_app_length, drop_app_length.
Qed.

Lemma read_full_Ok n (bs x rest : bytes) :
  read_full n bs = Ok (x, rest) -> bs = x ++ rest /\ length x = n.
Proof.
  unfold read_full. destruct (Nat.ltb_spec (length bs) n).
  - by destruct (Nat.eqb _ _).
  - intros [= <- <-]. split; [by rewrite take_drop | rewrite length_take; lia].
Qed.

Lemma length_put_le n z : length (put_le n z) = n.
Proof. apply length_le_split. Qed.

Lemma read_le_put_le n z (rest : bytes) :
  read_le n (put_le n z ++ rest) = Ok (z mod 2 ^ (Z.of_nat n * 8), rest)%Z.
Proof.
  unfold read_le. rewrite read_full_app by apply length_put_le.
  unfold put_le. by rewrite le_combine_split.
Qed.

Lemma read_le_put_le_small n z (rest : bytes) :
  (0 <= z < 2 ^ (8 * Z.of_nat n))%Z -> read_le n (put_le n z ++ rest) = Ok (z, rest).
Proof. intros. rewrite read_le_put_le, Z.mod_small; [done | by rewrite Z.mul_comm]. Qed.

Lemma read_le_Ok n (bs rest : bytes) v :
  read_le n bs = Ok (v, rest) -> exists x, bs = x ++ rest /\ length x = n /\ v = le_combine x.
Proof.
  unfold read_le. destruct (read_full n bs) as [[x r]|e] eqn:E; [|discriminate].
  intros [= <- <-]. apply read_full_Ok in E as [-> ?]. eauto.
Qed.

Lemma put_le_mod n z : put_le n (z mod 2 ^ (Z.of_nat n * 8))%Z = put_le n z.
Proof. unfold put_le. symmetry. apply le_split_mod. Qed.

Lemma put_le_combine (x : bytes) : put_le (length x) (le_combine x) = x.
Proof. apply split_le_combine. Qed.

Lemma put_le_combine_n n (x : bytes) : length x = n -> put_le n (le_combine x) = x.
Proof. intros <-. apply put_le_combine. Qed.

Lemma le_combine_range (x : bytes) : (0 <= le_combine x < 2 ^ (8 * Z.of_nat (length x)))%Z.
Proof. apply le_combine_bound. Qed.

Lemma to_signed_mod w z :
  (0 < w)%Z -> in_signed w z -> to_signed w (z mod 2 ^ w) = z.
Proof.
  unfold in_signed, to_signed. intros Hw [Hlo Hhi].
  assert (2 ^ w = 2 * 2 ^ (w - 1))%Z as Hp.
  { rewrite <- Z.pow_succ_r by lia. f_equal. lia. }
  destruct (Z.ltb_spec z 0).
  - rewrite <- (Z.mod_unique z (2 ^ w) (-1) (z + 2 ^ w)) by lia.
    destruct (Z.ltb_spec (z + 2 ^ w) (2 ^ (w - 1))); lia.
  - rewrite Z.mod_small by lia. destruct (Z.ltb_spec z (2 ^ (w - 1))); lia.
Qed.

Lemma to_signed_range w u :
  (0 < w)%Z -> in_unsigned w u -> in_signed w (to_signed w u).
Proof.
  unfold in_signed, in_unsigned, to_signed. intros Hw [Hlo Hhi].
  assert (2 ^ w = 2 * 2 ^ (w - 1))%Z as Hp.
  { rewrite <- Z.pow_succ_r by lia. f_equal. lia. }
  destruct (Z.ltb_spec u (2 ^ (w - 1))); lia.
Qed.

Lemma mod_to_signed w u :
  (0 < w)%Z -> in_unsigned w u -> (to_signed w u mod 2 ^ w = u)%Z.
Proof.
  unfold in_unsigned, to_signed. intros Hw [Hlo Hhi].
  destruct (Z.ltb_spec u (2 ^ (w - 1))).
  - by apply Z.mod_small.
  - rewrite <- (Z.mod_unique (u - 2 ^ w) (2 ^ w) (-1) u); lia.
Qed.

#[export] Hint Rewrite read_le_put_le read_full_app length_put_le put_le_combine : btc_rw.
#[export] Hint Resolve length_put_le to_signed_mod to_signed_range : btc.

(** A loop [for i := 0; i < n; i++ { x[i] = read(r) }]. *)
Fixpoint read_list {A} (n : nat) (rd : reader A) : reader (list A) :=
  match n with
  | O => mret []
  | S n => x ← rd; xs ← read_list n rd; mret (x :: xs)
  end.

(** A reader that fails without consuming input. *)
Definition rfail {A} (msg : string) : reader A := fun _ => Err msg.

Lemma read_list_concat {A B} (rd : reader B) (enc : A -> bytes) (f : A -> B)
    (l : list A) (rest : bytes) :
  (forall x r, x ∈ l -> rd (enc x ++ r) = Ok (f x, r)) ->
  read_list (length l) rd (concat (map enc l) ++ rest) = Ok (map f l, rest).
Proof.
  revert rest. induction l as [|x l IH]; intros rest Hrd; [done|].
  cbn [length read_list map concat]. rewrite <- app_assoc.
  unfold mbind at 1, reader_bind at 1. rewrite Hrd by set_solver.
  unfold mbind, reader_bind in IH |- *. rewrite IH by set_solver. done.
Qed.

Lemma le_combine_single (x : Init.Byte.byte) : [x] = put_le 1 (le_combine [x]).
Proof. by rewrite <- (put_le_combine [x]) at 1. Qed.

Ltac inv_clear H := inversion H; subst; clear H.

Lemma result_bind_Ok {A B} (m : result A) (f : A -> result B) b :
  (m ≫= f) = Ok b -> exists a, m = Ok a /\ f a = Ok b.
Proof. destruct m; [eauto|discriminate]. Qed.

(** Invert a successful computation of the result monad: every bind,
    [if] and [match] on the way to [Ok] becomes a hypothesis. *)
Ltac result_inv :=
  repeat match goal with
  | H : mbind _ _ = Ok _ |- _ =>
      let a := fresh "a" in let Ha := fresh "Ha" in
      apply result_bind_Ok in H as (a & Ha & H); cbn beta in H
  | H : Ok _ = Ok _ |- _ => injection H as H
  | H : Err _ = Ok _ |- _ => discriminate H
  | H : (match ?x with _ => _ end) = Ok _ |- _ => destruct x eqn:?
  end.

(** Turn the boolean integer comparisons of the hypotheses into
    propositions for [lia]. *)
Ltac zhyps :=
  repeat match goal with
  | H : Z.gtb _ _ = _ |- _ => rewrite Z.gtb_ltb in H
  | H : Z.ltb _ _ = false |- _ => apply Z.ltb_ge in H
  | H : Z.ltb _ _ = true |- _ => apply Z.ltb_lt in H
  | H : Nat.ltb _ _ = false |- _ => apply Nat.ltb_ge in H
  | H : Nat.ltb _ _ = true |- _ => apply Nat.ltb_lt in H
  end.

(** Unfold the reader monad and consume the little-endian fields written by
    [put_le] at the head of the input. *)
Ltac reader_step :=
  unfold mbind, reader_bind, mret, reader_ret, rfail; cbn beta iota;
  rewrite <- ?app_assoc;
  repeat (rewrite read_le_put_le_small by (cbn; lia); cbn -[put_le read_le le_combine]).

(** Case on the first boolean comparison of integers in the goal. *)
Ltac zcase :=
  match goal with
  | |- context [Z.gtb ?a ?b] => rewrite (Z.gtb_ltb a b)
  | |- context [Z.geb ?a ?b] => rewrite (Z.geb_leb a b)
  | |- context [Z.ltb ?a ?b] => destruct (Z.ltb_spec a b)
  | |- context [Z.leb ?a ?b] => destruct (Z.leb_spec a b)
  | |- context [Z.eqb ?a ?b] => destruct (Z.eqb_spec a b)
  | |- context [Nat.ltb ?a ?b] => destruct (Nat.ltb_spec a b)
  | |- context [Nat.leb ?a ?b] => destruct (Nat.leb_spec a b)
  | |- context [Nat.eqb ?a ?b] => destruct (Nat.eqb_spec a b)
  end.

(** Decide with [lia] every integer comparison of the goal that the
    hypotheses settle, and reduce the [if]s they guard. *)
Ltac zdecide :=
  repeat (cbn [andb orb negb length];
    match goal with
    | |- context [Z.eqb ?a ?b] =>
        first [rewrite (proj2 (Z.eqb_eq a b)) by lia | rewrite (proj2 (Z.eqb_neq a b)) by lia]
    | |- context [Z.ltb ?a ?b] =>
        first [rewrite (proj2 (Z.ltb_lt a b)) by lia | rewrite (proj2 (Z.ltb_ge a b)) by lia]
    | |- context [Z.leb ?a ?b] =>
        first [rewrite (proj2 (Z.leb_le a b)) by lia | rewrite (proj2 (Z.leb_gt a b)) by lia]
    | |- context [Z.gtb ?a ?b] => rewrite (Z.gtb_ltb a b)
    | |- context [Z.geb ?a ?b] => rewrite (Z.geb_leb a b)
    | |- context [Nat.eqb ?a ?b] =>
        first [rewrite (proj2 (Nat.eqb_eq a b)) by lia | rewrite (proj2 (Nat.eqb_neq a b)) by lia]
    | |- context [Nat.ltb ?a ?b] =>
        first [rewrite (proj2 (Nat.ltb_lt a b)) by lia | rewrite (proj2 (Nat.ltb_ge a b)) by lia]
    | |- context [Nat.leb ?a ?b] =>
        first [rewrite (proj2 (Nat.leb_le a b)) by lia | rewrite (proj2 (Nat.leb_gt a b)) by lia]
    end);
  cbn [andb orb negb].

(** [lia] after computing the closed powers of two of the goal. *)
Ltac pow_lia :=
  repeat match goal with
  | |- context [(2 ^ ?e)%Z] =>
      let c := eval vm_compute in (2 ^ e)%Z in
      lazymatch c with (2 ^ _)%Z => fail | _ => change (2 ^ e)%Z with c end
  end; lia.

(** Invert a successful fixed-width read: the input starts with the bytes
    that were read, and the value is their little-endian reading. *)
Ltac read_le_inv :=
  match goal with
  | |- context [read_le ?n ?bs] =>
      let x := fresh "x" in let Hx := fresh "Hx" in let E := fresh "E" in
      let Hb := fresh "Hb" in
      destruct (read_le n bs) as [[? ?]|?] eqn:E; [|discriminate];
      apply read_le_Ok in E as (x & -> & Hx & ->);
      pose proof (le_combine_range x) as Hb; rewrite Hx in Hb;
      let c := eval vm_compute in (2 ^ (8 * Z.of_nat n))%Z in
      change (2 ^ (8 * Z.of_nat n))%Z with c in Hb
  end.
