(* ===== verification/CompactSize.v ===== *)
(** * CompactSize: the variable-length integers of the wire format

    Models [WriteVarInt], [ReadVarInt] and [VarIntSerializeSize] of btcd's
    [wire/common.go], which [MsgTx.Serialize] and [MsgTx.Deserialize] use for
    the input count, the output count and every script length (spec 4.4,
    "compact integer").  The decoder rejects every non-canonical encoding,
    so encodings and values are in one-to-one correspondence. *)

From Stdlib Require Import ZArith List String Lia.
From stdpp Require Import base list.
From S2P Require Import Prelude.
Import ListNotations.
Open Scope Z_scope.
Open Scope btc_scope.

Module CompactSize.

(** [WriteVarInt(w, pver, val)] for a [uint64] [val]. *)
Definition WriteVarInt (val : Z) : bytes :=
  if val <? 0xfd then put_le 1 val
  else if val <=? 0xffff then put_le 1 0xfd ++ put_le 2 val
  else if val <=? 0xffffffff then put_le 1 0xfe ++ put_le 4 val
  else put_le 1 0xff ++ put_le 8 val.

(** [VarIntSerializeSize(val)]. *)
Definition VarIntSerializeSize (val : Z) : nat :=
  if val <? 0xfd then 1
  else if val <=? 0xffff then 3
  else if val <=? 0xffffffff then 5
  else 9.

Definition errNonCanonicalVarInt : string := "ReadVarInt: non-canonical varint".

(** [ReadVarInt(r, pver)]: a discriminant byte, then the value in the
    width it announces, rejected when a shorter encoding exists. *)
Definition ReadVarInt : reader Z :=
  discriminant ← read_le 1;
  if discriminant =? 0xff then
    sv ← read_le 8;
    if sv <? 0x100000000 then rfail errNonCanonicalVarInt else mret sv
  else if discriminant =? 0xfe then
    sv ← read_le 4;
    if sv <? 0x10000 then rfail errNonCanonicalVarInt else mret sv
  else if discriminant =? 0xfd then
    sv ← read_le 2;
    if sv <? 0xfd then rfail errNonCanonicalVarInt else mret sv
  else mret discriminant.


(** ** Properties *)

(** The discriminant byte of [WriteVarInt v]. *)
Lemma WriteVarInt_small v : 0 <= v < 0xfd -> WriteVarInt v = put_le 1 v.
Proof. intros. unfold WriteVarInt. destruct (Z.ltb_spec v 0xfd); [done|lia]. Qed.

(** Decoding the encoding of any [uint64] gives the value back and leaves
    the following bytes unread. *)
Lemma ReadVarInt_WriteVarInt v (rest : bytes) :
  in_unsigned 64 v -> ReadVarInt (WriteVarInt v ++ rest) = Ok (v, rest).
Proof.
  unfold in_unsigned. intros Hv. unfold WriteVarInt.
  destruct (Z.ltb_spec v 0xfd); [|destruct (Z.leb_spec v 0xffff); [|destruct (Z.leb_spec v 0xffffffff)]];
    unfold ReadVarInt; reader_step.
  - destruct (Z.eqb_spec v 0xff); [lia|]. destruct (Z.eqb_spec v 0xfe); [lia|].
    destruct (Z.eqb_spec v 0xfd); [lia|]. reflexivity.
  - destruct (Z.ltb_spec v 0xfd); [lia|reflexivity].
  - destruct (Z.ltb_spec v 0x10000); [lia|reflexivity].
  - destruct (Z.ltb_spec v 0x100000000); [lia|reflexivity].
Qed.

(** The decoder accepts only canonical encodings: whatever it reads is a
    [uint64] written by [WriteVarInt], followed by the unread rest. *)
Lemma ReadVarInt_canonical (bs rest : bytes) v :
  ReadVarInt bs = Ok (v, rest) -> in_unsigned 64 v /\ bs = WriteVarInt v ++ rest.
Proof.
  unfold ReadVarInt, mbind, reader_bind, mret, reader_ret, rfail, in_unsigned.
  read_le_inv.
  repeat zcase; try discriminate; try read_le_inv; repeat zcase; try discriminate;
    intros [= <- <-]; (split; [lia|]); unfold WriteVarInt; repeat zcase; try lia;
    repeat match goal with H : le_combine x = ?c |- context [put_le 1 ?c] => rewrite <- H end;
    rewrite <- ?app_assoc, ?(put_le_combine_n _ x), ?(put_le_combine_n _ x0) by done; done.
Qed.

(** The encoding has the length [VarIntSerializeSize] announces. *)
Lemma length_WriteVarInt v : length (WriteVarInt v) = VarIntSerializeSize v.
Proof. unfold WriteVarInt, VarIntSerializeSize. repeat zcase; done. Qed.

(** [ReadVarInt] and [WriteVarInt] are inverse on [uint64]: the
    decoder reads a value followed by [rest] from [bs] exactly when the
    value is a [uint64] and [bs] is its canonical encoding followed by
    [rest]; so every value round-trips and no other encoding is accepted. *)
Theorem ReadVarInt_spec (bs rest : bytes) v :
  ReadVarInt bs = Ok (v, rest) <-> in_unsigned 64 v /\ bs = WriteVarInt v ++ rest.
Proof.
  split; [apply ReadVarInt_canonical|]. intros [Hv ->]. by apply ReadVarInt_WriteVarInt.
Qed.

End CompactSize.
