(* ===== verification/Crypto.v ===== *)
(** * Crypto: the cryptographic primitives the program relies on

    The program never implements cryptography: it calls btcd's
    [chainhash.DoubleHashB] (double SHA-256), [btcutil.Hash160]
    (RIPEMD-160 of SHA-256), the public-key serialisations of [btcec] and
    [btcec.PrivateKey.Sign] (deterministic RFC 6979 ECDSA) with the DER
    serialisation of its result.  They are the class [Crypto]: the
    functions with the facts the rest of the development uses (output
    lengths, and that a signature made with a key verifies under that key's
    public key).  [toy_crypto] is an executable instance on which the
    witnesses are evaluated; it is not a cryptosystem. *)

From Stdlib Require Import ZArith List String Lia.
From stdpp Require Import base list decidable.
From S2P Require Import Prelude.
Import ListNotations.

Class Crypto := {
  (** [chainhash.DoubleHashB]: sha256(sha256(b)). *)
  DoubleHashB : bytes -> bytes;
  (** [btcutil.Hash160]: ripemd160(sha256(b)). *)
  Hash160 : bytes -> bytes;
  (** [PubKey().SerializeCompressed()] / [SerializeUncompressed()] of the
      private key scalar. *)
  SerializeCompressed : bytes -> bytes;
  SerializeUncompressed : bytes -> bytes;
  (** [priv.Sign(hash)] followed by [Signature.Serialize()] (DER). *)
  SignDER : bytes -> bytes -> bytes;
  (** [btcec.ParsePubKey] + [btcec.ParseDERSignature] + [Verify(hash)]. *)
  VerifyDER : bytes -> bytes -> bytes -> bool;

  DoubleHashB_length m : length (DoubleHashB m) = 32;
  Hash160_length m : length (Hash160 m) = 20;
  SerializeCompressed_length k : length (SerializeCompressed k) = 33;
  SerializeUncompressed_length k : length (SerializeUncompressed k) = 65;
  (** A DER-encoded secp256k1 signature is 8 to 72 bytes long. *)
  SignDER_length k h : 8 <= length (SignDER k h) <= 72;
  VerifyDER_compressed k h : VerifyDER (SerializeCompressed k) (SignDER k h) h = true;
  VerifyDER_uncompressed k h : VerifyDER (SerializeUncompressed k) (SignDER k h) h = true
}.

(** ** An executable instance *)

Definition fit (n : nat) (m : bytes) : bytes := take n (m ++ zeros n).

(** A toy key pair: the "private key" is padded to the 33 bytes of the
    compressed public key, and a signature carries the key and the hash. *)
Definition toy_verify (pk sig h : bytes) : bool :=
  bool_decide (sig = Byte.x30 :: (if Nat.eqb (length pk) 33 then pk else take 33 (drop 1 pk))
                                   ++ fit 32 h).

Lemma length_fit n m : length (fit n m) = n.
Proof. unfold fit, zeros. rewrite length_take, length_app, repeat_length. lia. Qed.

Program Definition toy_crypto : Crypto := {|
  DoubleHashB m := fit 32 (rev m);
  Hash160 m := fit 20 m;
  SerializeCompressed k := fit 33 k;
  SerializeUncompressed k := Byte.x04 :: fit 33 k ++ fit 31 k;
  SignDER k h := Byte.x30 :: fit 33 k ++ fit 32 h;
  VerifyDER := toy_verify
|}.
Next Obligation. intros. apply length_fit. Qed.
Next Obligation. intros. apply length_fit. Qed.
Next Obligation. intros. apply length_fit. Qed.
Next Obligation. intros. cbn. by rewrite length_app, !length_fit. Qed.
Next Obligation. intros. cbn. rewrite length_app, !length_fit. lia. Qed.
Next Obligation.
  intros. unfold toy_verify. apply bool_decide_eq_true. by rewrite length_fit.
Qed.
Next Obligation.
  intros. unfold toy_verify. apply bool_decide_eq_true. cbn.
  rewrite length_app, !length_fit. cbn. rewrite drop_0, take_app_length'; [done|]. by rewrite length_fit.
Qed.
