(* ===== verification/Hex.v ===== *)
(** * Hex: Go's [encoding/hex] and the hash strings of [chainhash]

    [main] decodes the three public keys with [hex.DecodeString]
    (src/main.go lines 67-69, errors discarded), parses the id of the
    spent transaction with [chainhash.NewHashFromStr] (line 45) and prints
    [hex.EncodeToString] of the serialised transaction and
    [Hash.String()] of its id (lines 89-90).  Module [Hex] models
    [EncodeToString], [Decode] and [DecodeString] over Go strings (lists
    of bytes, here [list ascii]); module [ChainHash] models
    [NewHashFromStr]/[Decode] and [String] of [chainhash/hash.go], which
    reverse the byte order for display. *)

From Stdlib Require Import ZArith List String Ascii Lia.
From stdpp Require Import base list decidable.
From S2P Require Import Prelude.
Import ListNotations.
Open Scope Z_scope.
Open Scope btc_scope.

Module Hex.

(** The characters of [EncodeToString]: [hextable[v>>4]], [hextable[v&0x0f]]. *)
Definition hex_chars (x : Init.Byte.byte) : list ascii :=
  [hex_digit (Z.shiftr (byte.unsigned x) 4); hex_digit (Z.land (byte.unsigned x) 15)].

Definition EncodeToString (src : bytes) : string :=
  string_of_list_ascii (concat (map hex_chars src)).

(** [reverseHexTable[c]] when it is at most [0x0f]. *)
Definition fromHexChar (c : ascii) : option Z :=
  let n := Z.of_nat (nat_of_ascii c) in
  if (48 <=? n) && (n <=? 57) then Some (n - 48)
  else if (97 <=? n) && (n <=? 102) then Some (n - 87)
  else if (65 <=? n) && (n <=? 70) then Some (n - 55)
  else None.

(** [fmt.Sprintf("%#U", rune(b))] for a byte [b]: its code point, then
    the character quoted when [strconv.IsPrint] holds (in UTF-8). *)
Definition upper_hex (n : Z) : ascii :=
  if n <? 10 then ascii_of_nat (48 + Z.to_nat n) else ascii_of_nat (55 + Z.to_nat n).
Definition fmt_U (c : ascii) : string :=
  let n := Z.of_nat (nat_of_ascii c) in
  let printable := ((0x20 <=? n) && (n <? 0x7f)) || ((0xa1 <=? n) && negb (n =? 0xad)) in
  let utf8 := if n <? 0x80 then [c]
              else [ascii_of_nat (Z.to_nat (0xc0 + Z.shiftr n 6));
                    ascii_of_nat (Z.to_nat (0x80 + Z.land n 0x3f))] in
  ("U+00" ++ string_of_list_ascii [upper_hex (Z.shiftr n 4); upper_hex (Z.land n 15)] ++
   (if printable then " '" ++ string_of_list_ascii utf8 ++ "'" else ""))%string.

Definition InvalidByteError (c : ascii) : string :=
  ("encoding/hex: invalid byte: " ++ fmt_U c)%string.
Definition ErrLength : string := "encoding/hex: odd length hex string".

(** [Decode(dst, src)]: the bytes decoded before the first error, and the
    error.  Pairs are checked left to right; an odd trailing character is
    reported as invalid before the length is. *)
Fixpoint Decode (src : list ascii) : bytes * option string :=
  match src with
  | [] => ([], None)
  | [p] =>
      match fromHexChar p with
      | None => ([], Some (InvalidByteError p))
      | Some _ => ([], Some ErrLength)
      end
  | p :: q :: rest =>
      match fromHexChar p, fromHexChar q with
      | None, _ => ([], Some (InvalidByteError p))
      | Some _, None => ([], Some (InvalidByteError q))
      | Some a, Some b =>
          let '(ds, err) := Decode rest in (b8 (Z.lor (Z.shiftl a 4) b) :: ds, err)
      end
  end.

(** [DecodeString(s)]: [src[:n], err]. *)
Definition DecodeString (s : string) : bytes * option string := Decode (list_ascii_of_string s).

(** Each byte's two characters decode to the byte. *)
Lemma Decode_hex_chars x (rest : list ascii) :
  Decode (hex_chars x ++ rest) = let '(ds, err) := Decode rest in (x :: ds, err).
Proof. destruct x; reflexivity. Qed.

Lemma Decode_encode (bs : bytes) : Decode (concat (map hex_chars bs)) = (bs, None).
Proof.
  induction bs as [|x bs IH]; [done|]. cbn [map concat].
  rewrite Decode_hex_chars, IH. done.
Qed.

Lemma length_encode (bs : bytes) : length (concat (map hex_chars bs)) = (2 * length bs)%nat.
Proof. induction bs as [|x bs IH]; [done|]. cbn [map concat]. rewrite length_app, IH. cbn. lia. Qed.

(** Round trip of [encoding/hex]: decoding the hex string of any byte
    sequence gives the bytes back, with no error. *)
Theorem DecodeString_EncodeToString (bs : bytes) :
  DecodeString (EncodeToString bs) = (bs, None).
Proof.
  unfold DecodeString, EncodeToString. rewrite list_ascii_of_string_of_list_ascii.
  apply Decode_encode.
Qed.

End Hex.

Module ChainHash.

Definition HashSize : nat := 32.
Definition MaxHashStringSize : nat := 64.
Definition ErrHashStrSize : string := "max hash string length is 64 bytes".

(** [chainhash.Decode(dst, src)]: pad an odd-length string with a leading
    ['0'], decode it right-aligned into a zeroed 32-byte buffer, and
    reverse the buffer. *)
Definition Decode (src : string) : result bytes :=
  let s := list_ascii_of_string src in
  if (MaxHashStringSize <? length s)%nat then Err ErrHashStrSize
  else
    let srcBytes := if Nat.even (length s) then s else "0"%char :: s in
    match Hex.Decode srcBytes with
    | (_, Some e) => Err e
    | (decoded, None) => Ok (rev (zeros (HashSize - length srcBytes / 2) ++ decoded))
    end.

(** [NewHashFromStr(hash)]. *)
Definition NewHashFromStr (hash : string) : result bytes := Decode hash.

(** [Hash.String()]: the hex of the bytes in reverse order. *)
Definition String (h : bytes) : string := Hex.EncodeToString (rev h).

(** Round trip of hash strings: parsing the display string of a
    32-byte hash ([Hash.String], reversed byte order) gives the hash back. *)
Theorem NewHashFromStr_String (h : bytes) :
  length h = HashSize -> NewHashFromStr (String h) = Ok h.
Proof.
  intros Hh. unfold NewHashFromStr, Decode, String, Hex.EncodeToString.
  rewrite list_ascii_of_string_of_list_ascii, Hex.length_encode, length_rev, Hh.
  cbn -[Hex.Decode rev]. rewrite Hex.Decode_encode, Hex.length_encode, length_rev, Hh.
  cbn -[rev]. by rewrite rev_involutive.
Qed.

(** ** Witnesses *)

Lemma NewHashFromStr_String_witness :
  length (repeat (b8 0xab) 32) = HashSize /\
  NewHashFromStr (String (repeat (b8 0xab) 32)) = Ok (repeat (b8 0xab) 32).
Proof.
  assert (length (repeat (b8 0xab) 32) = HashSize) as H by reflexivity.
  split; [exact H|]. exact (NewHashFromStr_String _ H).
Defined.

End ChainHash.
