(* ===== verification/Script.v ===== *)
(** * Script: btcd's [txscript.ScriptBuilder]

    The program builds its two locking scripts with the builder: the 2-of-3
    multisig script of [main] (src/main.go lines 70-74) and, through
    [txscript.PayToAddrScript], the pay-to-pubkey-hash script of
    [getPkScript]; the signer builds its unlocking script with it too.
    [ScriptBuilder] is the builder's state (the script so far and a sticky
    error), [AddOp], [canonicalDataSize], [addData], [AddData] and [Script]
    are its methods.  The abstract specification [push_spec]/[encode_items]
    says which bytes a sequence of opcodes and pushes must produce, and
    [build_refines] proves that the builder produces them exactly when the
    sequence fits the protocol limits, and fails otherwise. *)

From Stdlib Require Import ZArith List String Lia.
From stdpp Require Import base list decidable.
From S2P Require Import Prelude.
Import ListNotations.
Open Scope Z_scope.
Open Scope btc_scope.

Module Script.

(** ** Opcodes ([txscript/opcode.go]) *)
Definition OP_0 : Z := 0x00.
Definition OP_DATA_1 : Z := 0x01.
Definition OP_DATA_20 : Z := 0x14.
Definition OP_DATA_33 : Z := 0x21.
Definition OP_DATA_75 : Z := 0x4b.
Definition OP_PUSHDATA1 : Z := 0x4c.
Definition OP_PUSHDATA2 : Z := 0x4d.
Definition OP_PUSHDATA4 : Z := 0x4e.
Definition OP_1NEGATE : Z := 0x4f.
Definition OP_1 : Z := 0x51.
Definition OP_2 : Z := 0x52.
Definition OP_3 : Z := 0x53.
Definition OP_16 : Z := 0x60.
Definition OP_VERIFY : Z := 0x69.
Definition OP_DUP : Z := 0x76.
Definition OP_EQUAL : Z := 0x87.
Definition OP_EQUALVERIFY : Z := 0x88.
Definition OP_HASH160 : Z := 0xa9.
Definition OP_CODESEPARATOR : Z := 0xab.
Definition OP_CHECKSIG : Z := 0xac.
Definition OP_CHECKMULTISIG : Z := 0xae.

(** [txscript/script.go]. *)
Definition MaxScriptSize : Z := 10000.
Definition MaxScriptElementSize : Z := 520.

(** ** The builder ([txscript/scriptbuilder.go]) *)

Record ScriptBuilder := mkBuilder { script : bytes; err : option string }.

Definition NewScriptBuilder : ScriptBuilder := mkBuilder [] None.

Definition AddOp (opcode : Z) (b : ScriptBuilder) : ScriptBuilder :=
  match err b with
  | Some _ => b
  | None =>
      if Z.of_nat (length (script b)) + 1 >? MaxScriptSize then
        mkBuilder (script b)
          (Some ("adding an opcode would exceed the maximum allowed canonical script length of "
                 ++ Z_to_string MaxScriptSize)%string)
      else mkBuilder (script b ++ [b8 opcode]) None
  end.

Definition canonicalDataSize (data : bytes) : Z :=
  let dataLen := Z.of_nat (length data) in
  let data0 := byte.unsigned (hd Byte.x00 data) in
  if dataLen =? 0 then 1
  else if (dataLen =? 1) && (data0 <=? 16) then 1
  else if (dataLen =? 1) && (data0 =? 0x81) then 1
  else if dataLen <? OP_PUSHDATA1 then 1 + dataLen
  else if dataLen <=? 0xff then 2 + dataLen
  else if dataLen <=? 0xffff then 3 + dataLen
  else 5 + dataLen.

Definition addData (data : bytes) (b : ScriptBuilder) : ScriptBuilder :=
  let dataLen := Z.of_nat (length data) in
  let data0 := byte.unsigned (hd Byte.x00 data) in
  if (dataLen =? 0) || (dataLen =? 1) && (data0 =? 0) then
    mkBuilder (script b ++ [b8 OP_0]) (err b)
  else if (dataLen =? 1) && (data0 <=? 16) then
    mkBuilder (script b ++ [b8 (OP_1 - 1 + data0)]) (err b)
  else if (dataLen =? 1) && (data0 =? 0x81) then
    mkBuilder (script b ++ [b8 OP_1NEGATE]) (err b)
  else
    let s :=
      if dataLen <? OP_PUSHDATA1 then script b ++ [b8 (OP_DATA_1 - 1 + dataLen)]
      else if dataLen <=? 0xff then script b ++ [b8 OP_PUSHDATA1; b8 dataLen]
      else if dataLen <=? 0xffff then (script b ++ [b8 OP_PUSHDATA2]) ++ put_le 2 dataLen
      else (script b ++ [b8 OP_PUSHDATA4]) ++ put_le 4 dataLen in
    mkBuilder (s ++ data) (err b).

Definition AddData (data : bytes) (b : ScriptBuilder) : ScriptBuilder :=
  match err b with
  | Some _ => b
  | None =>
      let dataSize := canonicalDataSize data in
      if Z.of_nat (length (script b)) + dataSize >? MaxScriptSize then
        mkBuilder (script b)
          (Some ("adding " ++ Z_to_string dataSize ++
                 " bytes of data would exceed the maximum allowed canonical script length of "
                 ++ Z_to_string MaxScriptSize)%string)
      else
        let dataLen := Z.of_nat (length data) in
        if dataLen >? MaxScriptElementSize then
          mkBuilder (script b)
            (Some ("adding a data element of " ++ Z_to_string dataLen ++
                   " bytes would exceed the maximum allowed script element size of "
                   ++ Z_to_string MaxScriptElementSize)%string)
        else addData data b
  end.

(** [Script()] returns [(b.script, b.err)]. *)
Definition Script (b : ScriptBuilder) : result bytes :=
  match err b with
  | None => Ok (script b)
  | Some e => Err e
  end.

(** ** Standard locking scripts ([txscript/standard.go])

    The decoded addresses of [btcutil] that [PayToAddrScript] accepts; the
    constructor carries what [ScriptAddress()] returns. *)
Inductive Address :=
| AddressPubKeyHash (pubKeyHash : bytes)
| AddressScriptHash (scriptHash : bytes)
| AddressPubKey (serializedPubKey : bytes)
| AddressWitnessPubKeyHash (pubKeyHash : bytes)
| AddressWitnessScriptHash (scriptHash : bytes).

Definition payToPubKeyHashScript (pubKeyHash : bytes) : result bytes :=
  Script (NewScriptBuilder |> AddOp OP_DUP |> AddOp OP_HASH160 |> AddData pubKeyHash
            |> AddOp OP_EQUALVERIFY |> AddOp OP_CHECKSIG).

Definition payToWitnessPubKeyHashScript (pubKeyHash : bytes) : result bytes :=
  Script (NewScriptBuilder |> AddOp OP_0 |> AddData pubKeyHash).

Definition payToScriptHashScript (scriptHash : bytes) : result bytes :=
  Script (NewScriptBuilder |> AddOp OP_HASH160 |> AddData scriptHash |> AddOp OP_EQUAL).

Definition payToWitnessScriptHashScript (scriptHash : bytes) : result bytes :=
  Script (NewScriptBuilder |> AddOp OP_0 |> AddData scriptHash).

Definition payToPubKeyScript (serializedPubKey : bytes) : result bytes :=
  Script (NewScriptBuilder |> AddData serializedPubKey |> AddOp OP_CHECKSIG).

(** [PayToAddrScript(addr)]. *)
Definition PayToAddrScript (addr : Address) : result bytes :=
  match addr with
  | AddressPubKeyHash h => payToPubKeyHashScript h
  | AddressScriptHash h => payToScriptHashScript h
  | AddressPubKey pk => payToPubKeyScript pk
  | AddressWitnessPubKeyHash h => payToWitnessPubKeyHashScript h
  | AddressWitnessScriptHash h => payToWitnessScriptHashScript h
  end.

(** ** Abstract specification: canonical script encoding *)

(** One step of a builder chain. *)
Inductive ScriptItem := Op (opcode : Z) | Data (data : bytes).

Definition add_item (b : ScriptBuilder) (it : ScriptItem) : ScriptBuilder :=
  match it with Op c => AddOp c b | Data d => AddData d b end.

Definition build (items : list ScriptItem) (b : ScriptBuilder) : ScriptBuilder :=
  fold_left add_item items b.

(** The shortest push of [n] bytes of data: its length prefix. *)
Definition push_prefix (n : Z) : bytes :=
  if n <? 0x4c then [b8 n]
  else if n <=? 0xff then [b8 0x4c; b8 n]
  else if n <=? 0xffff then b8 0x4d :: put_le 2 n
  else b8 0x4e :: put_le 4 n.

(** The canonical push of [d]: a small-integer opcode for the empty string
    and the one-byte values 0..16 and 0x81, a length-prefixed push
    otherwise. *)
Definition push_spec (d : bytes) : bytes :=
  match d with
  | [] => [b8 0]
  | [x] =>
      let v := byte.unsigned x in
      if v =? 0 then [b8 0]
      else if v <=? 16 then [b8 (0x50 + v)]
      else if v =? 0x81 then [b8 0x4f]
      else [b8 1; x]
  | _ => push_prefix (Z.of_nat (length d)) ++ d
  end.

Definition item_bytes (it : ScriptItem) : bytes :=
  match it with Op c => [b8 c] | Data d => push_spec d end.

Definition encode_items (items : list ScriptItem) : bytes :=
  concat (map item_bytes items).

(** A chain fits the protocol limits when every pushed element is at most
    [MaxScriptElementSize] bytes and the script at most [MaxScriptSize]. *)
Definition elems_ok (items : list ScriptItem) : bool :=
  forallb (fun it => match it with
                     | Op _ => true
                     | Data d => Z.of_nat (length d) <=? MaxScriptElementSize
                     end) items.

Definition items_ok (items : list ScriptItem) : bool :=
  (Z.of_nat (length (encode_items items)) <=? MaxScriptSize) && elems_ok items.

(** The chain each case of [PayToAddrScript] builds. *)
Definition addr_items (addr : Address) : list ScriptItem :=
  match addr with
  | AddressPubKeyHash h => [Op OP_DUP; Op OP_HASH160; Data h; Op OP_EQUALVERIFY; Op OP_CHECKSIG]
  | AddressScriptHash h => [Op OP_HASH160; Data h; Op OP_EQUAL]
  | AddressPubKey pk => [Data pk; Op OP_CHECKSIG]
  | AddressWitnessPubKeyHash h => [Op OP_0; Data h]
  | AddressWitnessScriptHash h => [Op OP_0; Data h]
  end.

(** The builder's invariant: its script never exceeds [MaxScriptSize]. *)
Definition builder_wf (b : ScriptBuilder) : Prop :=
  Z.of_nat (length (script b)) <= MaxScriptSize.

(** ** Properties *)

Lemma byte_unsigned_range' (x : Init.Byte.byte) : 0 <= byte.unsigned x < 256.
Proof. apply byte.unsigned_range. Qed.

(** [addData] appends exactly the canonical push of the reference
    definition [push_spec]. *)
Lemma addData_push_spec d b :
  addData d b = mkBuilder (script b ++ push_spec d) (err b).
Proof.
  unfold addData, push_spec, push_prefix.
  cbv [OP_0 OP_1 OP_1NEGATE OP_DATA_1 OP_PUSHDATA1 OP_PUSHDATA2 OP_PUSHDATA4].
  destruct d as [|x [|y l]]; cbn [length hd Z.of_nat].
  - done.
  - pose proof (byte_unsigned_range' x).
    repeat (zcase || (cbn [andb orb])); try lia; rewrite <- ?app_assoc; done.
  - set (n := Z.of_nat (length (x :: y :: l))).
    assert (2 <= n) by (subst n; cbn [length]; lia).
    cbn [Z.of_nat length] in n. fold n.
    rewrite (proj2 (Z.eqb_neq n 0)), (proj2 (Z.eqb_neq n 1)) by lia. cbn [andb orb].
    repeat zcase; try lia; rewrite <- ?app_assoc; repeat f_equal; lia.
Qed.

Lemma canonicalDataSize_push_spec d :
  canonicalDataSize d = Z.of_nat (length (push_spec d)).
Proof.
  unfold canonicalDataSize, push_spec, push_prefix. cbv [OP_PUSHDATA1].
  destruct d as [|x [|y l]]; cbn [length hd Z.of_nat].
  - done.
  - pose proof (byte_unsigned_range' x).
    repeat (zcase || (cbn [andb orb])); try lia; done.
  - rewrite length_app. set (n := Z.of_nat (length (x :: y :: l))).
    assert (2 <= n) by (subst n; cbn [length]; lia).
    cbn [Z.of_nat length] in n. fold n.
    rewrite (proj2 (Z.eqb_neq n 0)), (proj2 (Z.eqb_neq n 1)) by lia. cbn [andb orb].
    repeat zcase; cbn [length]; rewrite ?length_put_le; lia.
Qed.

Lemma length_encode_cons it items :
  length (encode_items (it :: items)) = (length (item_bytes it) + length (encode_items items))%nat.
Proof. unfold encode_items. cbn [map concat]. apply length_app. Qed.

Lemma build_cons it items b : build (it :: items) b = build items (add_item b it).
Proof. reflexivity. Qed.

(** An error is sticky: once set, every later call leaves the builder alone. *)
Lemma build_sticky items s e : build items (mkBuilder s (Some e)) = mkBuilder s (Some e).
Proof. induction items as [|[] items IH]; cbn; done. Qed.

Lemma AddOp_wf c b : builder_wf b -> builder_wf (AddOp c b).
Proof.
  unfold builder_wf, AddOp. intros H. destruct (err b); [done|].
  repeat zcase; cbn [script]; rewrite ?length_app; cbn [length]; lia.
Qed.

Lemma AddData_wf d b : builder_wf b -> builder_wf (AddData d b).
Proof.
  unfold builder_wf, AddData. intros H. destruct (err b); [done|].
  rewrite canonicalDataSize_push_spec.
  repeat zcase; cbn [script]; try lia.
  rewrite addData_push_spec. cbn [script]. rewrite length_app. lia.
Qed.

(** Invariant of the builder: from a state whose script fits
    [MaxScriptSize], any chain of [AddOp]/[AddData] calls (failing or not)
    leaves a script that still fits. *)
Theorem build_wf items b : builder_wf b -> builder_wf (build items b).
Proof.
  revert b. induction items as [|[] items IH]; intros b Hb; cbn; [done| |];
    apply IH; [apply AddOp_wf | apply AddData_wf]; done.
Qed.

(** One run of the builder from an error-free state: it either ends with
    the canonical encoding appended, or fails, and it fails exactly when the
    limits are exceeded. *)
Lemma build_run items s0 :
  Z.of_nat (length s0) <= MaxScriptSize ->
  ((build items (mkBuilder s0 None) = mkBuilder (s0 ++ encode_items items) None) /\
   (Z.of_nat (length (s0 ++ encode_items items)) <= MaxScriptSize) /\ elems_ok items = true) \/
  (is_Some (err (build items (mkBuilder s0 None))) /\
   ~ ((Z.of_nat (length (s0 ++ encode_items items)) <= MaxScriptSize) /\ elems_ok items = true)).
Proof.
  revert s0. induction items as [|[c|d] items IH]; intros s0 Hs0.
  - left. cbn. by rewrite app_nil_r.
  - rewrite build_cons. cbn [add_item AddOp err script].
    rewrite length_app, length_encode_cons. cbn [item_bytes length elems_ok forallb andb].
    fold (elems_ok items). rewrite Z.gtb_ltb. zcase.
    + right. rewrite build_sticky. split; [by eexists|]. lia.
    + destruct (IH (s0 ++ [b8 c])) as [[-> [Hl Ho]]|[Hs Hn]];
        rewrite ?length_app in *; cbn [length] in *; [lia| |].
      * left. rewrite <- app_assoc. split; [done|]. split; [lia|done].
      * right. split; [done|]. intros [? ?]. apply Hn. split; [lia|done].
  - rewrite build_cons. cbn [add_item AddData err script].
    rewrite length_app, length_encode_cons. cbn [item_bytes elems_ok forallb].
    rewrite canonicalDataSize_push_spec. fold (elems_ok items).
    rewrite !Z.gtb_ltb. zcase; [|zcase].
    + right. rewrite build_sticky. split; [by eexists|]. lia.
    + right. rewrite build_sticky. split; [by eexists|].
      intros [_ Hok]. apply andb_prop in Hok as [Hd _]. apply Z.leb_le in Hd. lia.
    + rewrite addData_push_spec. cbn [script err].
      destruct (IH (s0 ++ push_spec d)) as [[-> [Hl Ho]]|[Hs Hn]];
        rewrite ?length_app in *; [lia| |].
      * left. rewrite <- app_assoc. split; [done|]. split; [lia|].
        rewrite Ho, andb_true_r. by apply Z.leb_le.
      * right. split; [done|]. intros [? Hok]. apply andb_prop in Hok as [_ Hok].
        apply Hn. split; [lia|done].
Qed.

(** The builder run on a chain (the proof of [build_refines]). *)
Lemma Script_build items s :
  Script (build items NewScriptBuilder) = Ok s <-> items_ok items = true /\ s = encode_items items.
Proof.
  unfold items_ok, NewScriptBuilder.
  destruct (build_run items []) as [[-> [Hl Ho]]|[[e He] Hn]]; [cbv; discriminate| |].
  - cbn. rewrite Ho, andb_true_r. split.
    + intros [= <-]. split; [by apply Z.leb_le|done].
    + by intros [_ ->].
  - unfold Script. rewrite He. split; [discriminate|].
    intros [Hok _]. apply andb_prop in Hok as [Hl Ho]. apply Z.leb_le in Hl.
    exfalso. by apply Hn.
Qed.

(** Refinement of the builder by the canonical encoding: a chain of
    [AddOp]/[AddData] calls on a fresh builder makes [Script()] succeed
    exactly when the chain fits the limits, and its script is then the
    concatenation of the opcodes and the canonical pushes. *)
Theorem build_refines items s :
  Script (build items NewScriptBuilder) = Ok s <-> items_ok items = true /\ s = encode_items items.
Proof. apply Script_build. Qed.

(** The standard locking script of an address is the canonical encoding
    of its chain, and [PayToAddrScript] fails exactly when the chain
    exceeds the limits. *)
Lemma PayToAddrScript_refines addr s :
  PayToAddrScript addr = Ok s <->
  items_ok (addr_items addr) = true /\ s = encode_items (addr_items addr).
Proof. pose proof (Script_build (addr_items addr) s) as H. by destruct addr. Qed.

(** ** Witnesses *)

Lemma build_wf_witness :
  builder_wf NewScriptBuilder /\
  builder_wf (build [Op OP_DUP; Data [b8 1; b8 2]; Op OP_CHECKSIG] NewScriptBuilder).
Proof.
  assert (builder_wf NewScriptBuilder) as H by (unfold builder_wf, MaxScriptSize; cbn; lia).
  split; [exact H|]. exact (build_wf _ _ H).
Defined.

End Script.
