(* ===== verification/ScriptParse.v ===== *)
(** * ScriptParse: btcd's script tokenizer [parseScript] and [unparseScript]

    The signature hash of the signer (spec 4.3 step 1) parses the locking
    script, drops its [OP_CODESEPARATOR]s and re-serialises it
    ([txscript/script.go]: [parseScriptTemplate], [parsedOpcode.bytes],
    [unparseScript], [removeOpcode]); the script engine executes parsed
    scripts.  The tokenizer is a loop over the script that consumes at
    least one byte per opcode; it is written with fuel, and
    [parseScript_fuel] shows that the fuel it is given, the script length,
    never runs out. *)

From Stdlib Require Import ZArith List String Lia.
From stdpp Require Import base list decidable.
From S2P Require Import Prelude Script.
Import ListNotations Script.
Open Scope Z_scope.
Open Scope btc_scope.

Module Parse.

(** [opcode.length] of [txscript/opcode.go]: [n + 1] for [OP_DATA_n], a
    negative width for the [OP_PUSHDATA]s, 1 for every other opcode. *)
Definition opcode_length (v : Z) : Z :=
  if (OP_DATA_1 <=? v) && (v <=? OP_DATA_75) then v + 1
  else if v =? OP_PUSHDATA1 then -1
  else if v =? OP_PUSHDATA2 then -2
  else if v =? OP_PUSHDATA4 then -4
  else 1.

(** [opcode.name] of the data-pushing opcodes, used in error messages. *)
Definition opcode_name (v : Z) : string :=
  if v =? OP_PUSHDATA1 then "OP_PUSHDATA1"
  else if v =? OP_PUSHDATA2 then "OP_PUSHDATA2"
  else if v =? OP_PUSHDATA4 then "OP_PUSHDATA4"
  else ("OP_DATA_" ++ Z_to_string v)%string.

(** [parsedOpcode]: the opcode's value and the data it pushes. *)
Record parsedOpcode := mkPop { opcode : Z; data : bytes }.

#[global] Instance parsedOpcode_eq_dec : EqDecision parsedOpcode.
Proof. solve_decision. Defined.

Definition errMalformedPush (op : Z) (need have : Z) : string :=
  ("opcode " ++ opcode_name op ++ " requires " ++ Z_to_string need ++
   " bytes, but script only has " ++ Z_to_string have ++ " remaining")%string.

Definition errShortData (op : Z) (l have : Z) : string :=
  ("opcode " ++ opcode_name op ++ " pushes " ++ Z_to_string l ++
   " bytes, but script only has " ++ Z_to_string have ++ " remaining")%string.

Definition errFuel : string := "script parser ran out of fuel".

(** One iteration of the loop of [parseScriptTemplate] on the unread part
    [s] of the script ([s = script[i:]]): the parsed opcode and the rest. *)
Definition parse_one (s : bytes) : result (parsedOpcode * bytes) :=
  match s with
  | [] => Err errFuel
  | instr :: tl =>
      let v := byte.unsigned instr in
      let len := opcode_length v in
      if len =? 1 then Ok (mkPop v [], tl)
      else if len >? 1 then
        if Z.of_nat (length s) <? len then
          Err (errMalformedPush v len (Z.of_nat (length s)))
        else Ok (mkPop v (take (Z.to_nat len - 1) tl), drop (Z.to_nat len - 1) tl)
      else
        let w := Z.to_nat (- len) in
        if Z.of_nat (length tl) <? - len then
          Err (errMalformedPush v (- len) (Z.of_nat (length tl)))
        else
          let l := le_combine (take w tl) in
          let off := drop w tl in
          if l >? Z.of_nat (length off) then Err (errShortData v l (Z.of_nat (length off)))
          else Ok (mkPop v (take (Z.to_nat l) off), drop (Z.to_nat l) off)
  end.

Fixpoint parse_loop (fuel : nat) (s : bytes) : result (list parsedOpcode) :=
  match s with
  | [] => Ok []
  | _ =>
      match fuel with
      | O => Err errFuel
      | S fuel =>
          match parse_one s with
          | Err e => Err e
          | Ok (pop, rest) =>
              match parse_loop fuel rest with
              | Err e => Err e
              | Ok pops => Ok (pop :: pops)
              end
          end
      end
  end.

(** [parseScript(script)]. *)
Definition parseScript (script : bytes) : result (list parsedOpcode) :=
  parse_loop (length script) script.

(** [parsedOpcode.bytes()]: the opcode, the length prefix its width calls
    for, the data; an internal error when the result has not the length the
    opcode announces. *)
Definition pop_bytes (pop : parsedOpcode) : result bytes :=
  let len := opcode_length (opcode pop) in
  let l := Z.of_nat (length (data pop)) in
  if len =? 1 then
    if negb (Nat.eqb (length (data pop)) 0) then
      Err "internal consistency error - parsed opcode has data length but shouldn't"
    else Ok [b8 (opcode pop)]
  else
    let hdr :=
      if len =? -1 then [b8 (opcode pop); b8 l]
      else if len =? -2 then b8 (opcode pop) :: put_le 2 l
      else if len =? -4 then b8 (opcode pop) :: put_le 4 l
      else [b8 (opcode pop)] in
    let nbytes :=
      if len <? 0 then le_combine (drop 1 hdr) + Z.of_nat (length hdr) else len in
    let retbytes := hdr ++ data pop in
    if negb (Z.of_nat (length retbytes) =? nbytes) then
      Err "internal consistency error - parsed opcode has wrong data length"
    else Ok retbytes.

(** [unparseScript(pops)]. *)
Fixpoint unparseScript (pops : list parsedOpcode) : result bytes :=
  match pops with
  | [] => Ok []
  | pop :: pops =>
      b ← pop_bytes pop;
      rest ← unparseScript pops;
      mret (b ++ rest)
  end.

(** [removeOpcode(pkscript, opcode)]. *)
Definition removeOpcode (pops : list parsedOpcode) (op : Z) : list parsedOpcode :=
  List.filter (fun pop => negb (opcode pop =? op)) pops.

(** The opcode that the canonical push [push_spec d] parses to. *)
Definition push_pop (d : bytes) : parsedOpcode :=
  match d with
  | [] => mkPop OP_0 []
  | [x] =>
      let v := byte.unsigned x in
      if v =? 0 then mkPop OP_0 []
      else if v <=? 16 then mkPop (0x50 + v) []
      else if v =? 0x81 then mkPop OP_1NEGATE []
      else mkPop 1 [x]
  | _ =>
      let n := Z.of_nat (length d) in
      if n <? OP_PUSHDATA1 then mkPop n d
      else if n <=? 0xff then mkPop OP_PUSHDATA1 d
      else if n <=? 0xffff then mkPop OP_PUSHDATA2 d
      else mkPop OP_PUSHDATA4 d
  end.

Definition item_pop (it : ScriptItem) : parsedOpcode :=
  match it with Op c => mkPop c [] | Data d => push_pop d end.

(** Items that the parser reads back as they were built: opcodes that push
    nothing, and data shorter than 4 GiB. *)
Definition item_parsable (it : ScriptItem) : Prop :=
  match it with
  | Op c => 0 <= c < 256 /\ opcode_length c = 1
  | Data d => Z.of_nat (length d) < 2 ^ 32
  end.

(** ** Properties *)

(** Compute [opcode_length] at a known opcode. *)
Ltac oplen :=
  cbv [opcode_length OP_DATA_1 OP_DATA_75 OP_PUSHDATA1 OP_PUSHDATA2 OP_PUSHDATA4
       OP_0 OP_1NEGATE]; zdecide.

Lemma opcode_length_cases v :
  (opcode_length v = 1) \/
  (1 <= v <= 75 /\ opcode_length v = v + 1) \/
  (v = 0x4c /\ opcode_length v = -1) \/ (v = 0x4d /\ opcode_length v = -2) \/
  (v = 0x4e /\ opcode_length v = -4).
Proof.
  unfold opcode_length. cbv [OP_DATA_1 OP_DATA_75 OP_PUSHDATA1 OP_PUSHDATA2 OP_PUSHDATA4].
  repeat (zcase || cbn [andb]); lia.
Qed.

(** Each iteration consumes at least one byte. *)
Lemma parse_one_progress s pop rest :
  parse_one s = Ok (pop, rest) -> (length rest < length s)%nat.
Proof.
  destruct s as [|instr tl]; [discriminate|]. cbn [parse_one].
  set (v := byte.unsigned instr). rewrite !Z.gtb_ltb.
  repeat zcase; intros [= <- <-]; rewrite ?length_drop; cbn [length]; lia.
Qed.

(** With fuel at least the length of the unread script, the loop never
    runs out of fuel: its result does not depend on the fuel. *)
Lemma parse_loop_fuel_irrelevant n m s :
  (length s <= n)%nat -> (length s <= m)%nat -> parse_loop n s = parse_loop m s.
Proof.
  revert m s. induction n as [|n IH]; intros m s Hn Hm.
  - destruct s; [by destruct m|cbn in Hn; lia].
  - destruct s as [|b s]; [by destruct m|]. destruct m as [|m]; [cbn in Hm; lia|].
    cbn [parse_loop]. destruct (parse_one (b :: s)) as [[pop rest]|e] eqn:E; [|done].
    pose proof (parse_one_progress _ _ _ E) as Hp. cbn [length] in *.
    by rewrite (IH m rest) by lia.
Qed.

Lemma parse_loop_enough n s :
  (length s <= n)%nat -> parse_loop n s = parseScript s.
Proof. intros. by apply parse_loop_fuel_irrelevant. Qed.

(** Termination of the tokenizer: [parseScript] never fails for lack of
    fuel, on any script. *)
Theorem parseScript_fuel s : parseScript s <> Err errFuel.
Proof.
  unfold parseScript. remember (length s) as n eqn:Hn. revert s Hn.
  induction n as [n IH] using lt_wf_ind; intros s Hn.
  destruct s as [|instr tl]; [destruct n; intros [=]|]. destruct n as [|n]; [discriminate Hn|].
  cbn [parse_loop]. destruct (parse_one (instr :: tl)) as [[pop rest]|e] eqn:E.
  - pose proof (parse_one_progress _ _ _ E) as Hp. cbn [length] in Hp, Hn.
    rewrite (parse_loop_enough n rest) by lia.
    unfold parseScript. pose proof (IH (length rest) ltac:(lia) rest eq_refl) as Hr.
    destruct (parse_loop (length rest) rest); [intros [=]|done].
  - revert E. cbn [parse_one]. set (v := byte.unsigned instr). rewrite !Z.gtb_ltb.
    repeat zcase; intros [= <-]; unfold errMalformedPush, errShortData, errFuel; discriminate.
Qed.

(** [bytes()] of an [OP_PUSHDATA] opcode of width [w] re-creates the length
    prefix it was parsed from. *)
Lemma pushdata_bytes v (w : nat) (tl : bytes) :
  ((w = 1)%nat /\ v = 76 \/ (w = 2)%nat /\ v = 77 \/ (w = 4)%nat /\ v = 78) -> (w <= length tl)%nat ->
  le_combine (take w tl) <= Z.of_nat (length (drop w tl)) ->
  pop_bytes (mkPop v (take (Z.to_nat (le_combine (take w tl))) (drop w tl))) =
  Ok (b8 v :: take w tl ++ take (Z.to_nat (le_combine (take w tl))) (drop w tl)).
Proof.
  intros Hw Hlen Hl. set (l := le_combine (take w tl)) in *.
  assert (Z.of_nat (length (take (Z.to_nat l) (drop w tl))) = l) as HL.
  { rewrite length_take. subst l. pose proof (le_combine_range (take w tl)). lia. }
  assert (put_le w l = take w tl) as Hp by (apply put_le_combine_n; rewrite length_take; lia).
  assert (le_combine (put_le w l) = l) as Hc by (by rewrite Hp).
  unfold pop_bytes. cbn [opcode data]. rewrite HL, <- Hp.
  destruct Hw as [[-> ->]|[[-> ->]|[-> ->]]];
    match goal with |- context [opcode_length ?c] =>
      let e := eval vm_compute in (opcode_length c) in change (opcode_length c) with e end;
    zdecide.
  1: change [b8 76; b8 l] with (b8 76 :: put_le 1 l).
  all: cbn [drop length app]; rewrite drop_0, Hc, length_app, length_put_le; zdecide; done.
Qed.

Lemma pop_bytes_parse_one s pop rest :
  parse_one s = Ok (pop, rest) -> exists b, pop_bytes pop = Ok b /\ s = b ++ rest.
Proof.
  destruct s as [|instr tl]; [discriminate|]. cbn [parse_one].
  pose proof (byte.unsigned_range instr) as Hr.
  pose proof (byte.of_Z_unsigned instr) as Hi.
  set (v := byte.unsigned instr) in *.
  destruct (opcode_length_cases v) as [H1|[[Hv H1]|[[Hv H1]|[[Hv H1]|[Hv H1]]]]];
    rewrite H1; zdecide.
  { intros [= <- <-]. exists [b8 v]. unfold pop_bytes. cbn [opcode data]. rewrite H1.
    cbn. rewrite Hi. done. }
  { cbn [length] in *. zcase; [discriminate|]. intros [= <- <-].
    eexists. unfold pop_bytes. cbn [opcode data]. rewrite H1. zdecide.
    rewrite length_app, length_take. cbn [length]. zdecide.
    split; [done|]. cbn [app]. rewrite Hi. by rewrite take_drop. }
  (* the three OP_PUSHDATA widths *)
  all: cbn [Z.opp Z.to_nat Pos.to_nat Pos.iter_op Nat.add] in *.
    all: zcase; [discriminate|]; zcase; [discriminate|]; intros [= <- <-].
    all: eexists; split; [apply pushdata_bytes; (lia || done)|].
    all: cbn [app]; rewrite <- app_assoc, !take_drop, Hi; done.
Qed.

Lemma unparse_parse_loop n s pops :
  parse_loop n s = Ok pops -> unparseScript pops = Ok s.
Proof.
  revert s pops. induction n as [|n IH]; intros s pops.
  - destruct s; [by intros [= <-]|discriminate].
  - destruct s as [|b s]; [by intros [= <-]|]. cbn [parse_loop].
    destruct (parse_one (b :: s)) as [[pop rest]|e] eqn:E; [|discriminate].
    destruct (parse_loop n rest) as [pops'|e] eqn:E2; [|discriminate].
    intros [= <-]. destruct (pop_bytes_parse_one _ _ _ E) as (bs & Hb & ->).
    cbn [unparseScript]. unfold mbind, result_bind. rewrite Hb, (IH _ _ E2). done.
Qed.

(** Round trip of the tokenizer: re-serialising the opcodes parsed from
    a script gives the script back, byte for byte (so the signature hash of
    a script without [OP_CODESEPARATOR] covers the script itself). *)
Theorem unparse_parse s pops : parseScript s = Ok pops -> unparseScript pops = Ok s.
Proof. apply unparse_parse_loop. Qed.

Lemma byte_unsigned_b8 z : 0 <= z < 256 -> byte.unsigned (b8 z) = z.
Proof. intros. rewrite byte.unsigned_of_Z. unfold byte.wrap. apply Z.mod_small. lia. Qed.

Lemma parse_one_opcode c (rest : bytes) :
  0 <= c < 256 -> opcode_length c = 1 -> parse_one (b8 c :: rest) = Ok (mkPop c [], rest).
Proof. intros Hc Hl. cbn [parse_one]. rewrite byte_unsigned_b8, Hl by done. done. Qed.

Lemma parse_one_data d (rest : bytes) :
  (2 <= length d < 76)%nat -> parse_one (b8 (Z.of_nat (length d)) :: d ++ rest) =
                              Ok (mkPop (Z.of_nat (length d)) d, rest).
Proof.
  intros Hd. cbn [parse_one]. rewrite byte_unsigned_b8 by lia. oplen.
  rewrite length_app. zdecide.
  replace (Z.to_nat (Z.of_nat (length d) + 1) - 1)%nat with (length d) by lia.
  by rewrite take_app_length, drop_app_length.
Qed.

Lemma parse_one_pushdata op (w : nat) d (rest : bytes) :
  (op = 0x4c /\ w = 1%nat \/ op = 0x4d /\ w = 2%nat \/ op = 0x4e /\ w = 4%nat) ->
  Z.of_nat (length d) < 2 ^ (8 * Z.of_nat w) ->
  parse_one (b8 op :: put_le w (Z.of_nat (length d)) ++ d ++ rest) = Ok (mkPop op d, rest).
Proof.
  intros Hop Hd. cbn [parse_one].
  assert (opcode_length op = - Z.of_nat w /\ 0 <= op < 256) as [Hl Hr]
    by (destruct Hop as [[-> ->]|[[-> ->]|[-> ->]]]; oplen; lia).
  rewrite byte_unsigned_b8, Hl by lia. rewrite !length_app, length_put_le. zdecide.
  replace (Z.to_nat (- - Z.of_nat w)) with w by lia.
  rewrite take_app_length', drop_app_length' by (by rewrite length_put_le).
  unfold put_le. rewrite le_combine_split, Z.mod_small by (rewrite Z.mul_comm; lia).
  rewrite length_app. zdecide. rewrite Nat2Z.id, take_app_length, drop_app_length. done.
Qed.

Lemma parse_one_push d (rest : bytes) :
  Z.of_nat (length d) < 2 ^ 32 -> parse_one (push_spec d ++ rest) = Ok (push_pop d, rest).
Proof.
  intros Hd. destruct d as [|x [|y l]].
  - by apply parse_one_opcode.
  - pose proof (byte.unsigned_range x) as Hx.
    unfold push_spec, push_pop. cbv [OP_0 OP_1NEGATE]. set (v := byte.unsigned x) in *.
    repeat zcase; try lia; cbn [app];
      try (apply parse_one_opcode; [lia|oplen; done]).
    cbn [parse_one]. rewrite byte_unsigned_b8 by lia. oplen. done.
  - unfold push_spec, push_pop, push_prefix. set (d := x :: y :: l) in *.
    assert (2 <= length d)%nat by (subst d; cbn; lia).
    cbv [OP_PUSHDATA1 OP_PUSHDATA2 OP_PUSHDATA4].
    repeat zcase; try lia; rewrite <- ?app_assoc.
    + apply (parse_one_data d rest). lia.
    + apply (parse_one_pushdata _ 1 d rest). { by left. } pow_lia.
    + apply (parse_one_pushdata _ 2 d rest). { by right; left. } pow_lia.
    + apply (parse_one_pushdata _ 4 d rest). { by right; right. } pow_lia.
Qed.

Lemma parse_loop_step n s pop rest :
  parse_one s = Ok (pop, rest) ->
  parse_loop (S n) s = match parse_loop n rest with Ok pops => Ok (pop :: pops) | Err e => Err e end.
Proof. destruct s; [discriminate|]. cbn [parse_loop]. by intros ->. Qed.

Lemma parse_one_item it (rest : bytes) :
  item_parsable it -> parse_one (item_bytes it ++ rest) = Ok (item_pop it, rest).
Proof.
  destruct it as [c|d]; cbn [item_parsable item_bytes item_pop].
  - intros [Hc Hl]. by apply parse_one_opcode.
  - apply parse_one_push.
Qed.

Lemma item_bytes_nonempty it : item_bytes it <> [].
Proof.
  destruct it as [c|d]; [done|]. cbn [item_bytes].
  pose proof (canonicalDataSize_push_spec d) as Hc. unfold canonicalDataSize in Hc.
  intros Hn. rewrite Hn in Hc. cbn in Hc. revert Hc. repeat (zcase || cbn [andb]); lia.
Qed.

Lemma parse_loop_items n items :
  Forall item_parsable items -> (length (encode_items items) <= n)%nat ->
  parse_loop n (encode_items items) = Ok (map item_pop items).
Proof.
  revert n. induction items as [|it items IH]; intros n Hall Hn; [by destruct n|].
  inversion Hall as [|? ? Hit Hrest]; subst.
  unfold encode_items in *. cbn [map concat] in *. rewrite length_app in Hn.
  assert (length (item_bytes it) <> 0%nat) as Hne
    by (pose proof (item_bytes_nonempty it); by destruct (item_bytes it)).
  destruct n as [|n]; [lia|].
  rewrite (parse_loop_step _ _ _ _ (parse_one_item _ _ Hit)).
  rewrite IH by (done || lia). done.
Qed.

(** The tokenizer reads a script built by [AddOp]/[AddData] back as
    the chain of opcodes and canonical pushes it was built from. *)
Theorem parse_encode_items items :
  Forall item_parsable items -> parseScript (encode_items items) = Ok (map item_pop items).
Proof. intros. by apply parse_loop_items. Qed.

Lemma addr_items_parsable addr :
  elems_ok (addr_items addr) = true -> Forall item_parsable (addr_items addr).
Proof.
  destruct addr; cbn [addr_items elems_ok forallb]; rewrite ?andb_true_r;
    intros Hd%Z.leb_le; cbv [MaxScriptElementSize] in Hd;
    repeat apply Forall_cons; try apply Forall_nil; cbn [item_parsable];
    cbv [OP_DUP OP_HASH160 OP_EQUALVERIFY OP_CHECKSIG OP_EQUAL]; try oplen; lia.
Qed.

(** The script [PayToAddrScript] returns always parses, to its chain. *)
Lemma PayToAddrScript_parse addr pkScript :
  PayToAddrScript addr = Ok pkScript -> parseScript pkScript = Ok (map item_pop (addr_items addr)).
Proof.
  intros [Hok ->]%PayToAddrScript_refines. apply parse_loop_items; [|done].
  apply addr_items_parsable. unfold items_ok in Hok. by apply andb_prop in Hok as [_ ?].
Qed.

(** ** Witnesses *)

Lemma unparse_parse_witness :
  parseScript [b8 0x76; b8 0x02; b8 0xaa; b8 0xbb; b8 0xac] =
    Ok [mkPop 0x76 []; mkPop 2 [b8 0xaa; b8 0xbb]; mkPop 0xac []] /\
  unparseScript [mkPop 0x76 []; mkPop 2 [b8 0xaa; b8 0xbb]; mkPop 0xac []] =
    Ok [b8 0x76; b8 0x02; b8 0xaa; b8 0xbb; b8 0xac].
Proof.
  assert (parseScript [b8 0x76; b8 0x02; b8 0xaa; b8 0xbb; b8 0xac] =
    Ok [mkPop 0x76 []; mkPop 2 [b8 0xaa; b8 0xbb]; mkPop 0xac []]) as H by reflexivity.
  split; [exact H|]. exact (unparse_parse _ _ H).
Defined.

Lemma parse_encode_items_witness :
  Forall item_parsable [Op OP_DUP; Data (repeat (b8 5) 20); Op OP_CHECKSIG] /\
  parseScript (encode_items [Op OP_DUP; Data (repeat (b8 5) 20); Op OP_CHECKSIG]) =
    Ok (map item_pop [Op OP_DUP; Data (repeat (b8 5) 20); Op OP_CHECKSIG]).
Proof.
  assert (Forall item_parsable [Op OP_DUP; Data (repeat (b8 5) 20); Op OP_CHECKSIG]) as H.
  { repeat apply Forall_cons; try apply Forall_nil; cbn [item_parsable];
      cbv [OP_DUP OP_CHECKSIG]; try oplen; cbn; lia. }
  split; [exact H|]. exact (parse_encode_items _ H).
Defined.

End Parse.
