(* ===== verification/Wire.v ===== *)
(** * Wire: btcd's [wire.MsgTx] and its wire format

    The transaction of [assembleTx] (src/main.go lines 102-120) is a btcd
    [wire.MsgTx]; [main] serialises it with [MsgTx.Serialize] (line 83) and
    prints [MsgTx.TxHash] (line 89).  This file models the records
    [OutPoint], [TxIn], [TxOut] and [MsgTx] of [wire/msgtx.go], the encoder
    [BtcEncode] with its two encodings, the decoder [BtcDecode] with its
    bounds checks and the segregated-witness marker, and [TxHash].  The
    fields [TxIn]/[TxOut] of [MsgTx] are named [TxIns]/[TxOuts] here because
    Rocq shares one namespace between record types and fields. *)

From Stdlib Require Import ZArith List String Lia.
From stdpp Require Import base list decidable.
From S2P Require Import Prelude CompactSize Crypto.
Import ListNotations CompactSize.
Open Scope Z_scope.
Open Scope btc_scope.

Module Wire.

(** ** Records ([wire/msgtx.go]) *)

(** [chainhash.Hash] is a [[32]byte]; [Index] is a [uint32]. *)
Record OutPoint := mkOutPoint { Hash : bytes; Index : Z }.

(** [Sequence] is a [uint32]; [Witness] is a [TxWitness] ([[][]byte]). *)
Record TxIn := mkTxIn {
  PreviousOutPoint : OutPoint;
  SignatureScript : bytes;
  Witness : list bytes;
  Sequence : Z
}.

(** [Value] is an [int64]. *)
Record TxOut := mkTxOut { Value : Z; PkScript : bytes }.

(** [Version] is an [int32], [LockTime] a [uint32]. *)
Record MsgTx := mkMsgTx {
  Version : Z;
  TxIns : list TxIn;
  TxOuts : list TxOut;
  LockTime : Z
}.

#[global] Instance OutPoint_eq_dec : EqDecision OutPoint.
Proof. solve_decision. Defined.
#[global] Instance TxIn_eq_dec : EqDecision TxIn.
Proof. solve_decision. Defined.
#[global] Instance TxOut_eq_dec : EqDecision TxOut.
Proof. solve_decision. Defined.
#[global] Instance MsgTx_eq_dec : EqDecision MsgTx.
Proof. solve_decision. Defined.

Definition HashSize : nat := 32.
Definition MaxTxInSequenceNum : Z := 0xffffffff.
Definition TxFlagMarker : Z := 0x00.
Definition WitnessFlag : Z := 0x01.
Definition MaxMessagePayload : Z := 1024 * 1024 * 32.
Definition minTxInPayload : Z := 9 + Z.of_nat HashSize.
Definition maxTxInPerMessage : Z := MaxMessagePayload / minTxInPayload + 1.
Definition minTxOutPayload : Z := 9.
Definition maxTxOutPerMessage : Z := MaxMessagePayload / minTxOutPayload + 1.
Definition maxWitnessItemsPerInput : Z := 500000.
Definition maxWitnessItemSize : Z := 11000.

Inductive MessageEncoding := BaseEncoding | WitnessEncoding.

#[global] Instance MessageEncoding_eq_dec : EqDecision MessageEncoding.
Proof. solve_decision. Defined.

(** Go's [enc == WitnessEncoding]. *)
Definition isWitnessEncoding (enc : MessageEncoding) : bool :=
  match enc with WitnessEncoding => true | BaseEncoding => false end.

(** [NewOutPoint(hash, index)]. *)
Definition NewOutPoint (hash : bytes) (index : Z) : OutPoint := mkOutPoint hash index.

(** [HasWitness()]: some input carries witness data. *)
Definition HasWitness (tx : MsgTx) : bool :=
  existsb (fun ti => negb (Nat.eqb (length (Witness ti)) 0)) (TxIns tx).

(** ** Encoding *)

Definition WriteVarBytes (bs : bytes) : bytes :=
  WriteVarInt (Z.of_nat (length bs)) ++ bs.

Definition writeOutPoint (op : OutPoint) : bytes :=
  Hash op ++ put_le 4 (Index op).

Definition writeTxIn (ti : TxIn) : bytes :=
  writeOutPoint (PreviousOutPoint ti) ++ WriteVarBytes (SignatureScript ti) ++
  put_le 4 (Sequence ti).

(** [PutUint64(w, littleEndian, uint64(to.Value))]. *)
Definition WriteTxOut (to : TxOut) : bytes :=
  put_le 8 (Value to) ++ WriteVarBytes (PkScript to).

Definition writeTxWitness (wit : list bytes) : bytes :=
  WriteVarInt (Z.of_nat (length wit)) ++ concat (map WriteVarBytes wit).

(** [BtcEncode(w, pver, enc)]: writes to a [bytes.Buffer] never fail, so
    the encoder is a total function. *)
Definition BtcEncode (tx : MsgTx) (enc : MessageEncoding) : bytes :=
  let doWitness := isWitnessEncoding enc && HasWitness tx in
  put_le 4 (Version tx) ++
  (if doWitness then [b8 TxFlagMarker; b8 WitnessFlag] else []) ++
  WriteVarInt (Z.of_nat (length (TxIns tx))) ++ concat (map writeTxIn (TxIns tx)) ++
  WriteVarInt (Z.of_nat (length (TxOuts tx))) ++ concat (map WriteTxOut (TxOuts tx)) ++
  (if doWitness then concat (map (fun ti => writeTxWitness (Witness ti)) (TxIns tx)) else []) ++
  put_le 4 (LockTime tx).

(** [Serialize(w)] and [SerializeNoWitness(w)]. *)
Definition Serialize (tx : MsgTx) : bytes := BtcEncode tx WitnessEncoding.
Definition SerializeNoWitness (tx : MsgTx) : bytes := BtcEncode tx BaseEncoding.

(** ** Decoding *)

Definition messageError {A} (f desc : string) : reader A := rfail (f ++ ": " ++ desc)%string.

Definition readScript (maxAllowed : Z) (fieldName : string) : reader bytes :=
  count ← ReadVarInt;
  if count >? maxAllowed then
    messageError "readScript"
      (fieldName ++ " is larger than the max allowed size [count " ++ Z_to_string count ++
       ", max " ++ Z_to_string maxAllowed ++ "]")%string
  else read_full (Z.to_nat count).

Definition readOutPoint : reader OutPoint :=
  hash ← read_full HashSize;
  index ← read_le 4;
  mret (mkOutPoint hash index).

(** [readTxIn] leaves the witness empty; [BtcDecode] fills it in later. *)
Definition readTxIn : reader TxIn :=
  op ← readOutPoint;
  sigScript ← readScript MaxMessagePayload "transaction input signature script";
  sequence ← read_le 4;
  mret (mkTxIn op sigScript [] sequence).

Definition readTxOut : reader TxOut :=
  value ← read_le 8;
  pkScript ← readScript MaxMessagePayload "transaction output public key script";
  mret (mkTxOut (to_signed 64 value) pkScript).

Definition readTxWitness : reader (list bytes) :=
  witCount ← ReadVarInt;
  if witCount >? maxWitnessItemsPerInput then
    messageError "MsgTx.BtcDecode"
      ("too many witness items to fit into max message size [count " ++ Z_to_string witCount ++
       ", max " ++ Z_to_string maxWitnessItemsPerInput ++ "]")%string
  else read_list (Z.to_nat witCount) (readScript maxWitnessItemSize "script witness item").

(** The loop over [msg.TxIn] that reads each input's witness in place. *)
Fixpoint readWitnesses (tis : list TxIn) : reader (list TxIn) :=
  match tis with
  | [] => mret []
  | ti :: tis =>
      wit ← readTxWitness;
      rest ← readWitnesses tis;
      mret (mkTxIn (PreviousOutPoint ti) (SignatureScript ti) wit (Sequence ti) :: rest)
  end.

(** [BtcDecode(r, pver, enc)]. *)
Definition BtcDecode (enc : MessageEncoding) : reader MsgTx :=
  version ← read_le 4;
  count ← ReadVarInt;
  '(flag, count) ←
    (if (count =? TxFlagMarker) && isWitnessEncoding enc then
       flag ← read_le 1;
       if negb (flag =? WitnessFlag) then
         messageError "MsgTx.BtcDecode" ("witness tx but flag byte is " ++ hex_byte (b8 flag))%string
       else
         count ← ReadVarInt; mret (flag, count)
     else mret (0, count));
  if count >? maxTxInPerMessage then
    messageError "MsgTx.BtcDecode"
      ("too many input transactions to fit into max message size [count " ++
       Z_to_string count ++ ", max " ++ Z_to_string maxTxInPerMessage ++ "]")%string
  else
  txIns ← read_list (Z.to_nat count) readTxIn;
  count ← ReadVarInt;
  if count >? maxTxOutPerMessage then
    messageError "MsgTx.BtcDecode"
      ("too many output transactions to fit into max message size [count " ++
       Z_to_string count ++ ", max " ++ Z_to_string maxTxOutPerMessage ++ "]")%string
  else
  txOuts ← read_list (Z.to_nat count) readTxOut;
  txIns ← (if negb (flag =? 0) && isWitnessEncoding enc
           then readWitnesses txIns else mret txIns);
  lockTime ← read_le 4;
  mret (mkMsgTx (to_signed 32 version) txIns txOuts lockTime).

(** [Deserialize(r)]. *)
Definition Deserialize : reader MsgTx := BtcDecode WitnessEncoding.

(** ** Well-formed transactions

    Every field within the range of its Go type, every hash 32 bytes long,
    and every count and length within the bounds the decoder enforces. *)

Definition outpoint_wf (op : OutPoint) : Prop :=
  length (Hash op) = HashSize /\ in_unsigned 32 (Index op).

Definition witness_wf (wit : list bytes) : Prop :=
  Z.of_nat (length wit) <= maxWitnessItemsPerInput /\
  Forall (fun w => Z.of_nat (length w) <= maxWitnessItemSize) wit.

Definition txin_wf (ti : TxIn) : Prop :=
  outpoint_wf (PreviousOutPoint ti) /\
  Z.of_nat (length (SignatureScript ti)) <= MaxMessagePayload /\
  witness_wf (Witness ti) /\ in_unsigned 32 (Sequence ti).

Definition txout_wf (to : TxOut) : Prop :=
  in_signed 64 (Value to) /\ Z.of_nat (length (PkScript to)) <= MaxMessagePayload.

Definition tx_wf (tx : MsgTx) : Prop :=
  in_signed 32 (Version tx) /\
  Forall txin_wf (TxIns tx) /\ Z.of_nat (length (TxIns tx)) <= maxTxInPerMessage /\
  Forall txout_wf (TxOuts tx) /\ Z.of_nat (length (TxOuts tx)) <= maxTxOutPerMessage /\
  in_unsigned 32 (LockTime tx).

(** The input as [readTxIn] returns it, before its witness is read. *)
Definition strip_witness (ti : TxIn) : TxIn :=
  mkTxIn (PreviousOutPoint ti) (SignatureScript ti) [] (Sequence ti).

(** ** Transaction hash *)

Section WithCrypto.
Context `{Crypto}.

(** [TxHash()]: double SHA-256 of the serialisation without witness. *)
Definition TxHash (tx : MsgTx) : bytes := DoubleHashB (SerializeNoWitness tx).

End WithCrypto.

(** A sample segwit transaction for the witnesses. *)
Definition sample_tx : MsgTx :=
  mkMsgTx 2 [mkTxIn (mkOutPoint (repeat (b8 1) 32) 3) [b8 0x51] [[b8 2; b8 3]] 0xfffffffe]
    [mkTxOut 5000 [b8 0x51]; mkTxOut 7 []] 0.

(** ** Properties *)

(** *** Field round trips *)

Lemma maxTxInPerMessage_val : maxTxInPerMessage = 818401.
Proof. reflexivity. Qed.
Lemma maxTxOutPerMessage_val : maxTxOutPerMessage = 3728271.
Proof. reflexivity. Qed.
Lemma MaxMessagePayload_val : MaxMessagePayload = 33554432.
Proof. reflexivity. Qed.


Lemma WriteVarInt_len_roundtrip (bs rest : bytes) (maxAllowed : Z) :
  Z.of_nat (length bs) <= maxAllowed -> maxAllowed <= MaxMessagePayload ->
  ReadVarInt (WriteVarBytes bs ++ rest) = Ok (Z.of_nat (length bs), bs ++ rest).
Proof.
  intros. unfold WriteVarBytes. rewrite <- app_assoc. apply ReadVarInt_WriteVarInt.
  unfold in_unsigned, MaxMessagePayload in *. lia.
Qed.

Lemma readScript_roundtrip (bs rest : bytes) maxAllowed name :
  Z.of_nat (length bs) <= maxAllowed -> maxAllowed <= MaxMessagePayload ->
  readScript maxAllowed name (WriteVarBytes bs ++ rest) = Ok (bs, rest).
Proof.
  intros. unfold readScript.
  erewrite reader_bind_Ok by (by apply (WriteVarInt_len_roundtrip _ _ maxAllowed)).
  rewrite Z.gtb_ltb. zcase; [lia|]. rewrite Nat2Z.id. by apply read_full_app.
Qed.

Lemma readOutPoint_roundtrip op (rest : bytes) :
  outpoint_wf op -> readOutPoint (writeOutPoint op ++ rest) = Ok (op, rest).
Proof.
  intros [Hh Hi]. unfold readOutPoint, writeOutPoint. rewrite <- app_assoc.
  erewrite reader_bind_Ok by (by apply read_full_app).
  erewrite reader_bind_Ok by (apply read_le_put_le_small; unfold in_unsigned in Hi; cbn; lia).
  by destruct op.
Qed.

Lemma readTxIn_roundtrip ti (rest : bytes) :
  txin_wf ti -> readTxIn (writeTxIn ti ++ rest) = Ok (strip_witness ti, rest).
Proof.
  intros (Hop & Hs & _ & Hq). unfold readTxIn, writeTxIn. rewrite <- !app_assoc.
  erewrite reader_bind_Ok by (by apply readOutPoint_roundtrip).
  erewrite reader_bind_Ok by (apply readScript_roundtrip; [done|reflexivity]).
  erewrite reader_bind_Ok by (apply read_le_put_le_small; unfold in_unsigned in Hq; cbn; lia).
  done.
Qed.

Lemma readTxOut_roundtrip to (rest : bytes) :
  txout_wf to -> readTxOut (WriteTxOut to ++ rest) = Ok (to, rest).
Proof.
  intros [Hv Hs]. unfold readTxOut, WriteTxOut. rewrite <- !app_assoc.
  erewrite reader_bind_Ok by (apply read_le_put_le).
  erewrite reader_bind_Ok by (apply readScript_roundtrip; [done|reflexivity]).
  cbn. change (Z.of_nat 8 * 8) with 64. rewrite to_signed_mod by (done || lia).
  by destruct to.
Qed.

Lemma readTxWitness_roundtrip wit (rest : bytes) :
  witness_wf wit -> readTxWitness (writeTxWitness wit ++ rest) = Ok (wit, rest).
Proof.
  intros [Hn Hall]. unfold readTxWitness, writeTxWitness. rewrite <- app_assoc.
  erewrite reader_bind_Ok
    by (apply ReadVarInt_WriteVarInt; unfold in_unsigned, maxWitnessItemsPerInput in *; lia).
  rewrite Z.gtb_ltb. zcase; [lia|]. rewrite Nat2Z.id.
  rewrite (read_list_concat _ _ (fun w => w)); [by rewrite map_id|].
  intros w r Hw. apply readScript_roundtrip; [|cbv; discriminate].
  rewrite Forall_forall in Hall. apply Hall. by apply list_elem_of_In.
Qed.

Lemma readWitnesses_roundtrip tis (rest : bytes) :
  Forall txin_wf tis ->
  readWitnesses (map strip_witness tis)
    (concat (map (fun ti => writeTxWitness (Witness ti)) tis) ++ rest) = Ok (tis, rest).
Proof.
  revert rest. induction tis as [|ti tis IH]; intros rest Hall; [done|].
  inversion Hall as [|? ? (_ & _ & Hw & _) Hrest]; subst.
  cbn [map concat readWitnesses]. rewrite <- app_assoc.
  erewrite reader_bind_Ok by (by apply readTxWitness_roundtrip).
  erewrite reader_bind_Ok by (by apply IH).
  by destruct ti.
Qed.

Lemma HasWitness_false_strip tx :
  HasWitness tx = false -> map strip_witness (TxIns tx) = TxIns tx.
Proof.
  unfold HasWitness. induction (TxIns tx) as [|[op s w q] tis IH]; [done|].
  cbn. intros [Hw Hr]%orb_false_elim. rewrite IH by done.
  destruct w; [done|discriminate].
Qed.

Lemma ReadVarInt_marker (x : Init.Byte.byte) (rest : bytes) :
  ReadVarInt (b8 TxFlagMarker :: x :: rest) = Ok (0, x :: rest).
Proof. reflexivity. Qed.

(** Round trip of the wire format: decoding the serialisation of a
    well-formed transaction with at least one input gives the transaction
    back (witnesses included) and leaves the following bytes unread. *)
Theorem Deserialize_Serialize tx (rest : bytes) :
  tx_wf tx -> TxIns tx <> [] -> Deserialize (Serialize tx ++ rest) = Ok (tx, rest).
Proof.
  intros (Hv & Hins & Hnin & Houts & Hnout & Hl) Hne.
  rewrite maxTxInPerMessage_val in Hnin. rewrite maxTxOutPerMessage_val in Hnout.
  assert (in_unsigned 64 (Z.of_nat (length (TxIns tx)))) as Hn1 by (unfold in_unsigned; lia).
  assert (in_unsigned 64 (Z.of_nat (length (TxOuts tx)))) as Hn2 by (unfold in_unsigned; lia).
  assert (forall ti r, ti ∈ TxIns tx -> readTxIn (writeTxIn ti ++ r) = Ok (strip_witness ti, r))
    as Hrin by (intros ti r Hti; apply readTxIn_roundtrip; rewrite Forall_forall in Hins;
                apply Hins; by apply list_elem_of_In).
  assert (forall to r, to ∈ TxOuts tx -> readTxOut (WriteTxOut to ++ r) = Ok (to, r))
    as Hrout by (intros to r Hto; apply readTxOut_roundtrip; rewrite Forall_forall in Houts;
                 apply Houts; by apply list_elem_of_In).
  unfold Deserialize, BtcDecode, Serialize, BtcEncode. cbn [isWitnessEncoding andb].
  rewrite <- !app_assoc.
  erewrite reader_bind_Ok by apply read_le_put_le.
  destruct (HasWitness tx) eqn:Hw; cbn [app].
  - (* the marker, the flag, then the real input count *)
    erewrite reader_bind_Ok by apply ReadVarInt_marker. cbn beta.
    erewrite reader_bind_Ok.
    2:{ cbn [Z.eqb andb TxFlagMarker].
        erewrite reader_bind_Ok by (apply (read_le_put_le_small 1 WitnessFlag); unfold WitnessFlag; cbn; lia).
        cbn [Z.eqb Pos.eqb negb WitnessFlag].
        erewrite reader_bind_Ok by (by apply ReadVarInt_WriteVarInt). reflexivity. }
    cbn beta iota.
    rewrite Z.gtb_ltb, maxTxInPerMessage_val. zcase; [lia|]. rewrite Nat2Z.id.
    erewrite reader_bind_Ok by (by apply (read_list_concat _ _ strip_witness)).
    erewrite reader_bind_Ok by (by apply ReadVarInt_WriteVarInt).
    rewrite Z.gtb_ltb, maxTxOutPerMessage_val. zcase; [lia|]. rewrite Nat2Z.id.
    erewrite reader_bind_Ok by (by apply (read_list_concat _ _ (fun to => to))).
    cbn [Z.eqb Pos.eqb negb andb].
    erewrite reader_bind_Ok by (by apply readWitnesses_roundtrip).
    erewrite reader_bind_Ok by (apply read_le_put_le_small; unfold in_unsigned in Hl; cbn; lia).
    rewrite map_id. cbn. rewrite to_signed_mod by (done || lia). by destruct tx.
  - erewrite reader_bind_Ok by (by apply ReadVarInt_WriteVarInt). cbn beta.
    assert ((Z.of_nat (length (TxIns tx)) =? TxFlagMarker) = false) as ->.
    { destruct (TxIns tx) as [|t l] eqn:E; [congruence|]. cbn [length].
      apply Z.eqb_neq. unfold TxFlagMarker. lia. }
    cbn [andb]. erewrite reader_bind_Ok by reflexivity. cbn beta iota.
    rewrite Z.gtb_ltb, maxTxInPerMessage_val. zcase; [lia|]. rewrite Nat2Z.id.
    erewrite reader_bind_Ok by (by apply (read_list_concat _ _ strip_witness)).
    erewrite reader_bind_Ok by (by apply ReadVarInt_WriteVarInt).
    rewrite Z.gtb_ltb, maxTxOutPerMessage_val. zcase; [lia|]. rewrite Nat2Z.id.
    erewrite reader_bind_Ok by (by apply (read_list_concat _ _ (fun to => to))).
    cbn [Z.eqb negb andb].
    erewrite reader_bind_Ok by reflexivity.
    erewrite reader_bind_Ok by (apply read_le_put_le_small; unfold in_unsigned in Hl; cbn; lia).
    rewrite map_id, HasWitness_false_strip by done. cbn.
    rewrite to_signed_mod by (done || lia). by destruct tx.
Qed.

(** The round trip fails without inputs: the serialisation of a
    transaction with no inputs starts, after the version, with the count
    byte 0, which the decoder takes for the segwit marker; it then reads the
    output count as the flag byte and rejects it unless it is 1. *)
Theorem Deserialize_no_inputs tx (rest : bytes) :
  TxIns tx = [] -> (length (TxOuts tx) <> 1)%nat -> Z.of_nat (length (TxOuts tx)) < 0xfd ->
  Deserialize (Serialize tx ++ rest) =
  Err ("MsgTx.BtcDecode: witness tx but flag byte is " ++
       hex_byte (b8 (Z.of_nat (length (TxOuts tx)))))%string.
Proof.
  intros Hin Hn1 Hn. unfold Deserialize, BtcDecode, Serialize, BtcEncode, HasWitness.
  rewrite Hin. cbn [isWitnessEncoding existsb andb app length concat map]. rewrite <- !app_assoc.
  erewrite reader_bind_Ok by apply read_le_put_le.
  erewrite reader_bind_Ok by (apply ReadVarInt_WriteVarInt; unfold in_unsigned; lia).
  rewrite (WriteVarInt_small _ (conj (Nat2Z.is_nonneg _) Hn)).
  change ((Z.of_nat 0 =? TxFlagMarker) && true) with true. cbn iota.
  unfold mbind at 1, reader_bind at 1.
  pose proof (read_le_put_le_small 1 (Z.of_nat (length (TxOuts tx))) (concat (map WriteTxOut (TxOuts tx)) ++ put_le 4 (LockTime tx) ++ rest)) as Hr.
  specialize (Hr ltac:(cbn; lia)).
  rewrite (reader_bind_Ok _ _ _ _ _ Hr).
  assert ((Z.of_nat (length (TxOuts tx)) =? WitnessFlag) = false) as -> by (apply Z.eqb_neq; cbv [WitnessFlag]; lia).
  reflexivity.
Qed.

Section TxHashSpec.
Context `{Crypto}.

(** The identifying hash: for a transaction without witness data,
    [TxHash] is the double hash of exactly the bytes [Serialize] writes
    (for one with witness data it hashes the encoding without them). *)
Theorem TxHash_Serialize tx : HasWitness tx = false -> TxHash tx = DoubleHashB (Serialize tx).
Proof.
  intros Hw. unfold TxHash, SerializeNoWitness, Serialize, BtcEncode.
  cbn [isWitnessEncoding andb]. by rewrite Hw.
Qed.

End TxHashSpec.

(** ** Witnesses *)

Lemma sample_tx_wf : tx_wf sample_tx.
Proof.
  cbv [tx_wf txin_wf outpoint_wf witness_wf txout_wf in_signed in_unsigned sample_tx].
  rewrite maxTxInPerMessage_val, maxTxOutPerMessage_val.
  cbv [MaxMessagePayload maxWitnessItemsPerInput maxWitnessItemSize HashSize].
  cbn [TxIns TxOuts PreviousOutPoint Hash Index SignatureScript Witness Sequence Value PkScript
       Version LockTime length repeat].
  repeat (split || apply Forall_cons || apply Forall_nil); cbn; lia.
Qed.

Lemma Deserialize_Serialize_witness :
  tx_wf sample_tx /\ TxIns sample_tx <> [] /\
  Deserialize (Serialize sample_tx ++ [b8 9]) = Ok (sample_tx, [b8 9]).
Proof.
  assert (TxIns sample_tx <> []) as Hne by discriminate.
  split_and!; [exact sample_tx_wf|exact Hne|].
  exact (Deserialize_Serialize _ _ sample_tx_wf Hne).
Defined.

Lemma Deserialize_no_inputs_witness :
  TxIns (mkMsgTx 1 [] [] 0) = [] /\ (length (TxOuts (mkMsgTx 1 [] [] 0)) <> 1)%nat /\
  Z.of_nat (length (TxOuts (mkMsgTx 1 [] [] 0))) < 0xfd /\
  Deserialize (Serialize (mkMsgTx 1 [] [] 0)) =
    Err "MsgTx.BtcDecode: witness tx but flag byte is 00".
Proof.
  assert (TxIns (mkMsgTx 1 [] [] 0) = []) as H1 by reflexivity.
  assert ((length (TxOuts (mkMsgTx 1 [] [] 0)) <> 1)%nat) as H2 by (cbn; lia).
  assert (Z.of_nat (length (TxOuts (mkMsgTx 1 [] [] 0))) < 0xfd) as H3 by (cbn; lia).
  split_and!; [exact H1|exact H2|exact H3|].
  pose proof (Deserialize_no_inputs _ [] H1 H2 H3) as H. rewrite app_nil_r in H. exact H.
Defined.

Lemma TxHash_Serialize_witness :
  HasWitness (mkMsgTx 1 [mkTxIn (mkOutPoint (repeat (b8 1) 32) 0) [b8 0x51] [] 0] [] 0) = false /\
  @TxHash toy_crypto (mkMsgTx 1 [mkTxIn (mkOutPoint (repeat (b8 1) 32) 0) [b8 0x51] [] 0] [] 0) =
  @DoubleHashB toy_crypto (Serialize (mkMsgTx 1 [mkTxIn (mkOutPoint (repeat (b8 1) 32) 0) [b8 0x51] [] 0] [] 0)).
Proof.
  assert (HasWitness (mkMsgTx 1 [mkTxIn (mkOutPoint (repeat (b8 1) 32) 0) [b8 0x51] [] 0] [] 0) = false)
    as H by reflexivity.
  split; [exact H|]. exact (@TxHash_Serialize toy_crypto _ H).
Defined.

End Wire.
