(* ===== verification/Sign.v ===== *)
(** * Sign: the legacy signature hash and the signer

    [assembleTx] ends with [sign(&tx, 1100000, pkScript, wif)]
    (src/main.go line 119), a function of this repository that is not
    under src/: it is modelled from the spec (4.3) as a single-key
    pay-to-public-key-hash signer: it fails with a [SigningError] unless
    the locking script is the P2PKH template, and otherwise loops over the
    inputs, writing into each the unlocking script built by btcd's
    [txscript.SignatureScript] with [SigHashAll].  [calcSignatureHash] is
    the legacy signature hash of [txscript/script.go] (step 1-3 of spec
    4.3), [RawTxInSignature] and [SignatureScript] those of
    [txscript/sign.go] (steps 4-6).  The cryptography is the class
    [Crypto]; a [WIF] is the decoded private key. *)

From Stdlib Require Import ZArith List String Lia.
From stdpp Require Import base list decidable.
From S2P Require Import Prelude Crypto Script ScriptParse CompactSize Wire.
Import ListNotations Script Parse Wire.
Open Scope Z_scope.
Open Scope btc_scope.

Module Sign.

(** [txscript.SigHashType] values. *)
Definition SigHashOld : Z := 0x0.
Definition SigHashAll : Z := 0x1.
Definition SigHashNone : Z := 0x2.
Definition SigHashSingle : Z := 0x3.
Definition SigHashAnyOneCanPay : Z := 0x80.
Definition sigHashMask : Z := 0x1f.

(** [btcutil.WIF]: the private key scalar and whether its public key is
    serialised compressed. *)
Record WIF := mkWIF { PrivKey : bytes; CompressPubKey : bool }.

Definition set_sigScript (s : bytes) (ti : TxIn) : TxIn :=
  mkTxIn (PreviousOutPoint ti) s (Witness ti) (Sequence ti).
Definition set_sequence (q : Z) (ti : TxIn) : TxIn :=
  mkTxIn (PreviousOutPoint ti) (SignatureScript ti) (Witness ti) q.

(** [for i := range txCopy.TxIn { if i == idx { g } else { f } }], from
    position [i] on. *)
Fixpoint map_inputs_from (i idx : nat) (g f : TxIn -> TxIn) (tis : list TxIn) : list TxIn :=
  match tis with
  | [] => []
  | ti :: tis => (if Nat.eqb i idx then g ti else f ti) :: map_inputs_from (S i) idx g f tis
  end.

Definition map_inputs (idx : nat) (g f : TxIn -> TxIn) (tis : list TxIn) : list TxIn :=
  map_inputs_from 0 idx g f tis.

(** The signature hash of [SigHashSingle] for an input without a matching
    output: the number 1 as a little-endian [uint256]. *)
Definition sigHashSingleBug : bytes := Byte.x01 :: zeros 31.

Section WithCrypto.
Context `{Crypto}.

(** [calcSignatureHash(script, hashType, tx, idx)]. *)
Definition calcSignatureHash (script : list parsedOpcode) (hashType : Z) (tx : MsgTx)
    (idx : nat) : bytes :=
  if (Z.land hashType sigHashMask =? SigHashSingle) && (length (TxOuts tx) <=? idx)%nat then
    sigHashSingleBug
  else
    let script := removeOpcode script OP_CODESEPARATOR in
    let sigScript := match unparseScript script with Ok s => s | Err _ => [] end in
    let txIns := map_inputs idx (set_sigScript sigScript) (set_sigScript []) (TxIns tx) in
    let '(txIns, txOuts) :=
      if Z.land hashType sigHashMask =? SigHashNone then
        (map_inputs idx id (set_sequence 0) txIns, [])
      else if Z.land hashType sigHashMask =? SigHashSingle then
        (map_inputs idx id (set_sequence 0) txIns,
         zip_with (fun i to => if (i <? idx)%nat then mkTxOut (-1) [] else to)
              (seq 0 (S idx)) (take (S idx) (TxOuts tx)))
      else (txIns, TxOuts tx) in
    let txIns :=
      if negb (Z.land hashType SigHashAnyOneCanPay =? 0) then take 1 (drop idx txIns)
      else txIns in
    let txCopy := mkMsgTx (Version tx) txIns txOuts (LockTime tx) in
    DoubleHashB (SerializeNoWitness txCopy ++ put_le 4 hashType).

(** [CalcSignatureHash(script, hashType, tx, idx)]: parses the script and
    checks the input index. *)
Definition CalcSignatureHash (script : bytes) (hashType : Z) (tx : MsgTx) (idx : nat)
    : result bytes :=
  if (length (TxIns tx) <=? idx)%nat then
    Err ("idx " ++ nat_to_string idx ++ " but " ++ nat_to_string (length (TxIns tx)) ++ " txins")%string
  else
    match parseScript script with
    | Err e => Err ("cannot parse output script: " ++ e)%string
    | Ok pops => Ok (calcSignatureHash pops hashType tx idx)
    end.

(** [RawTxInSignature]: the DER signature of the hash, then the hash type
    byte. *)
Definition RawTxInSignature (tx : MsgTx) (idx : nat) (subScript : bytes) (hashType : Z)
    (key : bytes) : result bytes :=
  hash ← CalcSignatureHash subScript hashType tx idx;
  mret (SignDER key hash ++ [b8 hashType]).

(** [SignatureScript]: push the signature, push the public key. *)
Definition SignatureScript (tx : MsgTx) (idx : nat) (subscript : bytes) (hashType : Z)
    (privKey : bytes) (compress : bool) : result bytes :=
  sig ← RawTxInSignature tx idx subscript hashType privKey;
  let pkData := if compress then SerializeCompressed privKey else SerializeUncompressed privKey in
  Script (NewScriptBuilder |> AddData sig |> AddData pkData).

(** [tx.TxIn[idx].SignatureScript = sigScript]. *)
Definition set_input_script (tx : MsgTx) (idx : nat) (s : bytes) : MsgTx :=
  mkMsgTx (Version tx) (map_inputs idx (set_sigScript s) id (TxIns tx)) (TxOuts tx) (LockTime tx).

(** The repository's [sign(tx, amount, pkScript, wif)]: for each input in
    order, sign it against [pkScript] with [SigHashAll] and store the
    unlocking script in the transaction before signing the next one.  The
    amount is not used by the legacy signature hash. *)
Fixpoint sign_from (idxs : list nat) (tx : MsgTx) (pkScript : bytes) (wif : WIF) : result MsgTx :=
  match idxs with
  | [] => Ok tx
  | idx :: idxs =>
      sigScript ← SignatureScript tx idx pkScript SigHashAll (PrivKey wif) (CompressPubKey wif);
      sign_from idxs (set_input_script tx idx sigScript) pkScript wif
  end.

(** The only locking script the signer supports (spec 4.3, "single-key
    pay-to-public-key-hash style"): [OP_DUP OP_HASH160 OP_DATA_20 <20
    bytes> OP_EQUALVERIFY OP_CHECKSIG], as btcd's [isPubKeyHashScript]
    recognises it on the parsed script. *)
Definition isPubKeyHash (pops : list parsedOpcode) : bool :=
  match pops with
  | [p0; p1; p2; p3; p4] =>
      (opcode p0 =? OP_DUP) && (opcode p1 =? OP_HASH160) &&
      ((opcode p2 =? 0x14) && (length (data p2) =? 20)%nat) &&
      (opcode p3 =? OP_EQUALVERIFY) && (opcode p4 =? OP_CHECKSIG)
  | _ => false
  end.

(** The [SigningError] of spec 4.3 for an unsupported locking script. *)
Definition ErrUnsupportedScript : string := "SigningError: unsupported locking script type".

(** [sign]: a locking script that does not parse or is not P2PKH is
    refused before any input is signed. *)
Definition sign (tx : MsgTx) (amount : Z) (pkScript : bytes) (wif : WIF) : result MsgTx :=
  match parseScript pkScript with
  | Err e => Err ("cannot parse output script: " ++ e)%string
  | Ok pops =>
      if isPubKeyHash pops then sign_from (seq 0 (length (TxIns tx))) tx pkScript wif
      else Err ErrUnsupportedScript
  end.

(** ** Specification of the signer *)

(** The unlocking script of spec 4.3 step 6 for input [idx]: the canonical
    push of the signature over the unsigned transaction followed by the
    hash type byte, then the canonical push of the public key. *)
Definition sigScript_spec (tx : MsgTx) (pops : list parsedOpcode) (wif : WIF) (idx : nat) : bytes :=
  encode_items
    [Data (SignDER (PrivKey wif) (calcSignatureHash pops SigHashAll tx idx) ++ [b8 SigHashAll]);
     Data (if CompressPubKey wif then SerializeCompressed (PrivKey wif)
           else SerializeUncompressed (PrivKey wif))].

(** Every input from position [i] on gets the unlocking script [h i]. *)
Fixpoint sign_all_from (i : nat) (h : nat -> bytes) (tis : list TxIn) : list TxIn :=
  match tis with
  | [] => []
  | ti :: tis => set_sigScript (h i) ti :: sign_all_from (S i) h tis
  end.

(** The transaction [sign] must return: each input carries the unlocking
    script computed on the unsigned transaction; nothing else changes. *)
Definition signed_tx (tx : MsgTx) (pops : list parsedOpcode) (wif : WIF) : MsgTx :=
  mkMsgTx (Version tx) (sign_all_from 0 (sigScript_spec tx pops wif) (TxIns tx))
    (TxOuts tx) (LockTime tx).

(** The state of the signing loop after [k] iterations: the inputs before
    position [k] signed, the others untouched. *)
Fixpoint sign_upto_from (i k : nat) (h : nat -> bytes) (tis : list TxIn) : list TxIn :=
  match tis with
  | [] => []
  | ti :: tis =>
      (if Nat.ltb i k then set_sigScript (h i) ti else ti) :: sign_upto_from (S i) k h tis
  end.

Definition sign_partial (tx : MsgTx) (pops : list parsedOpcode) (wif : WIF) (k : nat) : MsgTx :=
  mkMsgTx (Version tx) (sign_upto_from 0 k (sigScript_spec tx pops wif) (TxIns tx))
    (TxOuts tx) (LockTime tx).

Definition sample_pops : list parsedOpcode :=
  [mkPop 0x76 []; mkPop 0xa9 []; mkPop 2 [b8 0x11; b8 0x22]; mkPop 0x88 []; mkPop 0xac []].

(** ** Properties *)

Lemma set_sigScript_idem a b ti : set_sigScript a (set_sigScript b ti) = set_sigScript a ti.
Proof. by destruct ti. Qed.

Lemma map_inputs_from_strip i idx a b tis :
  map_inputs_from i idx (set_sigScript a) (set_sigScript b) tis =
  map_inputs_from i idx (set_sigScript a) (set_sigScript b) (map (set_sigScript []) tis).
Proof.
  revert i. induction tis as [|ti tis IH]; intros i; [done|]. cbn [map map_inputs_from].
  rewrite IH. by destruct (Nat.eqb i idx); rewrite set_sigScript_idem.
Qed.

(** The legacy signature hash ignores the unlocking scripts. *)
Lemma calcSignatureHash_strip pops ht tx tx' idx :
  Version tx = Version tx' -> TxOuts tx = TxOuts tx' -> LockTime tx = LockTime tx' ->
  map (set_sigScript []) (TxIns tx) = map (set_sigScript []) (TxIns tx') ->
  calcSignatureHash pops ht tx idx = calcSignatureHash pops ht tx' idx.
Proof.
  intros Hv Ho Hl Hs. unfold calcSignatureHash, map_inputs.
  rewrite Hv, Ho, Hl, map_inputs_from_strip, Hs, <- map_inputs_from_strip. done.
Qed.

Lemma length_push_spec_le d : (length (push_spec d) <= length d + 5)%nat.
Proof.
  pose proof (canonicalDataSize_push_spec d) as Hc. unfold canonicalDataSize in Hc.
  revert Hc. repeat (zcase || cbn [andb]); lia.
Qed.

Lemma pkData_length (wif : WIF) :
  (length (if CompressPubKey wif then SerializeCompressed (PrivKey wif)
           else SerializeUncompressed (PrivKey wif)) <= 65)%nat.
Proof.
  destruct (CompressPubKey wif);
    rewrite ?SerializeCompressed_length, ?SerializeUncompressed_length; lia.
Qed.

Lemma SignatureScript_spec tx idx pkScript pops wif :
  parseScript pkScript = Ok pops -> (idx < length (TxIns tx))%nat ->
  SignatureScript tx idx pkScript SigHashAll (PrivKey wif) (CompressPubKey wif) =
  Ok (sigScript_spec tx pops wif idx).
Proof.
  intros Hp Hi. unfold SignatureScript, RawTxInSignature, CalcSignatureHash.
  zcase; [lia|]. rewrite Hp. cbn [mbind result_bind mret result_ret].
  set (sig := SignDER (PrivKey wif) _ ++ _).
  set (pk := if CompressPubKey wif then _ else _).
  change (NewScriptBuilder |> AddData sig |> AddData pk) with
    (build [Data sig; Data pk] NewScriptBuilder).
  apply Script_build. split; [|done].
  assert (length sig <= 73)%nat
    by (subst sig; rewrite length_app; pose proof (SignDER_length (PrivKey wif)
          (calcSignatureHash pops SigHashAll tx idx)); cbn [length]; lia).
  pose proof (pkData_length wif) as Hpk. fold pk in Hpk.
  pose proof (length_push_spec_le sig). pose proof (length_push_spec_le pk).
  unfold items_ok, elems_ok, encode_items. cbn [map concat forallb item_bytes].
  rewrite app_nil_r, length_app. cbv [MaxScriptSize MaxScriptElementSize]. zdecide. done.
Qed.

(** The unlocking script is short: at most 156 bytes. *)
Lemma length_sigScript_spec tx pops wif idx : (length (sigScript_spec tx pops wif idx) <= 156)%nat.
Proof.
  unfold sigScript_spec, encode_items. cbn [map concat item_bytes]. rewrite app_nil_r, length_app.
  set (sig := SignDER _ _ ++ _). set (pk := if CompressPubKey wif then _ else _).
  assert (length sig <= 73)%nat
    by (subst sig; rewrite length_app; pose proof (SignDER_length (PrivKey wif)
          (calcSignatureHash pops SigHashAll tx idx)); cbn [length]; lia).
  pose proof (pkData_length wif). pose proof (length_push_spec_le sig).
  pose proof (length_push_spec_le pk). subst pk. lia.
Qed.

Lemma sign_upto_from_step i k h tis :
  map_inputs_from i k (set_sigScript (h k)) id (sign_upto_from i k h tis) =
  sign_upto_from i (S k) h tis.
Proof.
  revert i. induction tis as [|ti tis IH]; intros i; [done|]. cbn [sign_upto_from map_inputs_from].
  rewrite IH. f_equal. repeat zcase; try lia; subst; rewrite ?set_sigScript_idem; done.
Qed.

Lemma sign_upto_from_strip i k h tis :
  map (set_sigScript []) (sign_upto_from i k h tis) = map (set_sigScript []) tis.
Proof.
  revert i. induction tis as [|ti tis IH]; intros i; [done|]. cbn [sign_upto_from map].
  rewrite IH. by destruct (Nat.ltb i k); rewrite ?set_sigScript_idem.
Qed.

Lemma length_sign_upto_from i k h tis : length (sign_upto_from i k h tis) = length tis.
Proof. revert i. induction tis; intros i; cbn; [done|]. by rewrite IHtis. Qed.

Lemma sign_upto_from_none i k h tis : (k <= i)%nat -> sign_upto_from i k h tis = tis.
Proof.
  revert i. induction tis as [|ti tis IH]; intros i Hi; [done|]. cbn [sign_upto_from].
  zcase; [lia|]. rewrite IH by lia. done.
Qed.

Lemma sign_upto_from_all i k h tis :
  (i + length tis <= k)%nat -> sign_upto_from i k h tis = sign_all_from i h tis.
Proof.
  revert i. induction tis as [|ti tis IH]; intros i Hi; [done|]. cbn [sign_upto_from sign_all_from length] in *.
  zcase; [|lia]. rewrite IH by lia. done.
Qed.

Lemma sign_from_partial tx pkScript pops wif m k :
  parseScript pkScript = Ok pops -> (k + m = length (TxIns tx))%nat ->
  sign_from (seq k m) (sign_partial tx pops wif k) pkScript wif =
  Ok (sign_partial tx pops wif (k + m)).
Proof.
  intros Hp. revert k. induction m as [|m IH]; intros k Hk; [by rewrite Nat.add_0_r|].
  cbn [seq sign_from]. rewrite SignatureScript_spec with (pops := pops)
    by (done || (cbn [TxIns sign_partial]; rewrite length_sign_upto_from; lia)).
  cbn [mbind result_bind].
  assert (sigScript_spec (sign_partial tx pops wif k) pops wif k = sigScript_spec tx pops wif k)
    as ->.
  { unfold sigScript_spec. f_equal. do 3 f_equal. f_equal.
    apply calcSignatureHash_strip; try done. apply sign_upto_from_strip. }
  unfold set_input_script, map_inputs. cbn [Version TxIns TxOuts LockTime sign_partial].
  rewrite sign_upto_from_step. rewrite <- Nat.add_succ_comm. apply (IH (S k)). lia.
Qed.

(** The signer succeeds when the locking script parses. *)
Lemma sign_ok tx amount pkScript pops wif :
  parseScript pkScript = Ok pops -> isPubKeyHash pops = true ->
  sign tx amount pkScript wif = Ok (signed_tx tx pops wif).
Proof.
  intros Hp Hk. unfold sign. rewrite Hp, Hk.
  assert (sign_partial tx pops wif 0 = tx) as H0
    by (unfold sign_partial; rewrite sign_upto_from_none by lia; by destruct tx).
  pose proof (sign_from_partial tx pkScript pops wif (length (TxIns tx)) 0 Hp eq_refl) as Hs.
  rewrite H0 in Hs. rewrite Hs.
  unfold sign_partial, signed_tx. rewrite sign_upto_from_all by lia. done.
Qed.

(** The push of [h] in a P2PKH script is [OP_DATA_20] exactly when [h]
    has 20 bytes. *)
Lemma push_pop_data20 h :
  ((opcode (push_pop h) =? 0x14) && (length (data (push_pop h)) =? 20)%nat) = (length h =? 20)%nat.
Proof.
  destruct h as [|x [|y l]]; [done| |].
  - unfold push_pop. repeat case_match; cbn [opcode data length]; by rewrite ?andb_false_r.
  - unfold push_pop. destruct (Nat.eqb_spec (length (x :: y :: l)) 20) as [E|E].
    + cbn [length] in E |- *. injection E as E. rewrite E. cbv [OP_PUSHDATA1].
      rewrite (proj2 (Z.ltb_lt (Z.of_nat 20) 76)) by lia. cbn. by rewrite E.
    + repeat case_match; cbn [opcode data]; rewrite (proj2 (Nat.eqb_neq _ _) E); apply andb_false_r.
Qed.

(** The signer accepts the locking script of an address exactly when it
    is a P2PKH address of a 20-byte hash. *)
Lemma isPubKeyHash_addr addr :
  isPubKeyHash (map item_pop (addr_items addr)) =
  match addr with AddressPubKeyHash h => (length h =? 20)%nat | _ => false end.
Proof.
  destruct addr as [h|h|pk|h|h]; try reflexivity.
  cbn [addr_items map item_pop isPubKeyHash opcode].
  cbv [OP_DUP OP_HASH160 OP_EQUALVERIFY OP_CHECKSIG]. cbn [Z.eqb Pos.eqb andb].
  rewrite !andb_true_r. apply push_pop_data20.
Qed.

Lemma sign_all_from_strip i h tis :
  map PreviousOutPoint (sign_all_from i h tis) = map PreviousOutPoint tis /\
  map Sequence (sign_all_from i h tis) = map Sequence tis /\
  map Witness (sign_all_from i h tis) = map Witness tis.
Proof.
  revert i. induction tis as [|[] tis IH]; intros i; [done|].
  cbn. destruct (IH (S i)) as (-> & -> & ->). done.
Qed.

(** Invariant of the signer: whatever [sign] returns differs from its
    input only in the unlocking scripts; version, outputs, lock time, and
    each input's outpoint, sequence and witness are those of the input. *)
Theorem sign_preserves tx amount pkScript wif tx' :
  sign tx amount pkScript wif = Ok tx' ->
  Version tx' = Version tx /\ TxOuts tx' = TxOuts tx /\ LockTime tx' = LockTime tx /\
  map PreviousOutPoint (TxIns tx') = map PreviousOutPoint (TxIns tx) /\
  map Sequence (TxIns tx') = map Sequence (TxIns tx) /\
  map Witness (TxIns tx') = map Witness (TxIns tx).
Proof.
  destruct (parseScript pkScript) as [pops|e] eqn:Hp; [|unfold sign; by rewrite Hp].
  destruct (isPubKeyHash pops) eqn:Hk; [|unfold sign; by rewrite Hp, Hk].
  rewrite (sign_ok _ _ _ _ _ Hp Hk). intros [= <-]. cbn.
  split_and!; try done; apply sign_all_from_strip.
Qed.

(** Functional behaviour of the signer on every branch: a locking script
    that does not parse or is not the P2PKH template is refused; otherwise
    [sign] returns the transaction with every input's unlocking script set
    to [push(sig || SigHashAll)] [push(pubkey)], each signature made over
    the unsigned transaction, and nothing else changed. *)
Theorem sign_spec tx amount pkScript wif :
  sign tx amount pkScript wif =
  match parseScript pkScript with
  | Ok pops => if isPubKeyHash pops then Ok (signed_tx tx pops wif) else Err ErrUnsupportedScript
  | Err e => Err ("cannot parse output script: " ++ e)%string
  end.
Proof.
  destruct (parseScript pkScript) as [pops|e] eqn:Hp; [|unfold sign; by rewrite Hp].
  destruct (isPubKeyHash pops) eqn:Hk; [by apply sign_ok|unfold sign; by rewrite Hp, Hk].
Qed.

(** The legacy signature hash does not depend on the unlocking scripts
    the inputs carry: signing an input cannot change the hash another
    input signs, so the signer may sign the inputs one after the other. *)
Theorem calcSignatureHash_sigScripts pops ht tx tx' idx :
  Version tx = Version tx' -> TxOuts tx = TxOuts tx' -> LockTime tx = LockTime tx' ->
  map (set_sigScript []) (TxIns tx) = map (set_sigScript []) (TxIns tx') ->
  calcSignatureHash pops ht tx idx = calcSignatureHash pops ht tx' idx.
Proof. apply calcSignatureHash_strip. Qed.

End WithCrypto.

(** ** Witnesses, with the executable [toy_crypto] *)

#[local] Existing Instance toy_crypto.


Lemma calcSignatureHash_sigScripts_witness :
  let tx' := set_input_script sample_tx 0 [b8 1; b8 2; b8 3] in
  Version sample_tx = Version tx' /\ TxOuts sample_tx = TxOuts tx' /\
  LockTime sample_tx = LockTime tx' /\
  map (set_sigScript []) (TxIns sample_tx) = map (set_sigScript []) (TxIns tx') /\
  calcSignatureHash sample_pops SigHashAll sample_tx 0 = calcSignatureHash sample_pops SigHashAll tx' 0.
Proof.
  intros tx'.
  assert (Version sample_tx = Version tx') as H1 by reflexivity.
  assert (TxOuts sample_tx = TxOuts tx') as H2 by reflexivity.
  assert (LockTime sample_tx = LockTime tx') as H3 by reflexivity.
  assert (map (set_sigScript []) (TxIns sample_tx) = map (set_sigScript []) (TxIns tx')) as H4
    by reflexivity.
  split_and!; [exact H1|exact H2|exact H3|exact H4|].
  exact (calcSignatureHash_sigScripts _ _ _ _ _ H1 H2 H3 H4).
Defined.

End Sign.
