(* ===== verification/Engine.v ===== *)
(** * Engine: btcd's script interpreter

    A locking script is satisfied when the unlocking script, executed
    first, leaves a stack on which the locking script ends with a true
    value (spec 4.3, "Guarantees").  This file models btcd's interpreter
    ([txscript/engine.go], [opcode.go], [stack.go], [scriptnum.go]) for
    the opcodes the program's scripts use: the data pushes and small
    integers, [OP_VERIFY], [OP_DUP], [OP_EQUAL], [OP_EQUALVERIFY],
    [OP_HASH160], [OP_CODESEPARATOR], [OP_CHECKSIG] and
    [OP_CHECKMULTISIG].  Any other opcode stops the model with an error.

    The interpreter state [Engine] is the data stack (top first), the
    operation count of the current script and the script from the last
    [OP_CODESEPARATOR]; [executeOpcode] is one step, [execScript] runs one
    script, and [VerifyScript] is [NewEngine] followed by [Execute] and
    [CheckErrorCondition].  The verification flags the model honours are
    the fields of [ScriptFlags]; the parsing of DER signatures and public
    keys and the ECDSA check are the [VerifyDER] of the class [Crypto]. *)

From Stdlib Require Import ZArith List String Lia.
From stdpp Require Import base list list_relations decidable.
From S2P Require Import Prelude Crypto Hex Script ScriptParse Wire Sign.
Import ListNotations Script Parse Wire Sign.
Open Scope Z_scope.
Open Scope btc_scope.

Module Engine.

(** ** Limits and flags *)

Definition MaxOpsPerScript : Z := 201.
Definition MaxPubKeysPerMultiSig : Z := 20.
Definition MaxStackSize : nat := 1000.

(** The verification flags the model honours ([ScriptFlags] of btcd). *)
Record ScriptFlags := mkFlags {
  VerifyMinimalData : bool;
  VerifyStrictEncoding : bool;
  StrictMultiSig : bool;
  VerifyNullFail : bool;
  VerifySigPushOnly : bool;
  VerifyCleanStack : bool
}.

(** ** Stack values *)

(** [asBool]: any non-zero byte makes a true value, except a sign bit
    alone in the last byte (negative zero). *)
Fixpoint asBool (t : bytes) : bool :=
  match t with
  | [] => false
  | x :: rest =>
      if byte.unsigned x =? 0 then asBool rest
      else if (if rest is [] then true else false) && (byte.unsigned x =? 0x80) then false
      else true
  end.

(** [fromBool]: the canonical encodings of true and false. *)
Definition fromBool (v : bool) : bytes := if v then [b8 1] else [].

(** [checkMinimalDataEncoding]: a number has no superfluous zero byte. *)
Definition checkMinimalDataEncoding (v : bytes) : result unit :=
  match rev v with
  | [] => Ok tt
  | last :: before =>
      if Z.land (byte.unsigned last) 0x7f =? 0 then
        match before with
        | [] => Err ("numeric value encoded as " ++ Hex.EncodeToString v ++ " is not minimally encoded")%string
        | prev :: _ =>
            if Z.land (byte.unsigned prev) 0x80 =? 0 then
              Err ("numeric value encoded as " ++ Hex.EncodeToString v ++ " is not minimally encoded")%string
            else Ok tt
        end
      else Ok tt
  end.

(** [makeScriptNum(v, requireMinimal, 4)]: little-endian sign and
    magnitude, at most 4 bytes. *)
Definition makeScriptNum (v : bytes) (requireMinimal : bool) : result Z :=
  if (4 <? length v)%nat then
    Err ("numeric value encoded as " ++ Hex.EncodeToString v ++ " is " ++ nat_to_string (length v) ++
         " bytes which exceeds the max allowed of 4")%string
  else
    _ ← (if requireMinimal then checkMinimalDataEncoding v else Ok tt);
    let n := le_combine v in
    let top := Z.shiftl 0x80 (8 * (Z.of_nat (length v) - 1)) in
    if (length v =? 0)%nat then Ok 0
    else if Z.land n top =? 0 then Ok n
    else Ok (- (n - top)).

(** ** The data stack ([stack.go]) *)

Definition errStackIndex (idx size : nat) : string :=
  ("index " ++ nat_to_string idx ++ " is invalid for stack size " ++ nat_to_string size)%string.

Definition PopByteArray (stk : list bytes) : result (bytes * list bytes) :=
  match stk with
  | [] => Err (errStackIndex 0 0)
  | v :: rest => Ok (v, rest)
  end.

Definition PopInt (flags : ScriptFlags) (stk : list bytes) : result (Z * list bytes) :=
  '(v, rest) ← PopByteArray stk;
  n ← makeScriptNum v (VerifyMinimalData flags);
  Ok (n, rest).

(** [PopN]: [n] values, the top first. *)
Fixpoint PopN (n : nat) (stk : list bytes) : result (list bytes * list bytes) :=
  match n with
  | O => Ok ([], stk)
  | S n' =>
      '(v, rest) ← PopByteArray stk;
      '(vs, rest') ← PopN n' rest;
      Ok (v :: vs, rest')
  end.

(** ** Signatures in scripts *)

(** [bytes.Contains(hay, needle)]. *)
Fixpoint is_prefix (needle hay : bytes) : bool :=
  match needle, hay with
  | [], _ => true
  | x :: n', y :: h' => bool_decide (x = y) && is_prefix n' h'
  | _ :: _, [] => false
  end.

Fixpoint contains (hay needle : bytes) : bool :=
  is_prefix needle hay || match hay with [] => false | _ :: h' => contains h' needle end.

(** [canonicalPush(pop)]: the push uses the shortest opcode. *)
Definition canonicalPush (pop : parsedOpcode) : bool :=
  let op := opcode pop in
  let n := Z.of_nat (length (data pop)) in
  if op >? OP_16 then true
  else if (op <? OP_PUSHDATA1) && (op >? OP_0) &&
          (match data pop with [x] => byte.unsigned x <=? 16 | _ => false end) then false
  else if (op =? OP_PUSHDATA1) && (n <? OP_PUSHDATA1) then false
  else if (op =? OP_PUSHDATA2) && (n <=? 0xff) then false
  else if (op =? OP_PUSHDATA4) && (n <=? 0xffff) then false
  else true.

(** [removeOpcodeByData(script, data)]: a signature cannot sign itself. *)
Definition removeOpcodeByData (script : list parsedOpcode) (sig : bytes) : list parsedOpcode :=
  List.filter (fun pop => negb (canonicalPush pop && contains (data pop) sig)) script.

(** [checkHashTypeEncoding]: under strict encoding the hash type is one
    of ALL, NONE, SINGLE, possibly with ANYONECANPAY. *)
Definition checkHashTypeEncoding (flags : ScriptFlags) (hashType : Z) : result unit :=
  if negb (VerifyStrictEncoding flags) then Ok tt
  else
    let t := Z.land hashType (Z.lnot SigHashAnyOneCanPay) in
    if (t <? SigHashAll) || (t >? SigHashSingle) then
      Err ("invalid hash type 0x" ++ hex_byte (b8 hashType))%string
    else Ok tt.

(** The signature bytes and the hash type of a non-empty script
    signature: the last byte is the hash type. *)
Definition splitSig (fullSig : bytes) : bytes * Z :=
  (removelast fullSig, byte.unsigned (last fullSig (b8 0))).

(** ** The interpreter *)

Record Engine := mkEngine {
  dstack : list bytes;
  numOps : Z;
  subScript : list parsedOpcode
}.

Definition with_stack (vm : Engine) (stk : list bytes) : Engine :=
  mkEngine stk (numOps vm) (subScript vm).

Section Interpreter.
Context `{Crypto}.
Variable flags : ScriptFlags.
Variable tx : MsgTx.
Variable txIdx : nat.

(** [opcodeCheckSig]. *)
Definition opcodeCheckSig (vm : Engine) : result Engine :=
  '(pkBytes, stk) ← PopByteArray (dstack vm);
  '(fullSigBytes, stk) ← PopByteArray stk;
  if fullSigBytes is [] then Ok (with_stack vm (fromBool false :: stk))
  else
    let '(sigBytes, hashType) := splitSig fullSigBytes in
    _ ← checkHashTypeEncoding flags hashType;
    let script := removeOpcodeByData (subScript vm) fullSigBytes in
    let hash := calcSignatureHash script hashType tx txIdx in
    let valid := VerifyDER pkBytes sigBytes hash in
    if negb valid && VerifyNullFail flags then Err "signature not empty on failed checksig"
    else Ok (with_stack vm (fromBool valid :: stk)).

(** The signature loop of [opcodeCheckMultiSig]: each signature is tried
    against the remaining keys in order; it fails as soon as fewer keys
    than signatures remain. *)
Fixpoint multisigLoop (script : list parsedOpcode) (pubKeys sigs : list bytes) : result bool :=
  match sigs with
  | [] => Ok true
  | rawSig :: sigs' =>
      if (length pubKeys <? length sigs)%nat then Ok false
      else match pubKeys with
      | [] => Ok false
      | pubKey :: pubKeys' =>
          if rawSig is [] then multisigLoop script pubKeys' sigs
          else
            let '(sig, hashType) := splitSig rawSig in
            _ ← checkHashTypeEncoding flags hashType;
            if VerifyDER pubKey sig (calcSignatureHash script hashType tx txIdx)
            then multisigLoop script pubKeys' sigs'
            else multisigLoop script pubKeys' sigs
      end
  end.

(** [opcodeCheckMultiSig]. *)
Definition opcodeCheckMultiSig (vm : Engine) : result Engine :=
  '(numPubKeys, stk) ← PopInt flags (dstack vm);
  if numPubKeys <? 0 then Err ("number of pubkeys " ++ Z_to_string numPubKeys ++ " is negative")%string
  else if numPubKeys >? MaxPubKeysPerMultiSig then
    Err ("too many pubkeys: " ++ Z_to_string numPubKeys ++ " > " ++ Z_to_string MaxPubKeysPerMultiSig)%string
  else
  let ops := numOps vm + numPubKeys in
  if ops >? MaxOpsPerScript then
    Err ("exceeded max operation limit of " ++ Z_to_string MaxOpsPerScript)%string
  else
  '(pubKeys, stk) ← PopN (Z.to_nat numPubKeys) stk;
  '(numSigs, stk) ← PopInt flags stk;
  if numSigs <? 0 then Err ("number of signatures " ++ Z_to_string numSigs ++ " is negative")%string
  else if numSigs >? numPubKeys then
    Err ("more signatures than pubkeys: " ++ Z_to_string numSigs ++ " > " ++ Z_to_string numPubKeys)%string
  else
  '(sigs, stk) ← PopN (Z.to_nat numSigs) stk;
  '(dummy, stk) ← PopByteArray stk;
  if StrictMultiSig flags && negb (length dummy =? 0)%nat then
    Err ("multisig dummy argument has length " ++ nat_to_string (length dummy) ++ " instead of 0")%string
  else
  let script := fold_left removeOpcodeByData sigs (subScript vm) in
  success ← multisigLoop script pubKeys sigs;
  if negb success && VerifyNullFail flags && existsb (fun s => negb (length s =? 0)%nat) sigs then
    Err "not all signatures empty on failed checkmultisig"
  else Ok (mkEngine (fromBool success :: stk) ops (subScript vm)).

(** The opcode functions of [opcodeArray] that the model covers; [rest]
    is the script after the opcode, for [OP_CODESEPARATOR]. *)
Definition opfunc (pop : parsedOpcode) (rest : list parsedOpcode) (vm : Engine) : result Engine :=
  let op := opcode pop in
  let stk := dstack vm in
  if op <=? OP_PUSHDATA4 then Ok (with_stack vm (data pop :: stk))
  else if op =? OP_1NEGATE then Ok (with_stack vm ([b8 0x81] :: stk))
  else if (OP_1 <=? op) && (op <=? OP_16) then Ok (with_stack vm ([b8 (op - (OP_1 - 1))] :: stk))
  else if op =? OP_VERIFY then
    '(v, stk) ← PopByteArray stk;
    if asBool v then Ok (with_stack vm stk) else Err "OP_VERIFY failed"
  else if op =? OP_DUP then
    match stk with
    | [] => Err (errStackIndex 0 0)
    | v :: _ => Ok (with_stack vm (v :: stk))
    end
  else if (op =? OP_EQUAL) || (op =? OP_EQUALVERIFY) then
    '(a, stk) ← PopByteArray stk;
    '(b, stk) ← PopByteArray stk;
    let eq := bool_decide (a = b) in
    if op =? OP_EQUAL then Ok (with_stack vm (fromBool eq :: stk))
    else if eq then Ok (with_stack vm stk) else Err "OP_EQUALVERIFY failed"
  else if op =? OP_HASH160 then
    '(v, stk) ← PopByteArray stk;
    Ok (with_stack vm (Hash160 v :: stk))
  else if op =? OP_CODESEPARATOR then Ok (mkEngine stk (numOps vm) rest)
  else if op =? OP_CHECKSIG then opcodeCheckSig vm
  else if op =? OP_CHECKMULTISIG then opcodeCheckMultiSig vm
  else Err ("opcode 0x" ++ hex_byte (b8 op) ++ " is not modelled")%string.

(** [checkMinimalDataPush]: a push uses the shortest opcode for its data. *)
Definition checkMinimalDataPush (pop : parsedOpcode) : result unit :=
  let op := opcode pop in
  let n := Z.of_nat (length (data pop)) in
  let bad := Err ("data push of " ++ Z_to_string n ++ " bytes encoded with opcode 0x" ++
                  hex_byte (b8 op) ++ " instead of the shortest one")%string in
  if n =? 0 then (if op =? OP_0 then Ok tt else bad)
  else match data pop with
  | [x] =>
      let v := byte.unsigned x in
      if (1 <=? v) && (v <=? 16) then (if op =? OP_1 + v - 1 then Ok tt else bad)
      else if v =? 0x81 then (if op =? OP_1NEGATE then Ok tt else bad)
      else if op =? 1 then Ok tt else bad
  | _ =>
      if n <=? 75 then (if op =? n then Ok tt else bad)
      else if n <=? 255 then (if op =? OP_PUSHDATA1 then Ok tt else bad)
      else if n <=? 65535 then (if op =? OP_PUSHDATA2 then Ok tt else bad)
      else Ok tt
  end.

(** [executeOpcode] followed by the stack-size check of [Step]. *)
Definition executeOpcode (pop : parsedOpcode) (rest : list parsedOpcode) (vm : Engine)
    : result Engine :=
  let op := opcode pop in
  vm ← (if op >? OP_16 then
          if numOps vm + 1 >? MaxOpsPerScript then
            Err ("exceeded max operation limit of " ++ Z_to_string MaxOpsPerScript)%string
          else Ok (mkEngine (dstack vm) (numOps vm + 1) (subScript vm))
        else if Z.of_nat (length (data pop)) >? MaxScriptElementSize then
          Err ("element size " ++ nat_to_string (length (data pop)) ++
               " exceeds max allowed size " ++ Z_to_string MaxScriptElementSize)%string
        else Ok vm);
  _ ← (if VerifyMinimalData flags && (op <=? OP_PUSHDATA4) then checkMinimalDataPush pop
       else Ok tt);
  vm ← opfunc pop rest vm;
  if (MaxStackSize <? length (dstack vm))%nat then
    Err ("combined stack size " ++ nat_to_string (length (dstack vm)) ++ " > max allowed " ++
         nat_to_string MaxStackSize)%string
  else Ok vm.

(** One script, from the first opcode to the last. *)
Fixpoint execOps (pops : list parsedOpcode) (vm : Engine) : result Engine :=
  match pops with
  | [] => Ok vm
  | pop :: rest => vm ← executeOpcode pop rest vm; execOps rest vm
  end.

(** A script starts with no operations counted and with itself as the
    script since the last separator; the stack carries over. *)
Definition execScript (pops : list parsedOpcode) (stk : list bytes) : result (list bytes) :=
  vm ← execOps pops (mkEngine stk 0 pops);
  Ok (dstack vm).

(** [isPushOnly]. *)
Definition isPushOnly (pops : list parsedOpcode) : bool :=
  forallb (fun pop => opcode pop <=? OP_16) pops.

(** [CheckErrorCondition(true)]. *)
Definition CheckErrorCondition (stk : list bytes) : result unit :=
  if VerifyCleanStack flags && negb (length stk =? 1)%nat then
    Err ("stack contains " ++ Z_to_string (Z.of_nat (length stk) - 1) ++ " unexpected items")%string
  else match stk with
  | [] => Err "stack empty at end of script execution"
  | v :: _ => if asBool v then Ok tt else Err "false stack entry at end of script execution"
  end.

(** [IsPushOnlyScript]: a script that does not parse is not push only. *)
Definition IsPushOnlyScript (script : bytes) : bool :=
  match parseScript script with Ok pops => isPushOnly pops | Err _ => false end.

(** The size check and parse of one script in [NewEngine]. *)
Definition checkAndParse (script : bytes) : result (list parsedOpcode) :=
  if MaxScriptSize <? Z.of_nat (length script) then
    Err ("script size " ++ nat_to_string (length script) ++ " is larger than max allowed size " ++
         Z_to_string MaxScriptSize)%string
  else parseScript script.

(** [NewEngine(scriptPubKey, tx, txIdx, flags, ...)] then [Execute()]:
    the unlocking script of input [txIdx], then [pkScript] on the stack it
    leaves, then the check of the final stack. *)
Definition VerifyScript (pkScript : bytes) : result unit :=
  match nth_error (TxIns tx) txIdx with
  | None =>
      Err ("transaction input index " ++ nat_to_string txIdx ++ " is negative or >= " ++
           nat_to_string (length (TxIns tx)))%string
  | Some txIn =>
  let sigScript := Wire.SignatureScript txIn in
  if (length sigScript =? 0)%nat && (length pkScript =? 0)%nat then
    Err "false stack entry at end of script execution"
  else if VerifySigPushOnly flags && negb (IsPushOnlyScript sigScript) then
    Err "signature script is not push only"
  else
  sigPops ← checkAndParse sigScript;
  pkPops ← checkAndParse pkScript;
  stk ← execScript sigPops [];
  stk ← execScript pkPops stk;
  CheckErrorCondition stk
  end.

End Interpreter.

(** The invariant of a run of [script]: the operation count within
    [MaxOpsPerScript], the stack within [MaxStackSize], and the script
    since the last separator a suffix of [script]. *)
Definition engine_inv (script : list parsedOpcode) (vm : Engine) : Prop :=
  numOps vm <= MaxOpsPerScript /\ (length (dstack vm) <= MaxStackSize)%nat /\
  suffix (subScript vm) script.

#[global] Instance engine_inv_dec script vm : Decision (engine_inv script vm).
Proof. unfold engine_inv. apply _. Defined.

(** A run through a separator, for the examples: [OP_1 OP_CODESEPARATOR
    OP_DUP OP_EQUAL] from the empty stack. *)
Definition sep_script : list parsedOpcode :=
  map item_pop [Op OP_1; Op OP_CODESEPARATOR; Op OP_DUP; Op OP_EQUAL].
Definition sep_final : Engine :=
  mkEngine [fromBool true] 3 (map item_pop [Op OP_DUP; Op OP_EQUAL]).
Definition strict_flags : ScriptFlags := mkFlags true true true true true true.
Definition empty_tx : MsgTx := mkMsgTx 1 [] [] 0.

(** ** Properties *)

Lemma push_pop_long d :
  (2 <= length d)%nat ->
  exists op, push_pop d = mkPop op d /\ 0 < op <= OP_PUSHDATA4 /\
             checkMinimalDataPush (mkPop op d) = Ok tt.
Proof.
  intros Hd. destruct d as [|x [|y l]]; cbn [length] in Hd; try lia.
  unfold push_pop. set (d := x :: y :: l). cbv [OP_PUSHDATA1 OP_PUSHDATA2 OP_PUSHDATA4].
  assert (2 <= Z.of_nat (length d)) by (subst d; cbn [length]; lia).
  repeat zcase; eexists; (split; [reflexivity|]); (split; [cbv [OP_PUSHDATA4]; lia|]);
    unfold checkMinimalDataPush; cbn [opcode data]; subst d;
    cbv [OP_0 OP_PUSHDATA1 OP_PUSHDATA2]; repeat zcase; done || lia.
Qed.

Lemma push_pop_data d : (2 <= length d)%nat -> data (push_pop d) = d.
Proof. intros Hd. by destruct (push_pop_long d Hd) as (op & -> & _). Qed.

(** Side conditions of a step: opcode ranges, the operation count and
    the stack size. *)
Ltac zs := cbv [OP_16 OP_DUP OP_HASH160 OP_EQUALVERIFY OP_CHECKSIG OP_CHECKMULTISIG
                MaxOpsPerScript MaxStackSize];
           cbn [numOps dstack with_stack length]; lia.
Ltac simpl_vm := cbn [mbind result_bind with_stack dstack numOps subScript].

Lemma is_prefix_long needle hay : (length hay < length needle)%nat -> is_prefix needle hay = false.
Proof.
  revert hay. induction needle as [|x n IH]; intros hay Hl; [cbn in Hl; lia|].
  destruct hay as [|y h]; [done|]. cbn in Hl |- *. rewrite IH by lia. apply andb_false_r.
Qed.

(** A byte string does not contain a longer one. *)
Lemma contains_long hay needle : (length hay < length needle)%nat -> contains hay needle = false.
Proof.
  induction hay as [|y h IH]; intros Hl; cbn [contains].
  - by rewrite is_prefix_long.
  - rewrite is_prefix_long by done. rewrite IH; [done|cbn in Hl; lia].
Qed.

Lemma splitSig_app s b : splitSig (s ++ [b]) = (s, byte.unsigned b).
Proof. unfold splitSig. by rewrite removelast_last, last_last. Qed.

Ltac push_side := cbv [MaxScriptElementSize MaxStackSize OP_1 OP_2 OP_3 OP_16];
                  cbn [dstack with_stack length]; lia.

Section Steps.
Context `{Crypto} (flags : ScriptFlags) (tx : MsgTx) (txIdx : nat).

(** Executing the canonical push of [d] (at least two bytes) pushes [d]. *)
Lemma exec_push d rest vm :
  (2 <= length d)%nat -> Z.of_nat (length d) <= MaxScriptElementSize ->
  (length (dstack vm) < MaxStackSize)%nat ->
  executeOpcode flags tx txIdx (push_pop d) rest vm = Ok (with_stack vm (d :: dstack vm)).
Proof.
  intros Hd Hs Hk. destruct (push_pop_long d Hd) as (op & -> & Hop & Hm).
  unfold executeOpcode, opfunc. cbn [opcode data]. cbv [OP_16 OP_PUSHDATA4 MaxStackSize] in *.
  zdecide. cbn [mbind result_bind].
  destruct (VerifyMinimalData flags); cbn [andb]; [rewrite Hm|]; cbn [mbind result_bind dstack with_stack];
    zdecide; done.
Qed.

(** Executing an opcode that pushes no data counts it and runs its
    function. *)
Lemma exec_op_bind op rest vm :
  OP_16 < op -> numOps vm + 1 <= MaxOpsPerScript ->
  executeOpcode flags tx txIdx (mkPop op []) rest vm =
  (vm' ← opfunc flags tx txIdx (mkPop op []) rest (mkEngine (dstack vm) (numOps vm + 1) (subScript vm));
   if (MaxStackSize <? length (dstack vm'))%nat then
     Err ("combined stack size " ++ nat_to_string (length (dstack vm')) ++ " > max allowed " ++
          nat_to_string MaxStackSize)%string
   else Ok vm').
Proof.
  intros Hop Hn. unfold executeOpcode. cbn [opcode data].
  cbv [OP_16 OP_PUSHDATA4 MaxOpsPerScript] in *. zdecide. cbn [mbind result_bind].
  rewrite andb_false_r. reflexivity.
Qed.

Lemma exec_op op rest vm vm' :
  OP_16 < op -> numOps vm + 1 <= MaxOpsPerScript ->
  opfunc flags tx txIdx (mkPop op []) rest (mkEngine (dstack vm) (numOps vm + 1) (subScript vm)) =
    Ok vm' ->
  (length (dstack vm') <= MaxStackSize)%nat ->
  executeOpcode flags tx txIdx (mkPop op []) rest vm = Ok vm'.
Proof.
  intros Hop Hn Hf Hk. unfold executeOpcode. cbn [opcode data].
  cbv [OP_16 OP_PUSHDATA4 MaxStackSize] in *. zdecide. cbn [mbind result_bind].
  rewrite andb_false_r. cbn [mbind result_bind]. rewrite Hf. cbn [mbind result_bind]. zdecide. done.
Qed.

Lemma contains_nil sig : sig <> [] -> contains [] sig = false.
Proof. by destruct sig. Qed.

Lemma removeOpcodeByData_keep script sig :
  Forall (fun pop => contains (data pop) sig = false) script ->
  removeOpcodeByData script sig = script.
Proof.
  intros Hall. unfold removeOpcodeByData. induction Hall as [|pop script Hp _ IH]; [done|].
  cbn [List.filter]. rewrite Hp, andb_false_r. cbn [negb]. by rewrite IH.
Qed.

Lemma exec_checksig pk sig stk n sc :
  sig <> [] -> checkHashTypeEncoding flags (snd (splitSig sig)) = Ok tt ->
  opcodeCheckSig flags tx txIdx (mkEngine (pk :: sig :: stk) n sc) =
  let valid := VerifyDER pk (fst (splitSig sig))
                 (calcSignatureHash (removeOpcodeByData sc sig) (snd (splitSig sig)) tx txIdx) in
  if negb valid && VerifyNullFail flags then Err "signature not empty on failed checksig"
  else Ok (mkEngine (fromBool valid :: stk) n sc).
Proof.
  intros Hs Ht. unfold opcodeCheckSig. cbn [PopByteArray dstack mbind result_bind].
  destruct sig as [|s0 sig']; [done|]. destruct (splitSig (s0 :: sig')) as [sb ht] eqn:E.
  cbn [fst snd] in *. rewrite Ht. done.
Qed.

Lemma exec_p2pkh pkh pk sig stk :
  length pkh = 20%nat -> Hash160 pk = pkh -> sig <> [] ->
  checkHashTypeEncoding flags (snd (splitSig sig)) = Ok tt ->
  contains pkh sig = false ->
  VerifyDER pk (fst (splitSig sig))
    (calcSignatureHash (map item_pop (addr_items (AddressPubKeyHash pkh))) (snd (splitSig sig))
       tx txIdx) = true ->
  (length stk <= 990)%nat ->
  execScript flags tx txIdx (map item_pop (addr_items (AddressPubKeyHash pkh))) (pk :: sig :: stk) =
  Ok (fromBool true :: stk).
Proof.
  intros Hl Hh Hs Ht Hc Hv Hk. unfold execScript. cbn [addr_items map item_pop execOps].
  erewrite exec_op; [|zs|zs|reflexivity|zs]. simpl_vm.
  erewrite exec_op; [|zs|zs|reflexivity|zs]. simpl_vm.
  rewrite exec_push; [| rewrite Hl; lia | rewrite Hl; cbv [MaxScriptElementSize]; lia | cbn [dstack with_stack length]; cbv [MaxStackSize]; lia]. simpl_vm.
  erewrite exec_op; [|zs|zs| |]; [| cbn -[Hash160]; rewrite Hh; case_bool_decide; [reflexivity|congruence] | zs].
  simpl_vm.
  erewrite exec_op; [|zs|zs| |].
  2:{ cbn [opfunc opcode]. cbv [OP_PUSHDATA4 OP_1NEGATE OP_1 OP_16 OP_VERIFY OP_DUP OP_EQUAL OP_EQUALVERIFY OP_HASH160 OP_CODESEPARATOR OP_CHECKSIG]. cbn -[opcodeCheckSig].
  rewrite exec_checksig by done. cbn [fst snd].
  cbn [addr_items map item_pop] in Hv. cbv [OP_DUP OP_HASH160 OP_EQUALVERIFY OP_CHECKSIG] in Hv.
  rewrite removeOpcodeByData_keep; [rewrite Hv; reflexivity|].
  repeat constructor; cbn [data]; rewrite ?push_pop_data by lia; auto using contains_nil. }
  - reflexivity.
  - zs.
Qed.

(** The P2PKH locking script stops at [OP_EQUALVERIFY] when the pushed
    key does not hash to the script's hash. *)
Lemma exec_p2pkh_mismatch pkh pk sig stk :
  length pkh = 20%nat -> Hash160 pk <> pkh -> (length stk <= 990)%nat ->
  execScript flags tx txIdx (map item_pop (addr_items (AddressPubKeyHash pkh))) (pk :: sig :: stk) =
  Err "OP_EQUALVERIFY failed".
Proof.
  intros Hl Hh Hk. unfold execScript. cbn [addr_items map item_pop execOps].
  erewrite exec_op; [|zs|zs|reflexivity|zs]. simpl_vm.
  erewrite exec_op; [|zs|zs|reflexivity|zs]. simpl_vm.
  rewrite exec_push by (rewrite ?Hl; push_side). simpl_vm.
  rewrite exec_op_bind by zs. cbn -[Hash160].
  rewrite bool_decide_false by congruence. reflexivity.
Qed.

(** [VerifyScript] runs the two scripts and checks the final stack. *)
Lemma VerifyScript_run txIn pkScript sigPops pkPops stk1 :
  nth_error (TxIns tx) txIdx = Some txIn ->
  Wire.SignatureScript txIn <> [] ->
  Z.of_nat (length (Wire.SignatureScript txIn)) <= MaxScriptSize ->
  Z.of_nat (length pkScript) <= MaxScriptSize ->
  parseScript (Wire.SignatureScript txIn) = Ok sigPops -> isPushOnly sigPops = true ->
  parseScript pkScript = Ok pkPops ->
  execScript flags tx txIdx sigPops [] = Ok stk1 ->
  VerifyScript flags tx txIdx pkScript =
  (stk2 ← execScript flags tx txIdx pkPops stk1; CheckErrorCondition flags stk2).
Proof.
  intros Hn Hne Hs1 Hs2 Hp1 Hpo Hp2 He1. unfold VerifyScript. rewrite Hn.
  destruct (Wire.SignatureScript txIn) as [|x l] eqn:E; [done|]. cbn [length Nat.eqb andb].
  unfold IsPushOnlyScript, checkAndParse. rewrite Hp1, Hpo. cbn [negb]. rewrite andb_false_r.
  cbn [length] in Hs1. zdecide. rewrite Hp2. cbn [mbind result_bind].
  by rewrite He1.
Qed.


(** The small-integer opcodes push their number. *)
Lemma exec_small op rest vm :
  OP_1 <= op <= OP_16 -> (length (dstack vm) < MaxStackSize)%nat ->
  executeOpcode flags tx txIdx (mkPop op []) rest vm =
  Ok (with_stack vm ([b8 (op - (OP_1 - 1))] :: dstack vm)).
Proof.
  intros Hop Hk. unfold executeOpcode, opfunc. cbn [opcode data].
  cbv [OP_1 OP_16 OP_PUSHDATA4 OP_1NEGATE MaxScriptElementSize MaxStackSize] in *.
  zdecide. cbn [mbind result_bind]. rewrite andb_false_r. cbn [mbind result_bind dstack with_stack].
  zdecide. done.
Qed.

(** [OP_0] pushes the empty string. *)
Lemma exec_push_empty rest vm :
  (length (dstack vm) < MaxStackSize)%nat ->
  executeOpcode flags tx txIdx (push_pop []) rest vm = Ok (with_stack vm ([] :: dstack vm)).
Proof.
  intros Hk. unfold executeOpcode, opfunc, push_pop, checkMinimalDataPush. cbn [opcode data length].
  cbv [OP_0 OP_16 OP_PUSHDATA4 MaxScriptElementSize MaxStackSize] in *. zdecide.
  cbn [mbind result_bind]. destruct (VerifyMinimalData flags); cbn [andb mbind result_bind];
    cbn [dstack with_stack length]; zdecide; done.
Qed.

Lemma makeScriptNum_small (k : Z) req : 1 <= k <= 16 -> makeScriptNum [b8 k] req = Ok k.
Proof.
  intros Hk.
  assert (k = 1 \/ k = 2 \/ k = 3 \/ k = 4 \/ k = 5 \/ k = 6 \/ k = 7 \/ k = 8 \/ k = 9 \/
          k = 10 \/ k = 11 \/ k = 12 \/ k = 13 \/ k = 14 \/ k = 15 \/ k = 16) as Hc by lia.
  repeat destruct Hc as [->|Hc]; subst; by destruct req.
Qed.

(** [OP_CHECKMULTISIG] on a 2-of-3 stack: three keys, two signatures
    and the empty dummy. *)
Lemma exec_checkmultisig23 p1 p2 p3 sa sb stk n sc :
  n + 3 <= MaxOpsPerScript ->
  opcodeCheckMultiSig flags tx txIdx
    (mkEngine ([b8 3] :: p3 :: p2 :: p1 :: [b8 2] :: sb :: sa :: [] :: stk) n sc) =
  success ← multisigLoop flags tx txIdx (fold_left removeOpcodeByData [sb; sa] sc) [p3; p2; p1] [sb; sa];
  if negb success && VerifyNullFail flags && existsb (fun s => negb (length s =? 0)%nat) [sb; sa]
  then Err "not all signatures empty on failed checkmultisig"
  else Ok (mkEngine (fromBool success :: stk) (n + 3) sc).
Proof.
  intros Hn. unfold opcodeCheckMultiSig, PopInt. cbn [PopByteArray dstack mbind result_bind].
  rewrite (makeScriptNum_small 3) by lia. cbn [mbind result_bind].
  cbv [MaxPubKeysPerMultiSig MaxOpsPerScript] in *. cbn [numOps]. zdecide.
  change (Z.to_nat 3) with 3%nat. cbn [PopN PopByteArray mbind result_bind].
  rewrite (makeScriptNum_small 2) by lia. cbn [mbind result_bind]. zdecide.
  change (Z.to_nat 2) with 2%nat. cbn [PopN PopByteArray mbind result_bind length subScript].
  destruct (StrictMultiSig flags); reflexivity.
Qed.

Lemma exec_multisig23 p1 p2 p3 sa sb stk :
  length p1 = 33%nat -> length p2 = 33%nat -> length p3 = 33%nat -> (length stk <= 990)%nat ->
  execScript flags tx txIdx
    (map item_pop [Op OP_2; Data p1; Data p2; Data p3; Op OP_3; Op OP_CHECKMULTISIG])
    (sb :: sa :: [] :: stk) =
  success ← multisigLoop flags tx txIdx
              (fold_left removeOpcodeByData [sb; sa]
                 (map item_pop [Op OP_2; Data p1; Data p2; Data p3; Op OP_3; Op OP_CHECKMULTISIG]))
              [p3; p2; p1] [sb; sa];
  if negb success && VerifyNullFail flags && existsb (fun s => negb (length s =? 0)%nat) [sb; sa]
  then Err "not all signatures empty on failed checkmultisig"
  else Ok (fromBool success :: stk).
Proof.
  intros H1 H2 H3 Hk. unfold execScript. cbn [map item_pop execOps].
  rewrite exec_small by push_side. simpl_vm.
  do 3 (rewrite exec_push by push_side; simpl_vm).
  rewrite exec_small by push_side. simpl_vm.
  rewrite exec_op_bind by zs. cbn [opfunc opcode].
  cbv [OP_PUSHDATA4 OP_1NEGATE OP_1 OP_16 OP_VERIFY OP_DUP OP_EQUAL OP_EQUALVERIFY OP_HASH160
       OP_CODESEPARATOR OP_CHECKSIG OP_CHECKMULTISIG OP_2 OP_3].
  cbn -[opcodeCheckMultiSig Nat.ltb length multisigLoop fold_left].
  change (83 - (81 - 1)) with 3. change (82 - (81 - 1)) with 2.
  rewrite exec_checkmultisig23 by (cbv [MaxOpsPerScript]; lia).
  destruct (multisigLoop _ _ _ _ _ _) as [success|e].
  - cbn [mbind result_bind].
    destruct (negb success && VerifyNullFail flags && _); cbn [mbind result_bind]; [done|].
    cbn [dstack length]. cbv [MaxStackSize]. zdecide. done.
  - done.
Qed.

(** The data an unlocking script may push: the empty string or two to
    [MaxScriptElementSize] bytes. *)
Definition push_ok (d : bytes) : Prop :=
  d = [] \/ (2 <= length d)%nat /\ Z.of_nat (length d) <= MaxScriptElementSize.

Lemma exec_push_ok d rest vm :
  push_ok d -> (length (dstack vm) < MaxStackSize)%nat ->
  executeOpcode flags tx txIdx (push_pop d) rest vm = Ok (with_stack vm (d :: dstack vm)).
Proof. intros [->|[]] Hk; [by apply exec_push_empty|by apply exec_push]. Qed.

Lemma execOps_pushes ds vm :
  Forall push_ok ds -> (length ds + length (dstack vm) <= MaxStackSize)%nat ->
  execOps flags tx txIdx (map push_pop ds) vm = Ok (with_stack vm (rev ds ++ dstack vm)).
Proof.
  revert vm. induction ds as [|d ds IH]; intros vm Hall Hk; [by destruct vm|].
  inversion Hall as [|? ? Hd Hds]; subst. cbn [map execOps].
  rewrite exec_push_ok by (done || (cbn in Hk; lia)). cbn [mbind result_bind].
  rewrite IH by (done || (cbn [dstack with_stack length] in *; lia)).
  cbn [rev with_stack dstack numOps subScript]. by rewrite <- app_assoc.
Qed.

Lemma push_ok_opcode d : push_ok d -> opcode (push_pop d) <= OP_PUSHDATA4.
Proof.
  intros [->|[Hd _]]; [cbv; discriminate|].
  destruct (push_pop_long d Hd) as (op & -> & ? & _). cbn. lia.
Qed.

Lemma length_encode_data ds :
  Forall push_ok ds -> (length (encode_items (map Data ds)) <= length ds * 525)%nat.
Proof.
  induction 1 as [|d ds Hd _ IH]; [cbn; lia|].
  unfold encode_items in *. cbn [map concat item_bytes length]. rewrite length_app.
  pose proof (length_push_spec_le d).
  destruct Hd as [->|[_ Hd]]; cbv [MaxScriptElementSize] in *; cbn [length] in *; lia.
Qed.

(** An unlocking script of at most three pushes leaves them on the stack,
    the last one on top, for the locking script. *)
Lemma VerifyScript_data txIn ds pkScript pkPops :
  nth_error (TxIns tx) txIdx = Some txIn ->
  Wire.SignatureScript txIn = encode_items (map Data ds) -> ds <> [] -> (length ds <= 3)%nat ->
  Forall push_ok ds ->
  Z.of_nat (length pkScript) <= MaxScriptSize -> parseScript pkScript = Ok pkPops ->
  VerifyScript flags tx txIdx pkScript =
  (stk ← execScript flags tx txIdx pkPops (rev ds); CheckErrorCondition flags stk).
Proof.
  intros Hn Hs Hne Hl Hall Hps Hpp.
  apply (VerifyScript_run txIn pkScript (map push_pop ds)); try done.
  - rewrite Hs. destruct ds as [|d ds]; [done|]. unfold encode_items. cbn [map concat].
    pose proof (item_bytes_nonempty (Data d)). cbn [item_bytes] in *. by destruct (push_spec d).
  - rewrite Hs. pose proof (length_encode_data ds Hall). cbv [MaxScriptSize]. lia.
  - rewrite Hs, parse_encode_items, map_map; [done|].
    apply Forall_map. eapply Forall_impl; [|exact Hall]. intros d [->|[_ Hd]]; cbn;
      cbv [MaxScriptElementSize] in *; lia.
  - unfold isPushOnly. apply forallb_forall. intros pop (d & <- & Hd)%in_map_iff.
    apply Forall_forall with (x := d) in Hall; [|done].
    pose proof (push_ok_opcode d Hall). cbv [OP_16 OP_PUSHDATA4] in *. apply Z.leb_le. lia.
  - unfold execScript. rewrite execOps_pushes by (done || (cbn; cbv [MaxStackSize]; lia)).
    cbn. by rewrite app_nil_r.
Qed.

(** The P2PKH script of a 20-byte hash fits [MaxScriptSize] and parses
    as its chain. *)
Lemma p2pkh_script_ok pkh :
  length pkh = 20%nat ->
  Z.of_nat (length (encode_items (addr_items (AddressPubKeyHash pkh)))) <= MaxScriptSize /\
  parseScript (encode_items (addr_items (AddressPubKeyHash pkh))) =
    Ok (map item_pop (addr_items (AddressPubKeyHash pkh))).
Proof.
  intros Hl. split.
  - unfold encode_items, addr_items. cbn [map concat item_bytes]. rewrite ?length_app.
    cbn [length]. pose proof (length_push_spec_le pkh). cbv [MaxScriptSize]. lia.
  - apply parse_encode_items, addr_items_parsable. cbn. rewrite Hl. done.
Qed.

(** The P2PKH locking script accepts [push(sig) push(pk)] when the key
    hashes to the script's hash and the signature verifies. *)
Lemma verify_p2pkh txIn pkh pk sig :
  nth_error (TxIns tx) txIdx = Some txIn ->
  Wire.SignatureScript txIn = encode_items [Data sig; Data pk] ->
  (2 <= length sig)%nat -> Z.of_nat (length sig) <= MaxScriptElementSize ->
  (2 <= length pk)%nat -> Z.of_nat (length pk) <= MaxScriptElementSize ->
  length pkh = 20%nat -> Hash160 pk = pkh ->
  checkHashTypeEncoding flags (snd (splitSig sig)) = Ok tt ->
  contains pkh sig = false ->
  VerifyDER pk (fst (splitSig sig))
    (calcSignatureHash (map item_pop (addr_items (AddressPubKeyHash pkh))) (snd (splitSig sig))
       tx txIdx) = true ->
  VerifyScript flags tx txIdx (encode_items (addr_items (AddressPubKeyHash pkh))) = Ok tt.
Proof.
  intros Hn Hss Hs1 Hs2 Hp1 Hp2 Hl Hh Ht Hc Hv.
  assert (sig <> []) as Hsig by (destruct sig; [cbn in Hs1; lia|discriminate]).
  rewrite (VerifyScript_data txIn [sig; pk] _ (map item_pop (addr_items (AddressPubKeyHash pkh))));
    try done.
  - cbn [rev app]. rewrite exec_p2pkh; try done; [|cbn; lia]. cbn [mbind result_bind].
    unfold CheckErrorCondition. by destruct (VerifyCleanStack flags).
  - cbn; lia.
  - repeat apply Forall_cons; try apply Forall_nil; right; split; assumption.
  - by apply p2pkh_script_ok.
  - by apply p2pkh_script_ok.
Qed.

(** The P2PKH locking script rejects [push(sig) push(pk)] at
    [OP_EQUALVERIFY] when [pk] does not hash to the script's hash. *)
Lemma verify_p2pkh_mismatch txIn pkh pk sig :
  nth_error (TxIns tx) txIdx = Some txIn ->
  Wire.SignatureScript txIn = encode_items [Data sig; Data pk] ->
  push_ok sig -> push_ok pk -> length pkh = 20%nat -> Hash160 pk <> pkh ->
  VerifyScript flags tx txIdx (encode_items (addr_items (AddressPubKeyHash pkh))) =
  Err "OP_EQUALVERIFY failed".
Proof.
  intros Hn Hss Hs Hp Hl Hh.
  rewrite (VerifyScript_data txIn [sig; pk] _ (map item_pop (addr_items (AddressPubKeyHash pkh))));
    try done.
  - cbn [rev app]. by rewrite exec_p2pkh_mismatch by (done || (cbn; lia)).
  - cbn; lia.
  - by repeat apply Forall_cons; try apply Forall_nil.
  - by apply p2pkh_script_ok.
  - by apply p2pkh_script_ok.
Qed.

(** The 2-of-3 multisig locking script with [OP_0 push(sa) push(sb)]:
    the result of the signature loop decides. *)
Lemma verify_multisig23 txIn p1 p2 p3 sa sb :
  nth_error (TxIns tx) txIdx = Some txIn ->
  Wire.SignatureScript txIn = encode_items [Data []; Data sa; Data sb] ->
  push_ok sa -> push_ok sb ->
  length p1 = 33%nat -> length p2 = 33%nat -> length p3 = 33%nat ->
  let items := [Op OP_2; Data p1; Data p2; Data p3; Op OP_3; Op OP_CHECKMULTISIG] in
  VerifyScript flags tx txIdx (encode_items items) =
  (success ← multisigLoop flags tx txIdx (fold_left removeOpcodeByData [sb; sa] (map item_pop items))
               [p3; p2; p1] [sb; sa];
   if negb success && VerifyNullFail flags && existsb (fun s => negb (length s =? 0)%nat) [sb; sa]
   then Err "not all signatures empty on failed checkmultisig"
   else CheckErrorCondition flags [fromBool success]).
Proof.
  intros Hn Hs Ha Hb H1 H2 H3 items. subst items.
  rewrite (VerifyScript_data txIn [[]; sa; sb] _
             (map item_pop [Op OP_2; Data p1; Data p2; Data p3; Op OP_3; Op OP_CHECKMULTISIG]));
    try done.
  - cbn [rev app]. rewrite exec_multisig23 by (done || (cbn; lia)).
    destruct (multisigLoop _ _ _ _ _ _) as [success|e]; [|done]. cbn [mbind result_bind].
    by destruct (negb success && VerifyNullFail flags && _).
  - repeat apply Forall_cons; try apply Forall_nil; [left; done|assumption|assumption].
  - unfold encode_items. cbn [map concat item_bytes]. rewrite ?length_app.
    cbn [length]. pose proof (length_push_spec_le p1). pose proof (length_push_spec_le p2).
    pose proof (length_push_spec_le p3). cbv [MaxScriptSize]. lia.
  - apply parse_encode_items.
    repeat constructor; cbn [item_parsable]; rewrite ?H1, ?H2, ?H3;
      cbv [OP_2 OP_3 OP_CHECKMULTISIG]; try oplen; lia.
Qed.

(** One round of the signature loop with a non-empty signature. *)
Lemma multisigLoop_step script pk pks sig ht sigs :
  (length sigs <= length pks)%nat -> checkHashTypeEncoding flags (byte.unsigned (b8 ht)) = Ok tt ->
  multisigLoop flags tx txIdx script (pk :: pks) ((sig ++ [b8 ht]) :: sigs) =
  if VerifyDER pk sig (calcSignatureHash script (byte.unsigned (b8 ht)) tx txIdx)
  then multisigLoop flags tx txIdx script pks sigs
  else multisigLoop flags tx txIdx script pks ((sig ++ [b8 ht]) :: sigs).
Proof.
  intros Hl Ht. cbn [multisigLoop length]. zdecide.
  destruct (sig ++ [b8 ht]) eqn:E; [by destruct sig|]. rewrite <- E, splitSig_app, Ht. done.
Qed.

End Steps.

(** ** The invariant of a run *)

Section Invariant.
Context `{Crypto} (flags : ScriptFlags) (tx : MsgTx) (txIdx : nat).

Lemma opcodeCheckSig_frame vm vm' :
  opcodeCheckSig flags tx txIdx vm = Ok vm' -> numOps vm' = numOps vm /\ subScript vm' = subScript vm.
Proof. unfold opcodeCheckSig. intros E. by result_inv; subst. Qed.

Lemma opcodeCheckMultiSig_frame vm vm' :
  opcodeCheckMultiSig flags tx txIdx vm = Ok vm' ->
  numOps vm' <= MaxOpsPerScript /\ subScript vm' = subScript vm.
Proof. unfold opcodeCheckMultiSig. intros E. result_inv; subst; cbn. zhyps. split; [lia|done]. Qed.

(** An opcode function keeps the operation count or leaves it within the
    limit, and keeps the script since the separator or moves it to the
    rest of the script. *)
Lemma opfunc_frame pop rest vm vm' :
  opfunc flags tx txIdx pop rest vm = Ok vm' ->
  (numOps vm' = numOps vm \/ numOps vm' <= MaxOpsPerScript) /\
  (subScript vm' = subScript vm \/ subScript vm' = rest).
Proof.
  unfold opfunc. intros E.
  repeat match type of E with (if ?b then _ else _) = _ => destruct b end;
    result_inv; subst; cbn; auto.
  - apply opcodeCheckSig_frame in E. intuition.
  - apply opcodeCheckMultiSig_frame in E. intuition.
Qed.

Lemma executeOpcode_inv script pop rest vm vm' :
  suffix (pop :: rest) script -> engine_inv script vm ->
  executeOpcode flags tx txIdx pop rest vm = Ok vm' -> engine_inv script vm'.
Proof.
  intros Hs (Hn & Hk & Hsub) E. unfold executeOpcode in E.
  result_inv; subst;
    match goal with Hf : opfunc _ _ _ _ _ _ = Ok _ |- _ => apply opfunc_frame in Hf as [Hn' Hs'] end;
    cbn [numOps subScript dstack] in *; zhyps.
  all: unfold engine_inv; split_and!; [lia|lia|].
  all: destruct Hs' as [->| ->]; eauto using suffix_cons_l.
Qed.

(** Invariant of the interpreter: a run of any suffix of a script
    that succeeds keeps the operation count within [MaxOpsPerScript], the
    stack within [MaxStackSize] items and the script since the last
    [OP_CODESEPARATOR] a suffix of the script, when it starts so. *)
Theorem execOps_invariant script pops vm vm' :
  suffix pops script -> engine_inv script vm ->
  execOps flags tx txIdx pops vm = Ok vm' -> engine_inv script vm'.
Proof.
  revert vm. induction pops as [|pop rest IH]; intros vm Hs Hi E; cbn [execOps] in E.
  - by injection E as <-.
  - result_inv. eauto using executeOpcode_inv, suffix_cons_l.
Qed.

End Invariant.

(** ** Witnesses *)

Lemma execOps_invariant_witness :
  suffix sep_script sep_script /\ engine_inv sep_script (mkEngine [] 0 sep_script) /\
  @execOps toy_crypto strict_flags empty_tx 0 sep_script (mkEngine [] 0 sep_script) = Ok sep_final /\
  engine_inv sep_script sep_final.
Proof.
  assert (suffix sep_script sep_script) as H1 by (refine (bool_decide_unpack _ _); vm_compute; reflexivity).
  assert (engine_inv sep_script (mkEngine [] 0 sep_script)) as H2
    by (refine (bool_decide_unpack _ _); vm_compute; reflexivity).
  assert (@execOps toy_crypto strict_flags empty_tx 0 sep_script (mkEngine [] 0 sep_script) =
          Ok sep_final) as H3 by (vm_compute; reflexivity).
  split_and!; [exact H1|exact H2|exact H3|].
  exact (execOps_invariant _ _ _ _ _ _ _ H1 H2 H3).
Defined.

End Engine.
