(* ===== verification/Main.v ===== *)
(** * Main: the program of src/main.go

    The constants (lines 17-28), the [utxo] struct (lines 30-35), [main]
    (lines 37-91), [getPkScript] (lines 93-100) and [assembleTx] (lines
    102-120).  What [main] calls outside the development (base58 address
    and WIF decoding of [btcutil], terminal colours of [tcolor]) is the
    class [Env]; the cryptography is the class [Crypto].  [main] is a
    function to its [Outcome]: the lines it prints and how it ends. *)

From Stdlib Require Import ZArith List String Lia.
From stdpp Require Import base list decidable.
From S2P Require Import Prelude Crypto Hex Script ScriptParse CompactSize Wire Sign.
Import ListNotations Script Parse Wire Sign.
Open Scope Z_scope.
Open Scope btc_scope.

Module Main.

(** ** Constants and data (lines 17-35) *)

Definition base58Address : string := "mkYnutdmyXbTMk1QNgp3hcQa1pgGhXVY1S".
Definition privkey : string := "cNRuBb89ZA9UskAp3GsNW8o4PPsRjD5wY1JnQWwe6iL8td2bDXN8".
Definition feeRate : Z := 1.
Definition defaultSignatureSize : Z := 107.
Definition defaultSequence : Z := 0xffffffff.

(** [type utxo struct]: [index] is a Go [int]. *)
Record utxo := mkUtxo { amount : Z; txHash : bytes; index : Z; pkScript : bytes }.

(** Go's conversion [uint32(x)] of an [int]: the low 32 bits. *)
Definition uint32_of_int (x : Z) : Z := x mod 2 ^ 32.

(** The transaction id of the spent output (line 45). *)
Definition utxoTxHashStr : string :=
  "1cf2928ba8ad02199cf320af8f6322269cb6ed8057349e2ee91a015f9fb54ab1".

(** The three public keys of the multisig output (lines 67-69); the
    decoding errors are discarded ([pk1, _ := ...]). *)
Definition pk1_hex : string := "0334a8eb36d3add6a717cd1cde34f4cadc9e11154edecf2eb6f9bc50eee93ecf4c".
Definition pk1 : bytes := fst (Hex.DecodeString pk1_hex).
Definition pk2_hex : string := "033a7bbfe0c777f5d3d1d89cd1479add8746df0a010fb80baf192ab2cb247c25a1".
Definition pk2 : bytes := fst (Hex.DecodeString pk2_hex).
Definition pk3_hex : string := "0386dbc13a9933a37103f1eb479c5a362eec91537c1361d8a34877a5576b3df5eb".
Definition pk3 : bytes := fst (Hex.DecodeString pk3_hex).

(** The 2-of-3 multisig locking script (lines 70-71). *)
Definition multisigScript : result bytes :=
  Script (NewScriptBuilder |> AddOp OP_2 |> AddData pk1 |> AddData pk2 |> AddData pk3
            |> AddOp OP_3 |> AddOp OP_CHECKMULTISIG).

(** ** Collaborators *)

Inductive Color := Red | Green.

Class Env := {
  (** [btcutil.DecodeAddress(address, &chaincfg.TestNet3Params)]. *)
  DecodeAddress : string -> result Address;
  (** [btcutil.DecodeWIF(wif)]. *)
  DecodeWIF : string -> result WIF;
  (** [tcolor.WithColor(color, s)]. *)
  WithColor : Color -> string -> string
}.

(** How [main] ends: [os.Exit(code)] or a return (code 0), or a [panic];
    with the lines printed on standard output before. *)
Inductive Outcome :=
| Exit (code : Z) (stdout : list string)
| Panic (err : string) (stdout : list string).

(** [fmt.Println(a, b)]: the operands separated by a space. *)
Definition Println2 (a b : string) : string := (a ++ " " ++ b)%string.

Section WithEnv.
Context `{Crypto} `{Env}.

(** [getPkScript(address)] (lines 93-100). *)
Definition getPkScript (address : string) : result bytes :=
  addr ← DecodeAddress address;
  PayToAddrScript addr.

(** The [utxo] filled in by [main] (lines 50-54). *)
Definition main_utxo (txHash pkScript : bytes) : utxo := mkUtxo 110000 txHash 0 pkScript.

(** [tx.TxOut] of [assembleTx] (lines 107-110). *)
Definition assembleTx_outputs (multisig pkScript : bytes) : list TxOut :=
  [mkTxOut 900000 pkScript; mkTxOut 100000 multisig].

(** The input of [assembleTx] (lines 112-115). *)
Definition assembleTx_input (u : utxo) : TxIn :=
  mkTxIn (NewOutPoint (txHash u) (uint32_of_int (index u))) [] [] defaultSequence.

(** [assembleTx(u, multisig, pkScript, wif)] (lines 102-120). *)
Definition assembleTx (u : utxo) (multisig pkScript : bytes) (wif : WIF) : result MsgTx :=
  let tx := mkMsgTx 1 [] [] 0 in
  let tx := mkMsgTx (Version tx) (TxIns tx) (assembleTx_outputs multisig pkScript) (LockTime tx) in
  let tx := mkMsgTx (Version tx) (TxIns tx ++ [assembleTx_input u]) (TxOuts tx) (LockTime tx) in
  sign tx 1100000 pkScript wif.

(** The two lines printed on success (lines 89-90). *)
Definition main_output (tx : MsgTx) : list string :=
  [Println2 "txhash:         " (WithColor Green (ChainHash.String (TxHash tx)));
   Println2 "raw transaction:" (WithColor Green (Hex.EncodeToString (Serialize tx)))].

(** [main()] (lines 37-91).  [tx.Serialize] into a [bytes.Buffer] cannot
    fail, so the branch of lines 84-87 is not reachable. *)
Definition main : Outcome :=
  match getPkScript base58Address with
  | Err e => Exit 1 [WithColor Red ("Please check your bech32 address: " ++ e)%string]
  | Ok pkScript =>
  match ChainHash.NewHashFromStr utxoTxHashStr with
  | Err e => Panic e []
  | Ok txHash =>
  let u := main_utxo txHash pkScript in
  match DecodeWIF privkey with
  | Err e => Exit 1 [WithColor Red ("Privkey format error: " ++ e)%string]
  | Ok wif =>
  match multisigScript with
  | Err e => Panic e []
  | Ok script =>
  match assembleTx u script pkScript wif with
  | Err e => Exit 1 [WithColor Red ("Assemble transaction or sign error:" ++ e)%string]
  | Ok tx => Exit 0 (main_output tx)
  end end end end end.

(** ** Specification of the program *)

(** The chain of the multisig locking script. *)
Definition multisig_items : list ScriptItem :=
  [Op OP_2; Data pk1; Data pk2; Data pk3; Op OP_3; Op OP_CHECKMULTISIG].

(** The id of the spent transaction, in its stored (reversed) byte order. *)
Definition utxoHash : bytes :=
  rev [b8 0x1c; b8 0xf2; b8 0x92; b8 0x8b; b8 0xa8; b8 0xad; b8 0x02; b8 0x19;
       b8 0x9c; b8 0xf3; b8 0x20; b8 0xaf; b8 0x8f; b8 0x63; b8 0x22; b8 0x26;
       b8 0x9c; b8 0xb6; b8 0xed; b8 0x80; b8 0x57; b8 0x34; b8 0x9e; b8 0x2e;
       b8 0xe9; b8 0x1a; b8 0x01; b8 0x5f; b8 0x9f; b8 0xb5; b8 0x4a; b8 0xb1].

(** The transaction of the program before signing: version 1, lock time
    0, one input spending output 0 of [utxoHash] with the final sequence
    number, then the change output of 900000 satoshi to [pkScript] and the
    multisig output of 100000 satoshi, in this order. *)
Definition unsigned_tx (pkScript : bytes) : MsgTx :=
  mkMsgTx 1 [mkTxIn (mkOutPoint utxoHash 0) [] [] MaxTxInSequenceNum]
    [mkTxOut 900000 pkScript; mkTxOut 100000 (encode_items multisig_items)]
    0.

(** The transaction [assembleTx] builds before it calls [sign]: version 1,
    lock time 0, the outputs in the order of lines 109-110 and the input of
    lines 112-116. *)
Definition assembled_tx (u : utxo) (multisig pkScript : bytes) : MsgTx :=
  mkMsgTx 1 [mkTxIn (mkOutPoint (txHash u) (uint32_of_int (index u))) [] [] MaxTxInSequenceNum]
    [mkTxOut 900000 pkScript; mkTxOut 100000 multisig] 0.


End WithEnv.

(** ** An executable environment

    A stand-in for [btcutil] and [tcolor] on which [main] runs: every key
    string decodes to the same key, the program's address to the P2PKH
    address of that key, and colouring leaves the text as it is. *)
Definition toy_wif : WIF := mkWIF [b8 42] true.
Definition toy_pkh : bytes := @Hash160 toy_crypto (@SerializeCompressed toy_crypto (PrivKey toy_wif)).
Definition toy_env : Env := {|
  DecodeAddress a := if String.eqb a base58Address then Ok (AddressPubKeyHash toy_pkh)
                     else Err "decoded address is of unknown format";
  DecodeWIF _ := Ok toy_wif;
  WithColor _ s := s
|}.

Definition sample_pk : bytes := encode_items (addr_items (AddressPubKeyHash toy_pkh)).
Definition sample_utxo : utxo := mkUtxo 110000 utxoHash 0 sample_pk.
Definition sample_signed : MsgTx :=
  @signed_tx toy_crypto (unsigned_tx sample_pk) (map item_pop (addr_items (AddressPubKeyHash toy_pkh))) toy_wif.

(** ** Properties *)

Lemma utxoHash_ok : ChainHash.NewHashFromStr utxoTxHashStr = Ok utxoHash.
Proof. vm_compute. reflexivity. Qed.

Lemma multisigScript_ok : multisigScript = Ok (encode_items multisig_items).
Proof. vm_compute. reflexivity. Qed.

Lemma assembleTx_unsigned u multisig pkScript :
  mkMsgTx 1 ([] ++ [assembleTx_input u]) (assembleTx_outputs multisig pkScript) 0 =
  assembled_tx u multisig pkScript.
Proof. reflexivity. Qed.

(** [assembleTx] is [sign] of [assembled_tx]. *)
Lemma assembleTx_sign `{Crypto} u multisig pkScript wif :
  assembleTx u multisig pkScript wif = sign (assembled_tx u multisig pkScript) 1100000 pkScript wif.
Proof. unfold assembleTx. cbn [Version TxIns TxOuts LockTime]. by rewrite assembleTx_unsigned. Qed.

Lemma assembleTx_Ok `{Crypto} u multisig pkScript wif tx :
  assembleTx u multisig pkScript wif = Ok tx ->
  exists pops, parseScript pkScript = Ok pops /\ isPubKeyHash pops = true /\
    tx = signed_tx (assembled_tx u multisig pkScript) pops wif.
Proof.
  rewrite assembleTx_sign, sign_spec. destruct (parseScript pkScript) as [pops|e]; [|done].
  destruct (isPubKeyHash pops) eqn:Hk; [|done]. intros [= <-]. by exists pops.
Qed.

(** The assembled transaction is well formed for the wire format when the
    spent hash has 32 bytes and the two scripts fit a message. *)
Lemma signed_assembled_wf `{Crypto} u multisig pkScript pops wif :
  length (txHash u) = 32%nat -> Z.of_nat (length pkScript) <= MaxMessagePayload ->
  Z.of_nat (length multisig) <= MaxMessagePayload ->
  tx_wf (signed_tx (assembled_tx u multisig pkScript) pops wif).
Proof.
  intros Hh Hp Hm. pose proof (length_sigScript_spec (assembled_tx u multisig pkScript) pops wif 0).
  pose proof (Z.mod_pos_bound (index u) (2 ^ 32) ltac:(lia)).
  unfold signed_tx. cbn [TxIns Version TxOuts LockTime assembled_tx sign_all_from].
  set (ss := sigScript_spec _ pops wif 0) in *.
  cbv [tx_wf txin_wf outpoint_wf witness_wf txout_wf in_signed in_unsigned set_sigScript
       uint32_of_int].
  cbn [TxIns TxOuts Version LockTime PreviousOutPoint Hash Index Wire.SignatureScript
       Witness Sequence Value PkScript length].
  rewrite maxTxInPerMessage_val, maxTxOutPerMessage_val, MaxMessagePayload_val in *.
  cbv [maxWitnessItemsPerInput HashSize MaxTxInSequenceNum].
  repeat (split || apply Forall_cons || apply Forall_nil); cbn -[ss]; lia.
Qed.

(** A locking script [PayToAddrScript] returns fits [MaxScriptSize]. *)
Lemma PayToAddrScript_size addr s :
  PayToAddrScript addr = Ok s -> Z.of_nat (length s) <= MaxScriptSize.
Proof.
  intros Hs. apply PayToAddrScript_refines in Hs as [Hok ->].
  apply andb_prop in Hok as [Hl _]. by apply Z.leb_le.
Qed.

(** What a successful [main] has done: decoded the address and the key,
    built the locking script, and printed the transaction [assembleTx]
    returned. *)
Lemma main_Exit0 `{Crypto} `{Env} out :
  main = Exit 0 out ->
  exists addr pkScript wif tx,
    DecodeAddress base58Address = Ok addr /\ PayToAddrScript addr = Ok pkScript /\
    DecodeWIF privkey = Ok wif /\
    assembleTx (main_utxo utxoHash pkScript) (encode_items multisig_items) pkScript wif = Ok tx /\
    out = main_output tx.
Proof.
  unfold main, getPkScript. destruct (DecodeAddress base58Address) as [addr|e]; [|discriminate].
  cbn [mbind result_bind]. destruct (PayToAddrScript addr) as [pkScript|e] eqn:Hs; [|discriminate].
  rewrite utxoHash_ok. destruct (DecodeWIF privkey) as [wif|e]; [|discriminate].
  rewrite multisigScript_ok. destruct (assembleTx _ _ _ _) as [tx|e] eqn:Ha; [|discriminate].
  intros [= <-]. by exists addr, pkScript, wif, tx.
Qed.

(** The transaction [main] assembles is well formed for the wire format. *)
Lemma main_tx_wf `{Crypto} addr pkScript wif tx :
  PayToAddrScript addr = Ok pkScript ->
  assembleTx (main_utxo utxoHash pkScript) (encode_items multisig_items) pkScript wif = Ok tx ->
  tx_wf tx.
Proof.
  intros Hs (pops & _ & _ & ->)%assembleTx_Ok. pose proof (PayToAddrScript_size _ _ Hs).
  apply signed_assembled_wf; rewrite ?MaxMessagePayload_val; cbv [MaxScriptSize] in *;
    [reflexivity|lia|vm_compute; discriminate].
Qed.

(** C2: [main] in full: it fails with the address message when the
    address does not decode or its locking script cannot be built, and
    with the key message when the WIF does not decode; on a P2PKH address
    of a 20-byte hash it prints the hash and serialisation of
    [unsigned_tx pkScript] signed with the decoded key against the parsed
    [pkScript]; on any other address type the signer of spec 4.3 refuses
    the locking script and [main] reports the signing error with exit
    code 1.  The two panics are never reached. *)
Theorem main_outcome `{Crypto} `{Env} :
  main =
  match DecodeAddress base58Address with
  | Err e => Exit 1 [WithColor Red ("Please check your bech32 address: " ++ e)%string]
  | Ok addr =>
    match PayToAddrScript addr with
    | Err e => Exit 1 [WithColor Red ("Please check your bech32 address: " ++ e)%string]
    | Ok pkScript =>
      match DecodeWIF privkey with
      | Err e => Exit 1 [WithColor Red ("Privkey format error: " ++ e)%string]
      | Ok wif =>
        match addr with
        | AddressPubKeyHash h =>
          if (length h =? 20)%nat
          then Exit 0 (main_output (signed_tx (unsigned_tx pkScript) (map item_pop (addr_items addr)) wif))
          else Exit 1 [WithColor Red ("Assemble transaction or sign error:" ++ ErrUnsupportedScript)%string]
        | _ => Exit 1 [WithColor Red ("Assemble transaction or sign error:" ++ ErrUnsupportedScript)%string]
        end
      end
    end
  end.
Proof.
  unfold main, getPkScript. destruct (DecodeAddress base58Address) as [addr|e]; [|done].
  cbn [mbind result_bind]. destruct (PayToAddrScript addr) as [pkScript|e] eqn:Hs; [|done].
  rewrite utxoHash_ok. destruct (DecodeWIF privkey) as [wif|e]; [|done].
  rewrite multisigScript_ok, assembleTx_sign, sign_spec, (PayToAddrScript_parse _ _ Hs),
    isPubKeyHash_addr.
  destruct addr; try done. by destruct (length _ =? 20)%nat.
Qed.

(** C1: Functional behaviour of [main] on the program's own address: when
    [base58Address] decodes to a 20-byte public-key hash and [privkey]
    decodes, [main] ends with code 0 after printing the hash and the
    serialisation of the transaction that spends output 0 of the given
    transaction, pays 900000 satoshi back to the P2PKH script of the hash
    and 100000 satoshi to the bare 2-of-3 multisig script, and carries in
    its one input the [SigHashAll] unlocking script of the decoded key. *)
Theorem main_spec `{Crypto} `{Env} pkh wif :
  DecodeAddress base58Address = Ok (AddressPubKeyHash pkh) -> length pkh = 20%nat ->
  DecodeWIF privkey = Ok wif ->
  main = Exit 0 (main_output
    (signed_tx (unsigned_tx (encode_items (addr_items (AddressPubKeyHash pkh))))
       (map item_pop (addr_items (AddressPubKeyHash pkh))) wif)).
Proof.
  intros Ha Hl Hw.
  assert (PayToAddrScript (AddressPubKeyHash pkh) =
          Ok (encode_items (addr_items (AddressPubKeyHash pkh)))) as Hs.
  { apply PayToAddrScript_refines. split; [|done].
    destruct pkh as [|x [|y l]]; cbn [length] in Hl; try lia.
    unfold items_ok, elems_ok, encode_items, addr_items.
    cbn [map concat forallb item_bytes push_spec app]. rewrite ?length_app. cbn [length app].
    rewrite ?length_app. cbn [length]. rewrite ?Hl.
    cbv [push_prefix MaxScriptSize MaxScriptElementSize]. zdecide. done. }
  unfold main, getPkScript. rewrite Ha. cbn [mbind result_bind].
  rewrite Hs, utxoHash_ok, Hw, multisigScript_ok, assembleTx_sign.
  rewrite (sign_ok _ _ _ _ _ (PayToAddrScript_parse _ _ Hs)); [done|].
  rewrite isPubKeyHash_addr. by apply Nat.eqb_eq.
Qed.

(** C9: Safety of [main]: whatever the decoders and the cryptography
    return, [main] never panics: the hash string of line 45 and the
    multisig script of lines 70-71 are always accepted. *)
Theorem main_no_panic `{Crypto} `{Env} e out : main <> Panic e out.
Proof.
  unfold main. rewrite utxoHash_ok, multisigScript_ok.
  repeat case_match; discriminate.
Qed.


(** C13: The transaction [assembleTx] returns, whenever it returns one, has
    version 1, lock time 0, the change output of 900000 satoshi to
    [pkScript] followed by the 100000 satoshi output to [multisig], and one
    input spending [u] with the final sequence number and no witness. *)
Theorem assembleTx_shape `{Crypto} u multisig pkScript wif tx :
  assembleTx u multisig pkScript wif = Ok tx ->
  Version tx = 1 /\ LockTime tx = 0 /\
  TxOuts tx = [mkTxOut 900000 pkScript; mkTxOut 100000 multisig] /\
  map PreviousOutPoint (TxIns tx) = [mkOutPoint (txHash u) (uint32_of_int (index u))] /\
  map Sequence (TxIns tx) = [MaxTxInSequenceNum] /\ map Witness (TxIns tx) = [[]].
Proof.
  rewrite assembleTx_sign. intros (-> & -> & -> & -> & -> & ->)%sign_preserves. done.
Qed.





(** C10: Round trip of the program's output: the transaction [assembleTx]
    returns decodes back from the bytes [main] prints, whenever the spent
    hash has 32 bytes and the two locking scripts fit a message (as they
    do in [main]). *)
Theorem assembleTx_roundtrip `{Crypto} u multisig pkScript wif tx :
  assembleTx u multisig pkScript wif = Ok tx ->
  length (txHash u) = 32%nat -> Z.of_nat (length pkScript) <= MaxMessagePayload ->
  Z.of_nat (length multisig) <= MaxMessagePayload ->
  Deserialize (Serialize tx) = Ok (tx, []).
Proof.
  intros (pops & _ & _ & ->)%assembleTx_Ok Hh Hp Hm.
  rewrite <- (app_nil_r (Serialize _)). apply Deserialize_Serialize; [|done].
  by apply signed_assembled_wf.
Qed.

(** C14: The hash [main] prints is the identifying hash of the bytes it
    prints: the hex, in reversed byte order, of the double hash of the
    serialisation whose hex is the second line. *)
Theorem main_output_hash `{Crypto} `{Env} u multisig pkScript wif tx :
  assembleTx u multisig pkScript wif = Ok tx ->
  main_output tx =
  [Println2 "txhash:         " (WithColor Green (Hex.EncodeToString (rev (DoubleHashB (Serialize tx)))));
   Println2 "raw transaction:" (WithColor Green (Hex.EncodeToString (Serialize tx)))].
Proof.
  intros (pops & _ & _ & ->)%assembleTx_Ok. unfold main_output, ChainHash.String.
  by rewrite TxHash_Serialize.
Qed.

(** C11: Refinement of [getPkScript] by the canonical encoding: it returns
    a script exactly when the address decodes and the chain of its
    standard locking script fits the limits, and that script is the
    encoding of the chain. *)
Theorem getPkScript_refines `{Env} address s :
  getPkScript address = Ok s <->
  exists addr, DecodeAddress address = Ok addr /\
    items_ok (addr_items addr) = true /\ s = encode_items (addr_items addr).
Proof.
  unfold getPkScript. destruct (DecodeAddress address) as [addr|e]; cbn [mbind result_bind].
  - rewrite PayToAddrScript_refines. split; [intros; by exists addr|].
    by intros (a & [= <-] & ?).
  - split; [discriminate|]. by intros (a & ? & _).
Qed.

(** C12: The locking script [getPkScript] returns parses back to the chain
    of opcodes and pushes of its address. *)
Theorem getPkScript_parse `{Env} address s :
  getPkScript address = Ok s ->
  exists addr, DecodeAddress address = Ok addr /\
    parseScript s = Ok (map item_pop (addr_items addr)).
Proof.
  unfold getPkScript. destruct (DecodeAddress address) as [addr|e]; [|discriminate].
  cbn [mbind result_bind]. intros Hs. exists addr. split; [done|]. by apply PayToAddrScript_parse.
Qed.


(** ** Witnesses *)

#[local] Existing Instance toy_crypto.
#[local] Existing Instance toy_env.

Lemma main_spec_witness :
  DecodeAddress base58Address = Ok (AddressPubKeyHash toy_pkh) /\ length toy_pkh = 20%nat /\
  DecodeWIF privkey = Ok toy_wif /\
  main = Exit 0 (main_output
    (signed_tx (unsigned_tx (encode_items (addr_items (AddressPubKeyHash toy_pkh))))
       (map item_pop (addr_items (AddressPubKeyHash toy_pkh))) toy_wif)).
Proof.
  assert (DecodeAddress base58Address = Ok (AddressPubKeyHash toy_pkh)) as H1 by reflexivity.
  assert (length toy_pkh = 20%nat) as H2 by reflexivity.
  assert (DecodeWIF privkey = Ok toy_wif) as H3 by reflexivity.
  split_and!; [exact H1|exact H2|exact H3|]. exact (main_spec _ _ H1 H2 H3).
Defined.



Lemma assembleTx_sample :
  assembleTx sample_utxo (encode_items multisig_items) sample_pk toy_wif =
  Ok sample_signed.
Proof. vm_compute. reflexivity. Qed.

Lemma assembleTx_shape_witness :
  assembleTx sample_utxo (encode_items multisig_items) sample_pk toy_wif =
    Ok sample_signed /\
  Version sample_signed = 1 /\ LockTime sample_signed = 0 /\
  TxOuts sample_signed = [mkTxOut 900000 sample_pk; mkTxOut 100000 (encode_items multisig_items)] /\
  map PreviousOutPoint (TxIns sample_signed) =
    [mkOutPoint (txHash sample_utxo)
       (uint32_of_int (index sample_utxo))] /\
  map Sequence (TxIns sample_signed) = [MaxTxInSequenceNum] /\
  map Witness (TxIns sample_signed) = [[]].
Proof. split; [exact assembleTx_sample|]. exact (assembleTx_shape _ _ _ _ _ assembleTx_sample). Defined.


Lemma assembleTx_roundtrip_witness :
  assembleTx sample_utxo (encode_items multisig_items) sample_pk toy_wif =
    Ok sample_signed /\
  length (txHash sample_utxo) = 32%nat /\
  Z.of_nat (length sample_pk) <= MaxMessagePayload /\
  Z.of_nat (length (encode_items multisig_items)) <= MaxMessagePayload /\
  Deserialize (Serialize sample_signed) = Ok (sample_signed, []).
Proof.
  assert (length (txHash sample_utxo) = 32%nat) as H1 by reflexivity.
  assert (Z.of_nat (length sample_pk) <= MaxMessagePayload) as H2
    by (rewrite MaxMessagePayload_val; vm_compute; discriminate).
  assert (Z.of_nat (length (encode_items multisig_items)) <= MaxMessagePayload) as H3
    by (rewrite MaxMessagePayload_val; vm_compute; discriminate).
  split_and!; [exact assembleTx_sample|exact H1|exact H2|exact H3|].
  exact (assembleTx_roundtrip _ _ _ _ _ assembleTx_sample H1 H2 H3).
Defined.

Lemma main_output_hash_witness :
  assembleTx sample_utxo (encode_items multisig_items) sample_pk toy_wif =
    Ok sample_signed /\
  main_output sample_signed =
  [Println2 "txhash:         " (Hex.EncodeToString (rev (DoubleHashB (Serialize sample_signed))));
   Println2 "raw transaction:" (Hex.EncodeToString (Serialize sample_signed))].
Proof.
  split; [exact assembleTx_sample|]. exact (main_output_hash _ _ _ _ _ assembleTx_sample).
Defined.

Lemma getPkScript_parse_witness :
  getPkScript base58Address = Ok sample_pk /\
  exists addr, DecodeAddress base58Address = Ok addr /\
    parseScript sample_pk = Ok (map item_pop (addr_items addr)).
Proof.
  assert (getPkScript base58Address = Ok sample_pk) as H by (vm_compute; reflexivity).
  split; [exact H|]. exact (getPkScript_parse _ _ H).
Defined.

End Main.
