(* ===== verification/Spend.v ===== *)
(** * Spend: the program's scripts under the interpreter

    The guarantee of spec 4.3 for the transaction [assembleTx] signs: its
    input passes the P2PKH locking script it was signed against, and spec
    8's multisig property for the output [main] pays to: a spending input
    carrying [OP_0 <sig1> <sig3>], signatures in the order of their keys,
    passes the 2-of-3 script, and the same signatures swapped fail; and
    spec 6's scenario end to end: the raw transaction [main] prints decodes
    back to a transaction whose input passes the spent script. *)

From Stdlib Require Import ZArith List String Lia.
From stdpp Require Import base list decidable.
From S2P Require Import Prelude Crypto Hex Script ScriptParse Wire Sign Engine Main.
Import ListNotations Script Parse Wire Sign Engine Main.
Open Scope Z_scope.
Open Scope btc_scope.

Module Spend.

Section WithCrypto.
Context `{Crypto}.

(** The public key a [WIF] signs for ([wif.SerializePubKey()]). *)
Definition wif_pubkey (wif : WIF) : bytes :=
  if CompressPubKey wif then SerializeCompressed (PrivKey wif) else SerializeUncompressed (PrivKey wif).

(** The signature of key [k] for input [idx] of [spend] against the
    multisig script, with the [SigHashAll] byte. *)
Definition multisig_sig (k : bytes) (spend : MsgTx) (idx : nat) : bytes :=
  SignDER k (calcSignatureHash (map item_pop multisig_items) SigHashAll spend idx) ++ [b8 SigHashAll].

End WithCrypto.

(** A transaction spending the program's multisig output, signed with the
    executable [toy_crypto] by the "keys" [pk1] and [pk3] (a toy private
    key is its compressed public key), in the order of the keys and
    swapped. *)
Definition spend_input : TxIn := mkTxIn (mkOutPoint (repeat (b8 5) 32) 1) [] [] MaxTxInSequenceNum.
Definition spend0 : MsgTx := mkMsgTx 1 [spend_input] [mkTxOut 90000 []] 0.
Definition in_order_script : bytes :=
  encode_items [Data []; Data (@multisig_sig toy_crypto pk1 spend0 0);
                Data (@multisig_sig toy_crypto pk3 spend0 0)].
Definition swapped_script : bytes :=
  encode_items [Data []; Data (@multisig_sig toy_crypto pk3 spend0 0);
                Data (@multisig_sig toy_crypto pk1 spend0 0)].
Definition spend_in_order : MsgTx := set_input_script spend0 0 in_order_script.
Definition spend_swapped : MsgTx := set_input_script spend0 0 swapped_script.
Definition all_flags : ScriptFlags := mkFlags true true true true true true.

(** The program's transaction signed by the toy key against the P2PKH
    script of a hash that is not the key's. *)
Definition other_pkh : bytes := repeat (b8 0) 20.
Definition other_pk : bytes := encode_items (addr_items (AddressPubKeyHash other_pkh)).
Definition other_signed : MsgTx :=
  @signed_tx toy_crypto (assembled_tx sample_utxo (encode_items multisig_items) other_pk)
    (map item_pop (addr_items (AddressPubKeyHash other_pkh))) toy_wif.

(** ** Properties *)

Section Lemmas.
Context `{Crypto}.

Lemma checkHashType_all flags : checkHashTypeEncoding flags SigHashAll = Ok tt.
Proof. unfold checkHashTypeEncoding. by destruct (VerifyStrictEncoding flags). Qed.

Lemma splitSig_sig k h : splitSig (SignDER k h ++ [b8 SigHashAll]) = (SignDER k h, SigHashAll).
Proof. by rewrite splitSig_app. Qed.

Lemma length_sig k h :
  (forall k h, 34 <= length (SignDER k h))%nat ->
  (35 <= length (SignDER k h ++ [b8 SigHashAll]) <= 73)%nat.
Proof.
  intros Hlong. rewrite length_app. pose proof (Hlong k h). pose proof (SignDER_length k h).
  cbn [length]. lia.
Qed.

Lemma VerifyDER_wif wif h : VerifyDER (wif_pubkey wif) (SignDER (PrivKey wif) h) h = true.
Proof.
  unfold wif_pubkey. destruct (CompressPubKey wif);
    [apply VerifyDER_compressed|apply VerifyDER_uncompressed].
Qed.

Lemma length_wif_pubkey wif : (33 <= length (wif_pubkey wif) <= 65)%nat.
Proof.
  unfold wif_pubkey. destruct (CompressPubKey wif);
    rewrite ?SerializeCompressed_length, ?SerializeUncompressed_length; lia.
Qed.

(** The signed transaction hashes like the unsigned one. *)
Lemma calcSignatureHash_signed pops pops' ht A wif idx :
  calcSignatureHash pops ht (signed_tx A pops' wif) idx = calcSignatureHash pops ht A idx.
Proof.
  apply calcSignatureHash_strip; try done. cbn [signed_tx TxIns].
  generalize 0%nat. induction (TxIns A) as [|ti tis IH]; intros i; [done|].
  cbn [sign_all_from map]. rewrite IH. by rewrite set_sigScript_idem.
Qed.

Lemma multisig_pops_keep sigs :
  Forall (fun s => 34 <= length s)%nat sigs ->
  fold_left removeOpcodeByData sigs (map item_pop multisig_items) = map item_pop multisig_items.
Proof.
  intros Hall. induction Hall as [|s sigs Hs _ IH]; [done|]. cbn [fold_left].
  rewrite removeOpcodeByData_keep; [exact IH|].
  assert (forall d, (length d <= 33)%nat -> contains d s = false) as Hc
    by (intros d Hd; apply contains_long; lia).
  repeat constructor; apply Hc; cbn [item_pop data]; try (cbn; lia);
    rewrite push_pop_data; (vm_compute; lia).
Qed.

Lemma length_pks : length pk1 = 33%nat /\ length pk2 = 33%nat /\ length pk3 = 33%nat.
Proof. vm_compute. auto. Qed.

(** The multisig output spent with [OP_0 push(sa) push(sb)]: the
    signature loop over the keys, last pushed first, decides. *)
Lemma multisig_verify flags spend idx txIn sa sb :
  nth_error (TxIns spend) idx = Some txIn ->
  Wire.SignatureScript txIn = encode_items [Data []; Data sa; Data sb] ->
  (34 <= length sa)%nat -> Z.of_nat (length sa) <= MaxScriptElementSize ->
  (34 <= length sb)%nat -> Z.of_nat (length sb) <= MaxScriptElementSize ->
  VerifyScript flags spend idx (encode_items multisig_items) =
  (success ← multisigLoop flags spend idx (map item_pop multisig_items) [pk3; pk2; pk1] [sb; sa];
   if negb success && VerifyNullFail flags
   then Err "not all signatures empty on failed checkmultisig"
   else CheckErrorCondition flags [fromBool success]).
Proof.
  intros Hn Hs Ha1 Ha2 Hb1 Hb2. destruct length_pks as (H1 & H2 & H3).
  unfold multisig_items. rewrite (verify_multisig23 _ _ _ _ pk1 pk2 pk3 sa sb Hn Hs);
    try done; try (right; split; [lia|done]).
  fold multisig_items. rewrite multisig_pops_keep by (repeat constructor; lia).
  destruct (multisigLoop _ _ _ _ _ _) as [success|e]; [|done]. cbn [mbind result_bind].
  destruct sa, sb; cbn [length] in *; try lia. cbn [existsb length Nat.eqb negb].
  by rewrite !orb_true_l, andb_true_r.
Qed.

Lemma multisig_sig_split k spend idx :
  multisig_sig k spend idx =
  SignDER k (calcSignatureHash (map item_pop multisig_items) (byte.unsigned (b8 SigHashAll)) spend idx)
  ++ [b8 SigHashAll].
Proof. reflexivity. Qed.

(** The unlocking script [assembleTx] writes for a P2PKH [pkScript]:
    [push(sig||01) push(pubkey)], the signature made over the returned
    transaction itself. *)
Lemma assembleTx_p2pkh_input u multisig pkh wif tx :
  assembleTx u multisig (encode_items (addr_items (AddressPubKeyHash pkh))) wif = Ok tx ->
  length pkh = 20%nat ->
  exists txIn, nth_error (TxIns tx) 0 = Some txIn /\
    Wire.SignatureScript txIn =
    encode_items [Data (SignDER (PrivKey wif)
                          (calcSignatureHash (map item_pop (addr_items (AddressPubKeyHash pkh)))
                             SigHashAll tx 0) ++ [b8 SigHashAll]);
                  Data (wif_pubkey wif)].
Proof.
  intros Ha Hl. destruct (assembleTx_Ok _ _ _ _ _ Ha) as (pops & Hp & _ & ->).
  rewrite (proj2 (p2pkh_script_ok pkh Hl)) in Hp. injection Hp as <-.
  rewrite calcSignatureHash_signed. by eexists.
Qed.

(** The input [assembleTx] signs against the P2PKH script of the key's
    hash passes it (the proof of [assembleTx_verifies]). *)
Lemma p2pkh_input_verifies flags u multisig pkh wif tx :
  assembleTx u multisig (encode_items (addr_items (AddressPubKeyHash pkh))) wif = Ok tx ->
  Hash160 (wif_pubkey wif) = pkh ->
  (forall k h, 34 <= length (SignDER k h))%nat ->
  VerifyScript flags tx 0 (encode_items (addr_items (AddressPubKeyHash pkh))) = Ok tt.
Proof.
  intros Ha Hh Hlong.
  assert (length pkh = 20%nat) as Hl by (rewrite <- Hh; apply Hash160_length).
  destruct (assembleTx_p2pkh_input _ _ _ _ _ Ha Hl) as (txIn & Hn & Hs).
  set (h := calcSignatureHash (map item_pop (addr_items (AddressPubKeyHash pkh))) SigHashAll tx 0).
  pose proof (length_sig (PrivKey wif) h Hlong). pose proof (length_wif_pubkey wif).
  eapply (verify_p2pkh _ _ _ _ pkh (wif_pubkey wif) (SignDER (PrivKey wif) h ++ [b8 SigHashAll]));
    rewrite ?splitSig_sig; cbn [fst snd]; cbv [MaxScriptElementSize]; try (done || lia).
  - by apply checkHashType_all.
  - apply contains_long. lia.
  - apply VerifyDER_wif.
Qed.

(** C3: The guarantee of spec 4.3 for the program's transaction: when
    [pkScript] is the P2PKH script of the hash of the signing key, the
    input of the transaction [assembleTx] returns passes it under every
    combination of the modelled verification flags.  Signatures are
    assumed longer than 33 bytes (DER signatures of secp256k1 are 70 to 72
    bytes but for negligibly rare values), so none occurs inside the
    script's 20-byte hash. *)
Theorem assembleTx_verifies flags u multisig pkh wif tx :
  assembleTx u multisig (encode_items (addr_items (AddressPubKeyHash pkh))) wif = Ok tx ->
  Hash160 (wif_pubkey wif) = pkh ->
  (forall k h, 34 <= length (SignDER k h))%nat ->
  VerifyScript flags tx 0 (encode_items (addr_items (AddressPubKeyHash pkh))) = Ok tt.
Proof. exact (p2pkh_input_verifies flags u multisig pkh wif tx). Qed.

(** C4: Spec 8's multisig property, first half: an input spending the
    program's multisig output with [OP_0 <sig1> <sig3>], signatures of the
    keys of [pk1] and [pk3] in the order of the keys, passes the script of
    lines 70-71 under every combination of the modelled flags. *)
Theorem multisig_spend_verifies flags ms spend idx txIn k1 k3 :
  multisigScript = Ok ms ->
  SerializeCompressed k1 = pk1 -> SerializeCompressed k3 = pk3 ->
  (forall k h, 34 <= length (SignDER k h))%nat ->
  nth_error (TxIns spend) idx = Some txIn ->
  Wire.SignatureScript txIn =
    encode_items [Data []; Data (multisig_sig k1 spend idx); Data (multisig_sig k3 spend idx)] ->
  VerifyScript flags spend idx ms = Ok tt.
Proof.
  rewrite multisigScript_ok. intros [= <-] Hk1 Hk3 Hlong Hn Hs.
  pose proof (length_sig k1 (calcSignatureHash (map item_pop multisig_items) SigHashAll spend idx) Hlong).
  pose proof (length_sig k3 (calcSignatureHash (map item_pop multisig_items) SigHashAll spend idx) Hlong).
  rewrite (multisig_verify _ _ _ _ _ _ Hn Hs) by (unfold multisig_sig; cbv [MaxScriptElementSize]; lia).
  rewrite !multisig_sig_split.
  rewrite multisigLoop_step by (cbn; lia || apply checkHashType_all).
  rewrite <- Hk3, VerifyDER_compressed.
  rewrite multisigLoop_step by (cbn; lia || apply checkHashType_all).
  destruct (VerifyDER pk2 _ _);
    [|rewrite multisigLoop_step by (cbn; lia || apply checkHashType_all);
      rewrite <- Hk1, VerifyDER_compressed];
    cbn; unfold CheckErrorCondition; by destruct (VerifyCleanStack flags).
Qed.

(** C5: Spec 8's multisig property, second half: the same two signatures
    pushed in the swapped order fail, with the null-fail error when that
    flag is set and with a false result otherwise, provided a signature
    made with one key does not verify under a different compressed key. *)
Theorem multisig_spend_swapped flags ms spend idx txIn k1 k3 :
  multisigScript = Ok ms ->
  SerializeCompressed k1 = pk1 -> SerializeCompressed k3 = pk3 ->
  (forall k h, 34 <= length (SignDER k h))%nat ->
  (forall k pk h, length pk = 33%nat -> pk <> SerializeCompressed k ->
                  VerifyDER pk (SignDER k h) h = false) ->
  nth_error (TxIns spend) idx = Some txIn ->
  Wire.SignatureScript txIn =
    encode_items [Data []; Data (multisig_sig k3 spend idx); Data (multisig_sig k1 spend idx)] ->
  VerifyScript flags spend idx ms =
  Err (if VerifyNullFail flags then "not all signatures empty on failed checkmultisig"
       else "false stack entry at end of script execution").
Proof.
  rewrite multisigScript_ok. intros [= <-] Hk1 Hk3 Hlong Hforge Hn Hs.
  destruct length_pks as (H1 & H2 & H3).
  pose proof (length_sig k1 (calcSignatureHash (map item_pop multisig_items) SigHashAll spend idx) Hlong).
  pose proof (length_sig k3 (calcSignatureHash (map item_pop multisig_items) SigHashAll spend idx) Hlong).
  rewrite (multisig_verify _ _ _ _ _ _ Hn Hs) by (unfold multisig_sig; cbv [MaxScriptElementSize]; lia).
  rewrite !multisig_sig_split.
  rewrite multisigLoop_step by (cbn; lia || apply checkHashType_all).
  rewrite Hforge by (done || (rewrite Hk1; vm_compute; discriminate)).
  rewrite multisigLoop_step by (cbn; lia || apply checkHashType_all).
  rewrite Hforge by (done || (rewrite Hk1; vm_compute; discriminate)).
  cbn [multisigLoop length Nat.ltb Nat.leb mbind result_bind negb andb].
  unfold CheckErrorCondition. by destruct (VerifyNullFail flags), (VerifyCleanStack flags).
Qed.

(** C6: The program's transaction is invalid when its address is not
    the key's: if the 20-byte hash of the P2PKH [pkScript] is not the hash
    of the signing key's public key, the input [assembleTx] signs fails
    that script at [OP_EQUALVERIFY], under every combination of the
    flags.  [main] does not check that [base58Address] and [privkey]
    match. *)
Theorem assembleTx_wrong_key flags u multisig pkh wif tx :
  assembleTx u multisig (encode_items (addr_items (AddressPubKeyHash pkh))) wif = Ok tx ->
  length pkh = 20%nat -> Hash160 (wif_pubkey wif) <> pkh ->
  (forall k h, 34 <= length (SignDER k h))%nat ->
  VerifyScript flags tx 0 (encode_items (addr_items (AddressPubKeyHash pkh))) =
  Err "OP_EQUALVERIFY failed".
Proof.
  intros Ha Hl Hh Hlong.
  destruct (assembleTx_p2pkh_input _ _ _ _ _ Ha Hl) as (txIn & Hn & Hs).
  eapply verify_p2pkh_mismatch; [exact Hn|exact Hs| | |exact Hl|exact Hh];
    right; cbv [MaxScriptElementSize].
  - pose proof (length_sig (PrivKey wif)
      (calcSignatureHash (map item_pop (addr_items (AddressPubKeyHash pkh))) SigHashAll tx 0) Hlong).
    lia.
  - pose proof (length_wif_pubkey wif). lia.
Qed.

(** C7: Spec 6's concrete scenario, end to end: when the program's address
    is the P2PKH address of its key and [main] exits with code 0, the
    raw transaction it prints decodes (hex, then [Deserialize]) to the
    printed transaction itself, with one input and two outputs, and that
    input passes the locking script of the spent output under every
    combination of the flags. *)
Theorem main_scenario `{Env} flags pkh wif out :
  DecodeAddress base58Address = Ok (AddressPubKeyHash pkh) -> DecodeWIF privkey = Ok wif ->
  Hash160 (wif_pubkey wif) = pkh -> (forall k h, 34 <= length (SignDER k h))%nat ->
  main = Exit 0 out ->
  exists tx, out = main_output tx /\
    Deserialize (fst (Hex.DecodeString (Hex.EncodeToString (Serialize tx)))) = Ok (tx, []) /\
    length (TxIns tx) = 1%nat /\ length (TxOuts tx) = 2%nat /\
    VerifyScript flags tx 0 (encode_items (addr_items (AddressPubKeyHash pkh))) = Ok tt.
Proof.
  intros Ha Hw Hh Hlong (addr & pkScript & wif' & tx & Ha' & Hs & Hw' & Htx & ->)%main_Exit0.
  rewrite Ha in Ha'. injection Ha' as <-. rewrite Hw in Hw'. injection Hw' as <-.
  pose proof (main_tx_wf _ _ _ _ Hs Htx) as Hwf.
  apply PayToAddrScript_refines in Hs as [_ ->].
  pose proof (p2pkh_input_verifies flags _ _ pkh wif tx Htx Hh Hlong) as Hv.
  destruct (assembleTx_Ok _ _ _ _ _ Htx) as (pops & _ & _ & Ht).
  exists tx. split_and!; [done| | rewrite Ht; reflexivity | rewrite Ht; reflexivity | exact Hv].
  rewrite Hex.DecodeString_EncodeToString. cbn [fst]. rewrite <- (app_nil_r (Serialize tx)).
  apply Deserialize_Serialize; [done|]. by rewrite Ht.
Qed.

End Lemmas.

(** ** Witnesses *)

Lemma toy_SignDER_long k h : (34 <= length (@SignDER toy_crypto k h))%nat.
Proof. cbn. rewrite length_app, !length_fit. lia. Qed.

Lemma toy_unforgeable k pk h :
  length pk = 33%nat -> pk <> @SerializeCompressed toy_crypto k ->
  @VerifyDER toy_crypto pk (@SignDER toy_crypto k h) h = false.
Proof.
  intros Hl Hne. cbn. unfold toy_verify. rewrite Hl. cbn [Nat.eqb].
  apply bool_decide_eq_false_2. intros [= E]. apply app_inv_tail in E. by apply Hne.
Qed.

Lemma assembleTx_verifies_witness :
  @assembleTx toy_crypto sample_utxo (encode_items multisig_items) sample_pk toy_wif =
    Ok sample_signed /\
  @Hash160 toy_crypto (@wif_pubkey toy_crypto toy_wif) = toy_pkh /\
  (forall k h, 34 <= length (@SignDER toy_crypto k h))%nat /\
  @VerifyScript toy_crypto all_flags sample_signed 0 sample_pk = Ok tt.
Proof.
  assert (@Hash160 toy_crypto (@wif_pubkey toy_crypto toy_wif) = toy_pkh) as Hh by reflexivity.
  split_and!; [exact assembleTx_sample|exact Hh|exact toy_SignDER_long|].
  exact (@assembleTx_verifies toy_crypto all_flags _ _ toy_pkh toy_wif _ assembleTx_sample Hh
           toy_SignDER_long).
Defined.

Lemma assembleTx_wrong_key_witness :
  @assembleTx toy_crypto sample_utxo (encode_items multisig_items) other_pk toy_wif = Ok other_signed /\
  length other_pkh = 20%nat /\ @Hash160 toy_crypto (@wif_pubkey toy_crypto toy_wif) <> other_pkh /\
  (forall k h, 34 <= length (@SignDER toy_crypto k h))%nat /\
  @VerifyScript toy_crypto all_flags other_signed 0 other_pk = Err "OP_EQUALVERIFY failed".
Proof.
  assert (@assembleTx toy_crypto sample_utxo (encode_items multisig_items) other_pk toy_wif =
          Ok other_signed) as H1 by (vm_compute; reflexivity).
  assert (length other_pkh = 20%nat) as H2 by reflexivity.
  assert (@Hash160 toy_crypto (@wif_pubkey toy_crypto toy_wif) <> other_pkh) as H3
    by (vm_compute; discriminate).
  split_and!; [exact H1|exact H2|exact H3|exact toy_SignDER_long|].
  exact (@assembleTx_wrong_key toy_crypto all_flags _ _ _ _ _ H1 H2 H3 toy_SignDER_long).
Defined.

Lemma main_scenario_witness :
  @DecodeAddress toy_env base58Address = Ok (AddressPubKeyHash toy_pkh) /\
  @DecodeWIF toy_env privkey = Ok toy_wif /\
  @Hash160 toy_crypto (@wif_pubkey toy_crypto toy_wif) = toy_pkh /\
  (forall k h, 34 <= length (@SignDER toy_crypto k h))%nat /\
  @main toy_crypto toy_env = Exit 0 (@main_output toy_crypto toy_env sample_signed) /\
  exists tx, @main_output toy_crypto toy_env sample_signed = @main_output toy_crypto toy_env tx /\
    Deserialize (fst (Hex.DecodeString (Hex.EncodeToString (Serialize tx)))) = Ok (tx, []) /\
    length (TxIns tx) = 1%nat /\ length (TxOuts tx) = 2%nat /\
    @VerifyScript toy_crypto all_flags tx 0 sample_pk = Ok tt.
Proof.
  assert (@DecodeAddress toy_env base58Address = Ok (AddressPubKeyHash toy_pkh)) as H1
    by reflexivity.
  assert (@DecodeWIF toy_env privkey = Ok toy_wif) as H2 by reflexivity.
  assert (@Hash160 toy_crypto (@wif_pubkey toy_crypto toy_wif) = toy_pkh) as H3 by reflexivity.
  assert (@main toy_crypto toy_env = Exit 0 (@main_output toy_crypto toy_env sample_signed)) as H5
    by (vm_compute; reflexivity).
  split_and!; [exact H1|exact H2|exact H3|exact toy_SignDER_long|exact H5|].
  exact (@main_scenario toy_crypto toy_env all_flags _ _ _ H1 H2 H3 toy_SignDER_long H5).
Defined.

Lemma multisig_spend_verifies_witness :
  multisigScript = Ok (encode_items multisig_items) /\
  @SerializeCompressed toy_crypto pk1 = pk1 /\ @SerializeCompressed toy_crypto pk3 = pk3 /\
  nth_error (TxIns spend_in_order) 0 = Some (set_sigScript in_order_script spend_input) /\
  Wire.SignatureScript (set_sigScript in_order_script spend_input) =
    encode_items [Data []; Data (@multisig_sig toy_crypto pk1 spend_in_order 0);
                  Data (@multisig_sig toy_crypto pk3 spend_in_order 0)] /\
  @VerifyScript toy_crypto all_flags spend_in_order 0 (encode_items multisig_items) = Ok tt.
Proof.
  assert (@SerializeCompressed toy_crypto pk1 = pk1) as H1 by (vm_compute; reflexivity).
  assert (@SerializeCompressed toy_crypto pk3 = pk3) as H3 by (vm_compute; reflexivity).
  assert (nth_error (TxIns spend_in_order) 0 = Some (set_sigScript in_order_script spend_input))
    as Hn by reflexivity.
  assert (Wire.SignatureScript (set_sigScript in_order_script spend_input) =
    encode_items [Data []; Data (@multisig_sig toy_crypto pk1 spend_in_order 0);
                  Data (@multisig_sig toy_crypto pk3 spend_in_order 0)]) as Hs
    by (vm_compute; reflexivity).
  split_and!; [exact multisigScript_ok|exact H1|exact H3|exact Hn|exact Hs|].
  exact (@multisig_spend_verifies toy_crypto all_flags _ _ _ _ pk1 pk3 multisigScript_ok H1 H3
           toy_SignDER_long Hn Hs).
Defined.

Lemma multisig_spend_swapped_witness :
  multisigScript = Ok (encode_items multisig_items) /\
  @SerializeCompressed toy_crypto pk1 = pk1 /\ @SerializeCompressed toy_crypto pk3 = pk3 /\
  nth_error (TxIns spend_swapped) 0 = Some (set_sigScript swapped_script spend_input) /\
  Wire.SignatureScript (set_sigScript swapped_script spend_input) =
    encode_items [Data []; Data (@multisig_sig toy_crypto pk3 spend_swapped 0);
                  Data (@multisig_sig toy_crypto pk1 spend_swapped 0)] /\
  @VerifyScript toy_crypto all_flags spend_swapped 0 (encode_items multisig_items) =
    Err "not all signatures empty on failed checkmultisig".
Proof.
  assert (@SerializeCompressed toy_crypto pk1 = pk1) as H1 by (vm_compute; reflexivity).
  assert (@SerializeCompressed toy_crypto pk3 = pk3) as H3 by (vm_compute; reflexivity).
  assert (nth_error (TxIns spend_swapped) 0 = Some (set_sigScript swapped_script spend_input))
    as Hn by reflexivity.
  assert (Wire.SignatureScript (set_sigScript swapped_script spend_input) =
    encode_items [Data []; Data (@multisig_sig toy_crypto pk3 spend_swapped 0);
                  Data (@multisig_sig toy_crypto pk1 spend_swapped 0)]) as Hs
    by (vm_compute; reflexivity).
  split_and!; [exact multisigScript_ok|exact H1|exact H3|exact Hn|exact Hs|].
  exact (@multisig_spend_swapped toy_crypto all_flags _ _ _ _ pk1 pk3 multisigScript_ok H1 H3
           toy_SignDER_long toy_unforgeable Hn Hs).
Defined.

End Spend.
