(* ===== verification/MainSteps.v ===== *)
(** * MainSteps: [main] statement by statement

    A small-step model of [main] (src/main.go, lines 37-91): a
    configuration is the next statement to run with the Go locals live at
    that point, and the lines printed so far; one step runs one statement
    (a call with the [if err != nil] that follows it, one [fmt.Println],
    or [os.Exit]).  The machine is a function [main_step], its transition
    relation [main_red] is the graph of that function, and runs are
    stdpp's [rtc].  The order of the statements and of the prints is
    explicit here, which the function [Main.main] only returns at the
    end: the property is that what [main] prints along any run is all or
    nothing (spec 7). *)

From Stdlib Require Import ZArith List String Lia.
From stdpp Require Import base list relations decidable.
From S2P Require Import Prelude Crypto Hex Script ScriptParse Wire Sign Main.
Import ListNotations Script Parse Wire Sign Main.
Open Scope Z_scope.
Open Scope btc_scope.

Module MainSteps.

(** ** Configurations *)

(** The statement [main] runs next, with the locals it reads. *)
Inductive Stmt :=
| L38                                                (* pkScript, err := getPkScript(...) *)
| L45 (pkScript : bytes)                             (* txHash, err := chainhash.NewHashFromStr(...) *)
| L50 (pkScript txHash : bytes)                      (* var u utxo; u.txHash = txHash; ... *)
| L57 (pkScript : bytes) (u : utxo)                  (* wif, err := btcutil.DecodeWIF(privkey) *)
| L67 (pkScript : bytes) (u : utxo) (wif : WIF)      (* pk1, _ := hex.DecodeString(...); ... *)
| L70 (pkScript : bytes) (u : utxo) (wif : WIF) (pk1 pk2 pk3 : bytes)  (* script, err := builder... *)
| L76 (pkScript : bytes) (u : utxo) (wif : WIF) (script : bytes)       (* tx, err := assembleTx(...) *)
| L82 (tx : MsgTx)                                   (* buf := bytes.NewBuffer(nil); err = tx.Serialize(buf) *)
| L89 (tx : MsgTx) (buf : bytes)                     (* fmt.Println("txhash:", ...) *)
| L90 (tx : MsgTx) (buf : bytes)                     (* fmt.Println("raw transaction:", ...) *)
| LExit (code : Z)                                   (* os.Exit(code) *)
| Exited (code : Z)                                  (* the process has ended with [code] *)
| Panicked (err : string).                           (* [panic(err)] *)

Record Config := mkConfig { stmt : Stmt; stdout : list string }.

Definition main_init : Config := mkConfig L38 [].

Section WithEnv.
Context `{Crypto} `{Env}.

(** ** Statements *)

(** [fmt.Println(tcolor.WithColor(tcolor.Red, msg))] and on to [os.Exit(1)]. *)
Definition fail_with (msg : string) (out : list string) : Config :=
  mkConfig (LExit 1) (out ++ [WithColor Red msg]).

(** Lines 38-42. *)
Definition stmt_getPkScript (out : list string) : Config :=
  match getPkScript base58Address with
  | Err e => fail_with ("Please check your bech32 address: " ++ e) out
  | Ok pkScript => mkConfig (L45 pkScript) out
  end.

(** Lines 45-48. *)
Definition stmt_txHash (pkScript : bytes) (out : list string) : Config :=
  match ChainHash.NewHashFromStr utxoTxHashStr with
  | Err e => mkConfig (Panicked e) out
  | Ok txHash => mkConfig (L50 pkScript txHash) out
  end.

(** Lines 50-54: the zero [utxo], then its fields in the order of the
    code. *)
Definition stmt_utxo (pkScript txHash : bytes) (out : list string) : Config :=
  let u := mkUtxo 0 [] 0 [] in
  let u := mkUtxo (amount u) txHash (index u) (Main.pkScript u) in
  let u := mkUtxo (amount u) (Main.txHash u) (index u) pkScript in
  let u := mkUtxo 110000 (Main.txHash u) (index u) (Main.pkScript u) in
  let u := mkUtxo (amount u) (Main.txHash u) 0 (Main.pkScript u) in
  mkConfig (L57 pkScript u) out.

(** Lines 57-61. *)
Definition stmt_wif (pkScript : bytes) (u : utxo) (out : list string) : Config :=
  match DecodeWIF privkey with
  | Err e => fail_with ("Privkey format error: " ++ e) out
  | Ok wif => mkConfig (L67 pkScript u wif) out
  end.

(** Lines 67-69: the decoding errors are discarded. *)
Definition stmt_keys (pkScript : bytes) (u : utxo) (wif : WIF) (out : list string) : Config :=
  let pk1 := fst (Hex.DecodeString pk1_hex) in
  let pk2 := fst (Hex.DecodeString pk2_hex) in
  let pk3 := fst (Hex.DecodeString pk3_hex) in
  mkConfig (L70 pkScript u wif pk1 pk2 pk3) out.

(** Lines 70-74. *)
Definition stmt_script (pkScript : bytes) (u : utxo) (wif : WIF) (pk1 pk2 pk3 : bytes)
    (out : list string) : Config :=
  match Script (NewScriptBuilder |> AddOp OP_2 |> AddData pk1 |> AddData pk2 |> AddData pk3
                  |> AddOp OP_3 |> AddOp OP_CHECKMULTISIG) with
  | Err e => mkConfig (Panicked e) out
  | Ok script => mkConfig (L76 pkScript u wif script) out
  end.

(** Lines 76-80. *)
Definition stmt_assemble (pkScript : bytes) (u : utxo) (wif : WIF) (script : bytes)
    (out : list string) : Config :=
  match assembleTx u script pkScript wif with
  | Err e => fail_with ("Assemble transaction or sign error:" ++ e) out
  | Ok tx => mkConfig (L82 tx) out
  end.

(** [tx.Serialize(buf)] into a [bytes.Buffer]: the buffer grows without
    failing, so the error is always [nil]. *)
Definition SerializeTo (buf : bytes) (tx : MsgTx) : result bytes := Ok (buf ++ Serialize tx).

(** Lines 82-87. *)
Definition stmt_serialize (tx : MsgTx) (out : list string) : Config :=
  let buf := [] in
  match SerializeTo buf tx with
  | Err e => fail_with ("Transaction serialize error:" ++ e) out
  | Ok buf => mkConfig (L89 tx buf) out
  end.

(** Line 89. *)
Definition stmt_print_hash (tx : MsgTx) (buf : bytes) (out : list string) : Config :=
  mkConfig (L90 tx buf)
    (out ++ [Println2 "txhash:         " (WithColor Green (ChainHash.String (TxHash tx)))]).

(** Line 90, then the return from [main] (exit code 0). *)
Definition stmt_print_raw (tx : MsgTx) (buf : bytes) (out : list string) : Config :=
  mkConfig (Exited 0)
    (out ++ [Println2 "raw transaction:" (WithColor Green (Hex.EncodeToString buf))]).

(** ** The machine *)

(** One statement of [main]; [None] once the process has ended. *)
Definition main_step (c : Config) : option Config :=
  let out := stdout c in
  match stmt c with
  | L38 => Some (stmt_getPkScript out)
  | L45 pkScript => Some (stmt_txHash pkScript out)
  | L50 pkScript txHash => Some (stmt_utxo pkScript txHash out)
  | L57 pkScript u => Some (stmt_wif pkScript u out)
  | L67 pkScript u wif => Some (stmt_keys pkScript u wif out)
  | L70 pkScript u wif pk1 pk2 pk3 => Some (stmt_script pkScript u wif pk1 pk2 pk3 out)
  | L76 pkScript u wif script => Some (stmt_assemble pkScript u wif script out)
  | L82 tx => Some (stmt_serialize tx out)
  | L89 tx buf => Some (stmt_print_hash tx buf out)
  | L90 tx buf => Some (stmt_print_raw tx buf out)
  | LExit code => Some (mkConfig (Exited code) out)
  | Exited _ | Panicked _ => None
  end.

Definition main_red : relation Config := fun c c' => main_step c = Some c'.

(** [fuel] statements from [c]. *)
Fixpoint main_run (fuel : nat) (c : Config) : Config :=
  match fuel with
  | O => c
  | S n => match main_step c with Some c' => main_run n c' | None => c end
  end.

End WithEnv.

(** What [main] has printed at each statement: nothing before it has
    failed or serialised its transaction, one line on the way to a failing
    exit, the two result lines when it returns. *)
Definition out_ok (c : Config) : Prop :=
  match stmt c with
  | L90 _ _ => length (stdout c) = 1%nat
  | LExit code => code = 1 /\ length (stdout c) = 1%nat
  | Exited 0 => length (stdout c) = 2%nat
  | Exited _ => length (stdout c) = 1%nat
  | _ => stdout c = []
  end.

(** ** Properties *)

Ltac unfold_stmts :=
  unfold stmt_getPkScript, stmt_txHash, stmt_utxo, stmt_wif, stmt_keys, stmt_script,
    stmt_assemble, stmt_serialize, stmt_print_hash, stmt_print_raw, fail_with, SerializeTo.

Section Properties.
Context `{Crypto} `{Env}.

Lemma main_run_rtc n c : rtc main_red c (main_run n c).
Proof.
  revert c. induction n as [|n IH]; intros c; cbn [main_run]; [constructor|].
  destruct (main_step c) as [c'|] eqn:E; [|constructor]. by eapply rtc_l.
Qed.

Lemma main_step_out_ok c c' : out_ok c -> main_step c = Some c' -> out_ok c'.
Proof.
  destruct c as [s out]. unfold out_ok. destruct s; cbn [stmt stdout main_step];
    intros Ho [= <-]; unfold_stmts; repeat (case_match; cbn [stmt stdout] in *; simplify_eq);
    rewrite ?length_app; cbn [length]; try lia; try (destruct Ho; subst); done.
Qed.

(** C8: All-or-nothing output (spec 7): along every run from the first
    statement, nothing is printed before [main] fails or has serialised
    its transaction; a failure prints one line and exits with code 1,
    success prints the two result lines and returns. *)
Theorem main_stdout_inv c : rtc main_red main_init c -> out_ok c.
Proof.
  apply (rtc_ind_r (R := main_red) out_ok main_init); [reflexivity|].
  intros c1 c2 _ Hs Ho. by eapply main_step_out_ok.
Qed.

End Properties.

(** ** Witnesses *)

#[local] Existing Instance toy_crypto.
#[local] Existing Instance toy_env.

Lemma main_stdout_inv_witness :
  rtc main_red main_init (main_run 11 main_init) /\ out_ok (main_run 11 main_init).
Proof.
  assert (rtc main_red main_init (main_run 11 main_init)) as H1 by apply main_run_rtc.
  split; [exact H1|]. exact (main_stdout_inv _ H1).
Defined.

End MainSteps.
